(** * arcade.gl.TextureArray: a shallow embedding and its properties

    The Python class [TextureArray] (src/arcade/gl/texture_array.py) wraps an
    OpenGL 2D array texture.  Its methods are embedded here as computations
    in a state-and-exception monad.  The state holds the Python object
    ([self]), the OpenGL state machine the [gl.*] calls act on and the
    [Context] the texture belongs to.  A raised Python exception leaves the
    state as it was at the [raise], exactly as in Python. *)

From Stdlib Require Import ZArith Lia Ascii.
From stdpp Require Import base gmap strings list pretty.

Local Open Scope string_scope.
Local Open Scope Z_scope.

(** ** Python values *)

Abbreviation byte := Byte.byte.

(** A [float] is an IEEE-754 binary64 value, kept as its 64-bit pattern.
    Only comparisons are ever applied to floats by the class, and these are
    exact. *)
Module Float64.

Definition t : Type := dsig (fun bits : Z => 0 <= bits < 2 ^ 64).

Definition bits (x : t) : Z := `x.

Definition zero : t := 0 ↾ I.
Definition half : t := 0x3FE0000000000000 ↾ I.            (* 0.5 *)
Definition three_quarters : t := 0x3FE8000000000000 ↾ I.  (* 0.75 *)
Definition one : t := 0x3FF0000000000000 ↾ I.             (* 1.0 *)
Definition two : t := 0x4000000000000000 ↾ I.             (* 2.0 *)
Definition sixteen : t := 0x4030000000000000 ↾ I.         (* 16.0 *)
Definition thirty_two : t := 0x4040000000000000 ↾ I.      (* 32.0 *)
Definition nan : t := 0x7FF8000000000000 ↾ I.

Definition magnitude (x : t) : Z := bits x mod 2 ^ 63.
Definition sign (x : t) : bool := 2 ^ 63 <=? bits x.
Definition is_nan (x : t) : bool := 0x7FF0000000000000 <? magnitude x.

(** Position of [x] on the number line of the extended reals, as an
    integer that grows with the value; both zeros sit at 0. *)
Definition key (x : t) : Z := if sign x then - magnitude x else magnitude x.

(** Python's [a < b] and [a <= b] on floats: false as soon as one side is
    a NaN. *)
Definition lt (a b : t) : bool :=
  negb (is_nan a) && negb (is_nan b) && (key a <? key b).
Definition le (a b : t) : bool :=
  negb (is_nan a) && negb (is_nan b) && (key a <=? key b).
Definition gt (a b : t) : bool := lt b a.

(** Python's two-argument [min] and [max]: the first argument is kept
    unless the second is strictly smaller (larger). *)
Definition min (a b : t) : t := if lt b a then b else a.
Definition max (a b : t) : t := if gt b a then b else a.

End Float64.

(** Dynamically typed arguments (the property setters accept any object). *)
Inductive PyObject :=
| PyNone
| PyBool (b : bool)
| PyInt (n : Z)
| PyFloat (f : Float64.t)
| PyStr (s : string)
| PyBytes (b : list byte)
| PyTuple (items : list Z).

(** Exceptions, by class and message. *)
Inductive Exception :=
| ValueError (msg : string)
| RuntimeError (msg : string)
| AttributeError (msg : string)
| TypeError (msg : string)
| KeyError (msg : string)
| IndexError (msg : string).

(** [str.upper] on one character.  Characters are code points below 256;
    only ASCII letters matter to the tables of this module, whose keys are
    ASCII. *)
Definition upper (c : ascii) : ascii :=
  let n := Ascii.nat_of_ascii c in
  if (Nat.leb 97 n && Nat.leb n 122)%bool then Ascii.ascii_of_nat (n - 32) else c.

(** [c in s] for a one-character [c]. *)
Fixpoint contains_char (c : ascii) (s : string) : bool :=
  match s with
  | EmptyString => false
  | String a s' => if Ascii.eqb a c then true else contains_char c s'
  end.

Fixpoint chars (s : string) : list ascii :=
  match s with
  | EmptyString => []
  | String a s' => a :: chars s'
  end.

Definition str_of_char (c : ascii) : string := String c EmptyString.

(** ** The state-and-exception monad *)

Section Monad.
Context {S : Type}.

Definition M (A : Type) : Type := S -> (Exception + A) * S.

Definition ret {A} (a : A) : M A := fun s => (inr a, s).
Definition bind {A B} (m : M A) (k : A -> M B) : M B :=
  fun s => match m s with
           | (inr a, s') => k a s'
           | (inl e, s') => (inl e, s')
           end.
Definition raise {A} (e : Exception) : M A := fun s => (inl e, s).
Definition gets {A} (f : S -> A) : M A := fun s => (inr (f s), s).
Definition modify (f : S -> S) : M unit := fun s => (inr tt, f s).
Definition when (b : bool) (m : M unit) : M unit := if b then m else ret tt.
End Monad.

Arguments M : clear implicits.

Declare Scope py_scope.
Delimit Scope py_scope with py.
Notation "x <- m ;; k" := (bind m (fun x => k))
  (at level 100, m at next level, right associativity) : py_scope.
Notation "m ;; k" := (bind m (fun _ => k))
  (at level 100, right associativity) : py_scope.

(** ** The OpenGL state machine ([pyglet.gl])

    The device is not part of the repository; this is the fragment of its
    state that the calls made by [TextureArray] read or change.  A texture
    image is kept as the tightly packed bytes of its texels, layer after
    layer and row after row; storage that was never written reads as zero.
    A call the device rejects (an enum it does not know, a negative size, a
    region outside the image) changes nothing. *)
Module gl.

Definition GL_NONE : Z := 0.
Definition GL_ZERO : Z := 0.
Definition GL_ONE : Z := 1.
Definition GL_NEVER : Z := 0x0200.
Definition GL_LESS : Z := 0x0201.
Definition GL_EQUAL : Z := 0x0202.
Definition GL_LEQUAL : Z := 0x0203.
Definition GL_GREATER : Z := 0x0204.
Definition GL_NOTEQUAL : Z := 0x0205.
Definition GL_GEQUAL : Z := 0x0206.
Definition GL_ALWAYS : Z := 0x0207.
Definition GL_UNPACK_ALIGNMENT : Z := 0x0CF5.
Definition GL_PACK_ALIGNMENT : Z := 0x0D05.
Definition GL_BYTE : Z := 0x1400.
Definition GL_UNSIGNED_BYTE : Z := 0x1401.
Definition GL_SHORT : Z := 0x1402.
Definition GL_UNSIGNED_SHORT : Z := 0x1403.
Definition GL_INT : Z := 0x1404.
Definition GL_UNSIGNED_INT : Z := 0x1405.
Definition GL_FLOAT : Z := 0x1406.
Definition GL_HALF_FLOAT : Z := 0x140B.
Definition GL_DEPTH_COMPONENT : Z := 0x1902.
Definition GL_RED : Z := 0x1903.
Definition GL_GREEN : Z := 0x1904.
Definition GL_BLUE : Z := 0x1905.
Definition GL_ALPHA : Z := 0x1906.
Definition GL_RGB : Z := 0x1907.
Definition GL_RGBA : Z := 0x1908.
Definition GL_NEAREST : Z := 0x2600.
Definition GL_LINEAR : Z := 0x2601.
Definition GL_TEXTURE_MAG_FILTER : Z := 0x2800.
Definition GL_TEXTURE_MIN_FILTER : Z := 0x2801.
Definition GL_TEXTURE_WRAP_S : Z := 0x2802.
Definition GL_TEXTURE_WRAP_T : Z := 0x2803.
Definition GL_REPEAT : Z := 0x2901.
Definition GL_RGB8 : Z := 0x8051.
Definition GL_RGBA8 : Z := 0x8058.
Definition GL_DEPTH_COMPONENT24 : Z := 0x81A6.
Definition GL_RG : Z := 0x8227.
Definition GL_RG_INTEGER : Z := 0x8228.
Definition GL_R8 : Z := 0x8229.
Definition GL_RG8 : Z := 0x822B.
Definition GL_R16F : Z := 0x822D.
Definition GL_R32F : Z := 0x822E.
Definition GL_RG16F : Z := 0x822F.
Definition GL_RG32F : Z := 0x8230.
Definition GL_R8I : Z := 0x8231.
Definition GL_R8UI : Z := 0x8232.
Definition GL_R16I : Z := 0x8233.
Definition GL_R16UI : Z := 0x8234.
Definition GL_R32I : Z := 0x8235.
Definition GL_R32UI : Z := 0x8236.
Definition GL_RG8I : Z := 0x8237.
Definition GL_RG8UI : Z := 0x8238.
Definition GL_RG16I : Z := 0x8239.
Definition GL_RG16UI : Z := 0x823A.
Definition GL_RG32I : Z := 0x823B.
Definition GL_RG32UI : Z := 0x823C.
Definition GL_TEXTURE0 : Z := 0x84C0.
Definition GL_TEXTURE_MAX_ANISOTROPY : Z := 0x84FE.
Definition GL_RGBA32F : Z := 0x8814.
Definition GL_RGB32F : Z := 0x8815.
Definition GL_RGBA16F : Z := 0x881A.
Definition GL_RGB16F : Z := 0x881B.
Definition GL_TEXTURE_COMPARE_MODE : Z := 0x884C.
Definition GL_TEXTURE_COMPARE_FUNC : Z := 0x884D.
Definition GL_COMPARE_REF_TO_TEXTURE : Z := 0x884E.
Definition GL_PIXEL_UNPACK_BUFFER : Z := 0x88EC.
Definition GL_TEXTURE_2D_ARRAY : Z := 0x8C1A.
Definition GL_RGBA32UI : Z := 0x8D70.
Definition GL_RGB32UI : Z := 0x8D71.
Definition GL_RGBA16UI : Z := 0x8D76.
Definition GL_RGB16UI : Z := 0x8D77.
Definition GL_RGBA8UI : Z := 0x8D7C.
Definition GL_RGB8UI : Z := 0x8D7D.
Definition GL_RGBA32I : Z := 0x8D82.
Definition GL_RGB32I : Z := 0x8D83.
Definition GL_RGBA16I : Z := 0x8D88.
Definition GL_RGB16I : Z := 0x8D89.
Definition GL_RGBA8I : Z := 0x8D8E.
Definition GL_RGB8I : Z := 0x8D8F.
Definition GL_RED_INTEGER : Z := 0x8D94.
Definition GL_RGB_INTEGER : Z := 0x8D98.
Definition GL_RGBA_INTEGER : Z := 0x8D99.
Definition GL_TEXTURE_SWIZZLE_R : Z := 0x8E42.
Definition GL_TEXTURE_SWIZZLE_G : Z := 0x8E43.
Definition GL_TEXTURE_SWIZZLE_B : Z := 0x8E44.
Definition GL_TEXTURE_SWIZZLE_A : Z := 0x8E45.
Definition GL_TEXTURE_2D_MULTISAMPLE_ARRAY : Z := 0x9102.

(** One mipmap level of an array texture. *)
Record Image := mkImage {
  img_width : Z;
  img_height : Z;
  img_depth : Z;
  img_data : list byte
}.

Record Texture := mkTexture {
  tex_samples : Z;
  tex_images : gmap Z Image;
  tex_parami : gmap Z Z;
  tex_paramf : gmap Z Float64.t
}.

Definition new_texture : Texture :=
  {| tex_samples := 0; tex_images := ∅; tex_parami := ∅; tex_paramf := ∅ |}.

Record State := mkState {
  current_context : bool;              (* gl.current_context is not None *)
  next_name : Z;                       (* next free texture name; 0: none *)
  active_texture : Z;
  texture_bindings : gmap (Z * Z) Z;   (* (unit, target) to texture name *)
  textures : gmap Z Texture;
  pixel_store : gmap Z Z;
  buffer_bindings : gmap Z Z
}.

Definition set_textures (f : gmap Z Texture -> gmap Z Texture) (st : State) : State :=
  {| current_context := current_context st; next_name := next_name st;
     active_texture := active_texture st;
     texture_bindings := texture_bindings st;
     textures := f (textures st);
     pixel_store := pixel_store st; buffer_bindings := buffer_bindings st |}.

Definition set_texture_bindings (f : gmap (Z * Z) Z -> gmap (Z * Z) Z) (st : State) : State :=
  {| current_context := current_context st; next_name := next_name st;
     active_texture := active_texture st;
     texture_bindings := f (texture_bindings st);
     textures := textures st;
     pixel_store := pixel_store st; buffer_bindings := buffer_bindings st |}.

Definition set_images (f : gmap Z Image -> gmap Z Image) (t : Texture) : Texture :=
  {| tex_samples := tex_samples t; tex_images := f (tex_images t);
     tex_parami := tex_parami t; tex_paramf := tex_paramf t |}.

(** The name bound to [target] on the active unit (0 when none is). *)
Definition bound (target : Z) (st : State) : Z :=
  default 0 (texture_bindings st !! (active_texture st, target)).

Definition lookup_texture (name : Z) (st : State) : Texture :=
  default new_texture (textures st !! name).

Definition with_bound (target : Z) (f : Texture -> Texture) (st : State) : State :=
  let name := bound target st in
  set_textures (insert name (f (lookup_texture name st))) st.

Definition format_components (format : Z) : option Z :=
  if decide (format = GL_RED \/ format = GL_RED_INTEGER \/ format = GL_DEPTH_COMPONENT)
  then Some 1
  else if decide (format = GL_RG \/ format = GL_RG_INTEGER) then Some 2
  else if decide (format = GL_RGB \/ format = GL_RGB_INTEGER) then Some 3
  else if decide (format = GL_RGBA \/ format = GL_RGBA_INTEGER) then Some 4
  else None.

Definition type_size (type : Z) : option Z :=
  if decide (type = GL_BYTE \/ type = GL_UNSIGNED_BYTE) then Some 1
  else if decide (type = GL_SHORT \/ type = GL_UNSIGNED_SHORT \/ type = GL_HALF_FLOAT)
  then Some 2
  else if decide (type = GL_INT \/ type = GL_UNSIGNED_INT \/ type = GL_FLOAT)
  then Some 4
  else None.

(** Bytes of one pixel in client memory for a transfer format and type. *)
Definition bytes_per_pixel (format type : Z) : option Z :=
  match format_components format, type_size type with
  | Some c, Some s => Some (c * s)
  | _, _ => None
  end.

(** Bytes from the start of one row to the start of the next in client
    memory: the row length rounded up to the alignment. *)
Definition row_stride (row_length alignment : Z) : Z :=
  (row_length + alignment - 1) / alignment * alignment.

Definition alignment_of (pname : Z) (st : State) : Z :=
  default 4 (pixel_store st !! pname).

Definition byte_at (data : list byte) (i : Z) : byte :=
  if i <? 0 then Byte.x00 else nth (Z.to_nat i) data Byte.x00.

Definition glActiveTexture (unit_ : Z) (st : State) : State :=
  {| current_context := current_context st; next_name := next_name st;
     active_texture := unit_;
     texture_bindings := texture_bindings st; textures := textures st;
     pixel_store := pixel_store st; buffer_bindings := buffer_bindings st |}.

(** [glGenTextures(1, byref(glo))]: the new value of [glo].  A device that
    has no name to give leaves [glo] at 0. *)
Definition glGenTextures (st : State) : Z * State :=
  let name := next_name st in
  (name,
   {| current_context := current_context st;
      next_name := if decide (name = 0) then 0 else name + 1;
      active_texture := active_texture st;
      texture_bindings := texture_bindings st; textures := textures st;
      pixel_store := pixel_store st; buffer_bindings := buffer_bindings st |}).

Definition glBindTexture (target name : Z) (st : State) : State :=
  set_texture_bindings (insert (active_texture st, target) name) st.

Definition glBindBuffer (target name : Z) (st : State) : State :=
  {| current_context := current_context st; next_name := next_name st;
     active_texture := active_texture st;
     texture_bindings := texture_bindings st; textures := textures st;
     pixel_store := pixel_store st;
     buffer_bindings := <[target := name]> (buffer_bindings st) |}.

Definition glPixelStorei (pname value : Z) (st : State) : State :=
  if decide (value = 1 \/ value = 2 \/ value = 4 \/ value = 8) then
    {| current_context := current_context st; next_name := next_name st;
       active_texture := active_texture st;
       texture_bindings := texture_bindings st; textures := textures st;
       pixel_store := <[pname := value]> (pixel_store st);
       buffer_bindings := buffer_bindings st |}
  else st.

Definition glTexParameteri (target pname value : Z) (st : State) : State :=
  with_bound target
    (fun t => {| tex_samples := tex_samples t; tex_images := tex_images t;
                 tex_parami := <[pname := value]> (tex_parami t);
                 tex_paramf := tex_paramf t |}) st.

Definition glTexParameterf (target pname : Z) (value : Float64.t) (st : State) : State :=
  with_bound target
    (fun t => {| tex_samples := tex_samples t; tex_images := tex_images t;
                 tex_parami := tex_parami t;
                 tex_paramf := <[pname := value]> (tex_paramf t) |}) st.

Definition negative_size (w h d : Z) : bool := (w <? 0) || (h <? 0) || (d <? 0).

(** The tightly packed bytes of a [w] x [h] x [d] block read from client
    memory [data] whose rows are [stride] bytes apart. *)
Definition unpack (w h d bpp stride : Z) (data : list byte) : list byte :=
  let row := w * bpp in
  (fun i : nat => byte_at data (Z.of_nat i / row * stride + Z.of_nat i mod row))
    <$> seq 0 (Z.to_nat (w * h * d * bpp)).

Definition glTexImage3D (target level internalformat w h d border format type : Z)
    (data : option (list byte)) (st : State) : State :=
  match bytes_per_pixel format type with
  | None => st
  | Some bpp =>
      if negative_size w h d then st
      else
        let stride := row_stride (w * bpp) (alignment_of GL_UNPACK_ALIGNMENT st) in
        let bytes := match data with
                     | None => []
                     | Some b => unpack w h d bpp stride b
                     end in
        with_bound target (set_images (insert level (mkImage w h d bytes))) st
  end.

Definition glCompressedTexImage3D (target level internalformat w h d border size : Z)
    (data : list byte) (st : State) : State :=
  if negative_size w h d then st
  else with_bound target
         (set_images (insert level (mkImage w h d (take (Z.to_nat size) data)))) st.

Definition glTexStorage3D (target levels internalformat w h d : Z) (st : State) : State :=
  if negative_size w h d then st
  else with_bound target (set_images (fun _ => {[ 0 := mkImage w h d [] ]})) st.

Definition glTexImage3DMultisample (target samples internalformat w h d : Z)
    (fixedsamplelocations : bool) (st : State) : State :=
  if negative_size w h d then st
  else with_bound target
         (fun t => {| tex_samples := samples;
                      tex_images := {[ 0 := mkImage w h d [] ]};
                      tex_parami := tex_parami t; tex_paramf := tex_paramf t |}) st.

(** Is the texel byte at tight offset [i] of an image of width [W] and
    height [H] inside the block at [(x, y, z)] of size [w] x [h] x [d]?
    If so, its offset in client memory. *)
Definition client_offset (W H bpp x y z w h d stride i : Z) : option Z :=
  let p := i / bpp in
  let col := p mod W in
  let row := (p / W) mod H in
  let layer := p / (W * H) in
  if (x <=? col) && (col <? x + w) && (y <=? row) && (row <? y + h)
     && (z <=? layer) && (layer <? z + d)
  then Some (((layer - z) * h + (row - y)) * stride + (col - x) * bpp + i mod bpp)
  else None.

Definition sub_image (img : Image) (bpp x y z w h d stride : Z) (data : list byte) : Image :=
  let W := img_width img in
  let H := img_height img in
  let D := img_depth img in
  mkImage W H D
    ((fun i : nat =>
        match client_offset W H bpp x y z w h d stride (Z.of_nat i) with
        | Some j => byte_at data j
        | None => byte_at (img_data img) (Z.of_nat i)
        end) <$> seq 0 (Z.to_nat (W * H * D * bpp))).

Definition inside (img : Image) (x y z w h d : Z) : bool :=
  (0 <=? x) && (0 <=? y) && (0 <=? z) && (0 <=? w) && (0 <=? h) && (0 <=? d)
  && (x + w <=? img_width img) && (y + h <=? img_height img)
  && (z + d <=? img_depth img).

Definition glTexSubImage3D (target level x y z w h d format type : Z)
    (data : list byte) (st : State) : State :=
  match bytes_per_pixel format type with
  | None => st
  | Some bpp =>
      let t := lookup_texture (bound target st) st in
      match tex_images t !! level with
      | None => st
      | Some img =>
          if inside img x y z w h d then
            let stride := row_stride (w * bpp) (alignment_of GL_UNPACK_ALIGNMENT st) in
            with_bound target
              (set_images (insert level (sub_image img bpp x y z w h d stride data))) st
          else st
      end
  end.

(** [glGetTexImage] into a client [buffer]: the buffer afterwards.  Bytes
    of the buffer that fall into the padding between rows, or for which the
    device has nothing to deliver, keep their value. *)
Definition glGetTexImage (target level format type : Z) (buffer : list byte)
    (st : State) : list byte :=
  match bytes_per_pixel format type,
        tex_images (lookup_texture (bound target st) st) !! level with
  | Some bpp, Some img =>
      let row := img_width img * bpp in
      let stride := row_stride row (alignment_of GL_PACK_ALIGNMENT st) in
      imap (fun (j : nat) (old : byte) =>
              let r := Z.of_nat j / stride in
              let o := Z.of_nat j mod stride in
              if (o <? row) && (r <? img_height img * img_depth img)
              then byte_at (img_data img) (r * row + o)
              else old) buffer
  | _, _ => buffer
  end.

(** [glDeleteTextures(1, byref(glo))]: the name is released and every
    binding of it reverts to 0.  Name 0 is silently ignored. *)
Definition glDeleteTextures (name : Z) (st : State) : State :=
  if decide (name = 0) then st
  else
    {| current_context := current_context st; next_name := next_name st;
       active_texture := active_texture st;
       texture_bindings :=
         (fun n => if decide (n = name) then 0 else n) <$> texture_bindings st;
       textures := delete name (textures st);
       pixel_store := pixel_store st; buffer_bindings := buffer_bindings st |}.

Definition GL_NEAREST_MIPMAP_LINEAR : Z := 0x2702.
Definition GL_TEXTURE_BASE_LEVEL : Z := 0x813C.
Definition GL_TEXTURE_MAX_LEVEL : Z := 0x813D.
Definition GL_READ_ONLY : Z := 0x88B8.
Definition GL_WRITE_ONLY : Z := 0x88B9.
Definition GL_READ_WRITE : Z := 0x88BA.

(** The value an integer parameter of a texture has before it is set. *)
Definition initial_parami (pname : Z) : Z :=
  if decide (pname = GL_TEXTURE_SWIZZLE_R) then GL_RED
  else if decide (pname = GL_TEXTURE_SWIZZLE_G) then GL_GREEN
  else if decide (pname = GL_TEXTURE_SWIZZLE_B) then GL_BLUE
  else if decide (pname = GL_TEXTURE_SWIZZLE_A) then GL_ALPHA
  else if decide (pname = GL_TEXTURE_MIN_FILTER) then GL_NEAREST_MIPMAP_LINEAR
  else if decide (pname = GL_TEXTURE_MAG_FILTER) then GL_LINEAR
  else if decide (pname = GL_TEXTURE_WRAP_S \/ pname = GL_TEXTURE_WRAP_T) then GL_REPEAT
  else if decide (pname = GL_TEXTURE_MAX_LEVEL) then 1000
  else if decide (pname = GL_TEXTURE_COMPARE_FUNC) then GL_LEQUAL
  else 0.

(** [glGetTexParameteriv(target, pname, value)]: the value afterwards. *)
Definition glGetTexParameteriv (target pname : Z) (st : State) : Z :=
  default (initial_parami pname)
    (tex_parami (lookup_texture (bound target st) st) !! pname).

End gl.

(** ** Tables of [arcade.gl.types] and helpers of [arcade.gl.utils] *)

(** One entry of [pixel_formats]:
    [(base formats, internal formats, type, component size)], the two
    tuples being indexed by the number of components. *)
Record FormatInfo := {
  base_formats : list Z;
  internal_formats : list Z;
  gl_type : Z;
  component_size : Z
}.

Definition _float_base_format : list Z :=
  [0; gl.GL_RED; gl.GL_RG; gl.GL_RGB; gl.GL_RGBA].
Definition _int_base_format : list Z :=
  [0; gl.GL_RED_INTEGER; gl.GL_RG_INTEGER; gl.GL_RGB_INTEGER; gl.GL_RGBA_INTEGER].

(** Modelled from the spec: [pixel_formats] (arcade/gl/types.py is not among
    the sources).  The nine element kinds, their transfer types and their
    element byte sizes are those the docstring of [TextureArray] lists
    (f1, f2, f4 / i1, i2, i4 / u1, u2, u4). *)
Definition pixel_formats : list (string * FormatInfo) :=
  [ ("f1", {| base_formats := _float_base_format;
              internal_formats := [0; gl.GL_R8; gl.GL_RG8; gl.GL_RGB8; gl.GL_RGBA8];
              gl_type := gl.GL_UNSIGNED_BYTE; component_size := 1 |});
    ("f2", {| base_formats := _float_base_format;
              internal_formats := [0; gl.GL_R16F; gl.GL_RG16F; gl.GL_RGB16F; gl.GL_RGBA16F];
              gl_type := gl.GL_HALF_FLOAT; component_size := 2 |});
    ("f4", {| base_formats := _float_base_format;
              internal_formats := [0; gl.GL_R32F; gl.GL_RG32F; gl.GL_RGB32F; gl.GL_RGBA32F];
              gl_type := gl.GL_FLOAT; component_size := 4 |});
    ("i1", {| base_formats := _int_base_format;
              internal_formats := [0; gl.GL_R8I; gl.GL_RG8I; gl.GL_RGB8I; gl.GL_RGBA8I];
              gl_type := gl.GL_BYTE; component_size := 1 |});
    ("i2", {| base_formats := _int_base_format;
              internal_formats := [0; gl.GL_R16I; gl.GL_RG16I; gl.GL_RGB16I; gl.GL_RGBA16I];
              gl_type := gl.GL_SHORT; component_size := 2 |});
    ("i4", {| base_formats := _int_base_format;
              internal_formats := [0; gl.GL_R32I; gl.GL_RG32I; gl.GL_RGB32I; gl.GL_RGBA32I];
              gl_type := gl.GL_INT; component_size := 4 |});
    ("u1", {| base_formats := _int_base_format;
              internal_formats := [0; gl.GL_R8UI; gl.GL_RG8UI; gl.GL_RGB8UI; gl.GL_RGBA8UI];
              gl_type := gl.GL_UNSIGNED_BYTE; component_size := 1 |});
    ("u2", {| base_formats := _int_base_format;
              internal_formats := [0; gl.GL_R16UI; gl.GL_RG16UI; gl.GL_RGB16UI; gl.GL_RGBA16UI];
              gl_type := gl.GL_UNSIGNED_SHORT; component_size := 2 |});
    ("u4", {| base_formats := _int_base_format;
              internal_formats := [0; gl.GL_R32UI; gl.GL_RG32UI; gl.GL_RGB32UI; gl.GL_RGBA32UI];
              gl_type := gl.GL_UNSIGNED_INT; component_size := 4 |}) ].

(** Modelled from the spec: [swizzle_str_to_enum] (arcade/gl/types.py is not
    among the sources); the six letters and their enums are those the
    docstring of the [swizzle] property lists. *)
Definition swizzle_str_to_enum : list (string * Z) :=
  [ ("R", gl.GL_RED); ("G", gl.GL_GREEN); ("B", gl.GL_BLUE); ("A", gl.GL_ALPHA);
    ("0", gl.GL_ZERO); ("1", gl.GL_ONE) ].

(** Modelled from the spec: [swizzle_enum_to_str] (arcade/gl/types.py is not
    among the sources), the table of the [swizzle] getter: the six enums of
    the docstring of the property, each with its letter. *)
Definition swizzle_enum_to_str : list (Z * string) :=
  [ (gl.GL_RED, "R"); (gl.GL_GREEN, "G"); (gl.GL_BLUE, "B"); (gl.GL_ALPHA, "A");
    (gl.GL_ZERO, "0"); (gl.GL_ONE, "1") ].

(** Modelled from the spec: [compare_funcs] (arcade/gl/types.py is not among
    the sources); the keys and their enums are those the docstring of the
    [compare_func] property lists. *)
Definition compare_funcs : list (option string * Z) :=
  [ (None, gl.GL_NONE); (Some "<=", gl.GL_LEQUAL); (Some "<", gl.GL_LESS);
    (Some ">=", gl.GL_GEQUAL); (Some ">", gl.GL_GREATER); (Some "==", gl.GL_EQUAL);
    (Some "!=", gl.GL_NOTEQUAL); (Some "0", gl.GL_NEVER); (Some "1", gl.GL_ALWAYS) ].

(** [d[k]] (or [d.get(k)]) on a dict kept as the list of its items. *)
Fixpoint dict_get {K V} `{EqDecision K} (k : K) (d : list (K * V)) : option V :=
  match d with
  | [] => None
  | (k', v) :: d' => if decide (k' = k) then Some v else dict_get k d'
  end.

Fixpoint join (sep : string) (l : list string) : string :=
  match l with
  | [] => ""
  | [s] => s
  | s :: l' => s +:+ sep +:+ join sep l'
  end.

(** [repr] of a str without quotes in it, and of [None] or such a str. *)
Definition repr_str (s : string) : string := "'" +:+ s +:+ "'".
Definition repr_opt_str (o : option string) : string :=
  match o with None => "None" | Some s => repr_str s end.

(** Modelled from the spec: [data_to_ctypes] (arcade/gl/utils.py is not among
    the sources), on a [bytes] argument: the byte length and the data. *)
Definition data_to_ctypes (data : list byte) : Z * list byte :=
  (Z.of_nat (length data), data).

(** ** The context *)

Record Limits := {
  MAX_SAMPLES : Z;
  MAX_TEXTURE_MAX_ANISOTROPY : Float64.t;
  MAX_TEXTURE_SIZE : Z
}.

(** Modelled from the spec: the allocation counters [ctx.stats]
    (arcade/gl/context.py is not among the sources): one counter per kind of
    resource, which [incr] raises by one and [decr] lowers by one. *)
Module ContextStats.
Abbreviation t := (gmap string Z).
Definition count (key : string) (s : t) : Z := default 0 (s !! key).
Definition incr (key : string) (s : t) : t := <[key := count key s + 1]> s.
Definition decr (key : string) (s : t) : t := <[key := count key s - 1]> s.
End ContextStats.

Record Context := {
  info : Limits;
  gc_mode : string;
  gl_api : string;
  default_texture_unit : Z;
  stats : ContextStats.t;
  finalizers : list Z    (* weakref.finalize registrations, by texture name *)
}.

Definition set_stats (f : ContextStats.t -> ContextStats.t) (c : Context) : Context :=
  {| info := info c; gc_mode := gc_mode c; gl_api := gl_api c;
     default_texture_unit := default_texture_unit c;
     stats := f (stats c); finalizers := finalizers c |}.

Definition add_finalizer (name : Z) (c : Context) : Context :=
  {| info := info c; gc_mode := gc_mode c; gl_api := gl_api c;
     default_texture_unit := default_texture_unit c;
     stats := stats c; finalizers := name :: finalizers c |}.

(** ** The texture object *)

(** The slots of a [TextureArray].  [_ctx] is the context of the
    environment below.  [_format] and [_type] are [None] while the slot has
    not been assigned (reading it then raises [AttributeError]). *)
Record TextureArray := {
  _glo : Z;
  _width : Z;
  _height : Z;
  _layers : Z;
  _dtype : string;
  _target : Z;
  _components : Z;
  _alignment : Z;
  _depth : bool;
  _compare_func : option string;
  _format : option Z;
  _internal_format : option Z;
  _type : option Z;
  _component_size : Z;
  _samples : Z;
  _filter : list Z;
  _wrap_x : Z;
  _wrap_y : Z;
  _anisotropy : Float64.t;
  _immutable : bool;
  _compressed : bool;
  _compressed_data : bool
}.

(** Attribute assignment, [self.<field> = v]. *)
Definition with_glo (v : Z) (t : TextureArray) : TextureArray :=
  {| _glo := v; _width := _width t; _height := _height t;
     _layers := _layers t; _dtype := _dtype t; _target := _target t;
     _components := _components t; _alignment := _alignment t;
     _depth := _depth t; _compare_func := _compare_func t;
     _format := _format t; _internal_format := _internal_format t;
     _type := _type t; _component_size := _component_size t;
     _samples := _samples t; _filter := _filter t; _wrap_x := _wrap_x t;
     _wrap_y := _wrap_y t; _anisotropy := _anisotropy t;
     _immutable := _immutable t; _compressed := _compressed t;
     _compressed_data := _compressed_data t |}.

Definition with_width (v : Z) (t : TextureArray) : TextureArray :=
  {| _glo := _glo t; _width := v; _height := _height t; _layers := _layers t;
     _dtype := _dtype t; _target := _target t; _components := _components t;
     _alignment := _alignment t; _depth := _depth t;
     _compare_func := _compare_func t; _format := _format t;
     _internal_format := _internal_format t; _type := _type t;
     _component_size := _component_size t; _samples := _samples t;
     _filter := _filter t; _wrap_x := _wrap_x t; _wrap_y := _wrap_y t;
     _anisotropy := _anisotropy t; _immutable := _immutable t;
     _compressed := _compressed t; _compressed_data := _compressed_data t |}.

Definition with_height (v : Z) (t : TextureArray) : TextureArray :=
  {| _glo := _glo t; _width := _width t; _height := v; _layers := _layers t;
     _dtype := _dtype t; _target := _target t; _components := _components t;
     _alignment := _alignment t; _depth := _depth t;
     _compare_func := _compare_func t; _format := _format t;
     _internal_format := _internal_format t; _type := _type t;
     _component_size := _component_size t; _samples := _samples t;
     _filter := _filter t; _wrap_x := _wrap_x t; _wrap_y := _wrap_y t;
     _anisotropy := _anisotropy t; _immutable := _immutable t;
     _compressed := _compressed t; _compressed_data := _compressed_data t |}.

Definition with_target (v : Z) (t : TextureArray) : TextureArray :=
  {| _glo := _glo t; _width := _width t; _height := _height t;
     _layers := _layers t; _dtype := _dtype t; _target := v;
     _components := _components t; _alignment := _alignment t;
     _depth := _depth t; _compare_func := _compare_func t;
     _format := _format t; _internal_format := _internal_format t;
     _type := _type t; _component_size := _component_size t;
     _samples := _samples t; _filter := _filter t; _wrap_x := _wrap_x t;
     _wrap_y := _wrap_y t; _anisotropy := _anisotropy t;
     _immutable := _immutable t; _compressed := _compressed t;
     _compressed_data := _compressed_data t |}.

Definition with_compare_func (v : option string) (t : TextureArray) : TextureArray :=
  {| _glo := _glo t; _width := _width t; _height := _height t;
     _layers := _layers t; _dtype := _dtype t; _target := _target t;
     _components := _components t; _alignment := _alignment t;
     _depth := _depth t; _compare_func := v; _format := _format t;
     _internal_format := _internal_format t; _type := _type t;
     _component_size := _component_size t; _samples := _samples t;
     _filter := _filter t; _wrap_x := _wrap_x t; _wrap_y := _wrap_y t;
     _anisotropy := _anisotropy t; _immutable := _immutable t;
     _compressed := _compressed t; _compressed_data := _compressed_data t |}.

Definition with_format (v : option Z) (t : TextureArray) : TextureArray :=
  {| _glo := _glo t; _width := _width t; _height := _height t;
     _layers := _layers t; _dtype := _dtype t; _target := _target t;
     _components := _components t; _alignment := _alignment t;
     _depth := _depth t; _compare_func := _compare_func t; _format := v;
     _internal_format := _internal_format t; _type := _type t;
     _component_size := _component_size t; _samples := _samples t;
     _filter := _filter t; _wrap_x := _wrap_x t; _wrap_y := _wrap_y t;
     _anisotropy := _anisotropy t; _immutable := _immutable t;
     _compressed := _compressed t; _compressed_data := _compressed_data t |}.

Definition with_internal_format (v : option Z) (t : TextureArray) : TextureArray :=
  {| _glo := _glo t; _width := _width t; _height := _height t;
     _layers := _layers t; _dtype := _dtype t; _target := _target t;
     _components := _components t; _alignment := _alignment t;
     _depth := _depth t; _compare_func := _compare_func t;
     _format := _format t; _internal_format := v; _type := _type t;
     _component_size := _component_size t; _samples := _samples t;
     _filter := _filter t; _wrap_x := _wrap_x t; _wrap_y := _wrap_y t;
     _anisotropy := _anisotropy t; _immutable := _immutable t;
     _compressed := _compressed t; _compressed_data := _compressed_data t |}.

Definition with_type (v : option Z) (t : TextureArray) : TextureArray :=
  {| _glo := _glo t; _width := _width t; _height := _height t;
     _layers := _layers t; _dtype := _dtype t; _target := _target t;
     _components := _components t; _alignment := _alignment t;
     _depth := _depth t; _compare_func := _compare_func t;
     _format := _format t; _internal_format := _internal_format t;
     _type := v; _component_size := _component_size t;
     _samples := _samples t; _filter := _filter t; _wrap_x := _wrap_x t;
     _wrap_y := _wrap_y t; _anisotropy := _anisotropy t;
     _immutable := _immutable t; _compressed := _compressed t;
     _compressed_data := _compressed_data t |}.

Definition with_component_size (v : Z) (t : TextureArray) : TextureArray :=
  {| _glo := _glo t; _width := _width t; _height := _height t;
     _layers := _layers t; _dtype := _dtype t; _target := _target t;
     _components := _components t; _alignment := _alignment t;
     _depth := _depth t; _compare_func := _compare_func t;
     _format := _format t; _internal_format := _internal_format t;
     _type := _type t; _component_size := v; _samples := _samples t;
     _filter := _filter t; _wrap_x := _wrap_x t; _wrap_y := _wrap_y t;
     _anisotropy := _anisotropy t; _immutable := _immutable t;
     _compressed := _compressed t; _compressed_data := _compressed_data t |}.

Definition with_filter (v : list Z) (t : TextureArray) : TextureArray :=
  {| _glo := _glo t; _width := _width t; _height := _height t;
     _layers := _layers t; _dtype := _dtype t; _target := _target t;
     _components := _components t; _alignment := _alignment t;
     _depth := _depth t; _compare_func := _compare_func t;
     _format := _format t; _internal_format := _internal_format t;
     _type := _type t; _component_size := _component_size t;
     _samples := _samples t; _filter := v; _wrap_x := _wrap_x t;
     _wrap_y := _wrap_y t; _anisotropy := _anisotropy t;
     _immutable := _immutable t; _compressed := _compressed t;
     _compressed_data := _compressed_data t |}.

Definition with_wrap_x (v : Z) (t : TextureArray) : TextureArray :=
  {| _glo := _glo t; _width := _width t; _height := _height t;
     _layers := _layers t; _dtype := _dtype t; _target := _target t;
     _components := _components t; _alignment := _alignment t;
     _depth := _depth t; _compare_func := _compare_func t;
     _format := _format t; _internal_format := _internal_format t;
     _type := _type t; _component_size := _component_size t;
     _samples := _samples t; _filter := _filter t; _wrap_x := v;
     _wrap_y := _wrap_y t; _anisotropy := _anisotropy t;
     _immutable := _immutable t; _compressed := _compressed t;
     _compressed_data := _compressed_data t |}.

Definition with_wrap_y (v : Z) (t : TextureArray) : TextureArray :=
  {| _glo := _glo t; _width := _width t; _height := _height t;
     _layers := _layers t; _dtype := _dtype t; _target := _target t;
     _components := _components t; _alignment := _alignment t;
     _depth := _depth t; _compare_func := _compare_func t;
     _format := _format t; _internal_format := _internal_format t;
     _type := _type t; _component_size := _component_size t;
     _samples := _samples t; _filter := _filter t; _wrap_x := _wrap_x t;
     _wrap_y := v; _anisotropy := _anisotropy t; _immutable := _immutable t;
     _compressed := _compressed t; _compressed_data := _compressed_data t |}.

Definition with_anisotropy (v : Float64.t) (t : TextureArray) : TextureArray :=
  {| _glo := _glo t; _width := _width t; _height := _height t;
     _layers := _layers t; _dtype := _dtype t; _target := _target t;
     _components := _components t; _alignment := _alignment t;
     _depth := _depth t; _compare_func := _compare_func t;
     _format := _format t; _internal_format := _internal_format t;
     _type := _type t; _component_size := _component_size t;
     _samples := _samples t; _filter := _filter t; _wrap_x := _wrap_x t;
     _wrap_y := _wrap_y t; _anisotropy := v; _immutable := _immutable t;
     _compressed := _compressed t; _compressed_data := _compressed_data t |}.

(** The state the methods run in. *)
Record Env := {
  self : TextureArray;
  device : gl.State;
  ctx : Context
}.

Definition on_self (f : TextureArray -> TextureArray) (e : Env) : Env :=
  {| self := f (self e); device := device e; ctx := ctx e |}.
Definition on_device (f : gl.State -> gl.State) (e : Env) : Env :=
  {| self := self e; device := f (device e); ctx := ctx e |}.
Definition on_ctx (f : Context -> Context) (e : Env) : Env :=
  {| self := self e; device := device e; ctx := f (ctx e) |}.

Abbreviation Py := (M Env).

Definition assign (f : TextureArray -> TextureArray) : Py unit := modify (on_self f).
Definition attr {A} (f : TextureArray -> A) : Py A := gets (fun e => f (self e)).
Definition call (f : gl.State -> gl.State) : Py unit := modify (on_device f).

(** Reading a slot that may not have been assigned. *)
Definition slot (name : string) (f : TextureArray -> option Z) : Py Z :=
  bind (attr f) (fun o =>
    match o with
    | Some v => ret v
    | None => raise (AttributeError
                ("'TextureArray' object has no attribute '" +:+ name +:+ "'"))
    end).

(** [gl.glGenTextures(1, byref(glo))]: the value of [glo] afterwards. *)
Definition glGenTextures : Py Z :=
  fun e => let '(name, d) := gl.glGenTextures (device e) in
           (inr name, on_device (fun _ => d) e).

(** [gl.glActiveTexture(gl.GL_TEXTURE0 + self._ctx.default_texture_unit)]
    followed by [gl.glBindTexture(self._target, self._glo)]. *)
Definition bind_self : Py unit :=
  (unit_ <- gets (fun e => default_texture_unit (ctx e));;
   call (gl.glActiveTexture (gl.GL_TEXTURE0 + unit_));;
   target <- attr _target;;
   glo <- attr _glo;;
   call (gl.glBindTexture target glo))%py.

(** ** The methods of [TextureArray] *)

Inductive BufferOrBufferProtocol :=
| IsBuffer (glo : Z)            (* an arcade.gl.Buffer, by its buffer name *)
| IsBytes (b : list byte).

Definition len {A} (l : list A) : Z := Z.of_nat (length l).

(** Truth value of an optional sequence ([None] and the empty one are false). *)
Definition truthy {A} (o : option (list A)) : bool :=
  match o with
  | Some (_ :: _) => true
  | _ => false
  end.

Section Methods.
Local Open Scope py_scope.

Definition _validate_data_size (byte_data : list byte) (byte_size width height layers : Z)
    : Py unit :=
  compressed <- attr _compressed;;
  if compressed then ret tt
  else
    component_size <- attr _component_size;;
    components <- attr _components;;
    let expected_size := width * height * layers * component_size * components in
    if negb (byte_size =? expected_size) then
      raise (ValueError ("Data size " +:+ pretty (len byte_data)
                         +:+ " does not match expected size " +:+ pretty expected_size))
    else if negb (len byte_data =? byte_size) then
      raise (ValueError ("Data size " +:+ pretty (len byte_data)
                         +:+ " does not match reported size " +:+ pretty expected_size))
    else ret tt.

(** [filter.setter] *)
Definition filter_setter (value : PyObject) : Py unit :=
  match value with
  | PyTuple [v0; v1] =>
      assign (with_filter [v0; v1]);;
      bind_self;;
      target <- attr _target;;
      call (gl.glTexParameteri target gl.GL_TEXTURE_MIN_FILTER v0);;
      call (gl.glTexParameteri target gl.GL_TEXTURE_MAG_FILTER v1)
  | _ => raise (ValueError "Texture filter must be a 2 component tuple (min, mag)")
  end.

(** [wrap_x.setter] *)
Definition wrap_x_setter (value : Z) : Py unit :=
  assign (with_wrap_x value);;
  bind_self;;
  target <- attr _target;;
  call (gl.glTexParameteri target gl.GL_TEXTURE_WRAP_S value).

(** [wrap_y.setter] *)
Definition wrap_y_setter (value : Z) : Py unit :=
  assign (with_wrap_y value);;
  bind_self;;
  target <- attr _target;;
  call (gl.glTexParameteri target gl.GL_TEXTURE_WRAP_T value).

(** [anisotropy.setter] *)
Definition anisotropy_setter (value : Float64.t) : Py unit :=
  max_anisotropy <- gets (fun e => MAX_TEXTURE_MAX_ANISOTROPY (info (ctx e)));;
  assign (with_anisotropy (Float64.max Float64.one (Float64.min value max_anisotropy)));;
  bind_self;;
  target <- attr _target;;
  anisotropy <- attr _anisotropy;;
  call (gl.glTexParameterf target gl.GL_TEXTURE_MAX_ANISOTROPY anisotropy).

(** [compare_func.setter].  The message of the second [raise] reads
    [self._compare_funcs], a slot the class does not have, so that
    statement raises [AttributeError] instead. *)
Definition compare_func_setter (value : PyObject) : Py unit :=
  depth <- attr _depth;;
  if negb depth then
    raise (ValueError "Depth comparison function can only be set on depth textures")
  else
    key <- match value with
           | PyStr s => ret (Some s)
           | PyNone => ret None
           | _ => raise (AttributeError
                    "'TextureArray' object has no attribute '_compare_funcs'")
           end;;
    match dict_get key compare_funcs with
    | None =>
        raise (ValueError
                 ("value must be as string: dict_keys(["
                  +:+ join ", " (repr_opt_str ∘ fst <$> compare_funcs) +:+ "])"))
    | Some func =>
        assign (with_compare_func key);;
        bind_self;;
        target <- attr _target;;
        match key with
        | None => call (gl.glTexParameteri target gl.GL_TEXTURE_COMPARE_MODE gl.GL_NONE)
        | Some _ =>
            call (gl.glTexParameteri target gl.GL_TEXTURE_COMPARE_MODE
                    gl.GL_COMPARE_REF_TO_TEXTURE);;
            call (gl.glTexParameteri target gl.GL_TEXTURE_COMPARE_FUNC func)
        end
    end.

(** [write].  On the [Buffer] path the call of [glTexSubImage3D] passes ten
    arguments to an entry point that takes eleven, which ctypes refuses. *)
Definition write (data : BufferOrBufferProtocol) (level : Z) (viewport : option (list Z))
    : Py unit :=
  samples <- attr _samples;;
  if 0 <? samples then raise (ValueError "Writing to multisampled textures not supported")
  else
    width <- attr _width;;
    height <- attr _height;;
    area <-
      (if truthy viewport then
         match viewport with
         | Some [x; y; l; w; h] => ret (x, y, l, w, h)
         | _ => raise (ValueError "Viewport must be of length 5")
         end
       else ret (0, 0, 0, width, height));;
    let '(x, y, l, w, h) := area in
    match data with
    | IsBuffer glo =>
        call (gl.glBindBuffer gl.GL_PIXEL_UNPACK_BUFFER glo);;
        bind_self;;
        call (gl.glPixelStorei gl.GL_PACK_ALIGNMENT 1);;
        call (gl.glPixelStorei gl.GL_UNPACK_ALIGNMENT 1);;
        _ <- slot "_format" _format;;
        _ <- slot "_type" _type;;
        raise (TypeError "this function takes at least 11 arguments (10 given)")
    | IsBytes b =>
        let '(byte_size, data) := data_to_ctypes b in
        _validate_data_size data byte_size w h 1;;
        bind_self;;
        call (gl.glPixelStorei gl.GL_PACK_ALIGNMENT 1);;
        call (gl.glPixelStorei gl.GL_UNPACK_ALIGNMENT 1);;
        target <- attr _target;;
        format <- slot "_format" _format;;
        type <- slot "_type" _type;;
        call (gl.glTexSubImage3D target level x y l w h 1 format type data)
    end.
End Methods.

(** The arguments of the constructor. *)
Record Args := {
  arg_size : Z * Z * Z;
  arg_components : Z;
  arg_dtype : string;
  arg_data : option (list byte);
  arg_filter : option (list Z);
  arg_wrap_x : option Z;
  arg_wrap_y : option Z;
  arg_target : Z;
  arg_depth : bool;
  arg_samples : Z;
  arg_immutable : bool;
  arg_internal_format : option Z;
  arg_compressed : bool;
  arg_compressed_data : bool
}.

(** [t[i]] on a tuple. *)
Definition index (t : list Z) (i : Z) : Py Z :=
  let i' := if i <? 0 then len t + i else i in
  if (0 <=? i') && (i' <? len t) then ret (nth (Z.to_nat i') t 0)
  else raise (IndexError "tuple index out of range").

Section Construction.
Local Open Scope py_scope.

(** [_texture_2d].  The device model raises no [GLException], so the
    [try] around the last branch is transparent. *)
Definition _texture_2d (data : option (list byte)) : Py unit :=
  dtype <- attr _dtype;;
  match dict_get dtype pixel_formats with
  | None =>
      raise (ValueError
               ("dype '" +:+ dtype +:+ "' not support. Supported types are : ("
                +:+ join ", " (repr_str ∘ fst <$> pixel_formats) +:+ ")"))
  | Some format_info =>
      let format_ := base_formats format_info in
      let internal_format_ := internal_formats format_info in
      assign (with_type (Some (gl_type format_info)));;
      assign (with_component_size (component_size format_info));;
      width <- attr _width;;
      height <- attr _height;;
      layers <- attr _layers;;
      data <- match data with
              | Some b =>
                  let '(byte_length, d) := data_to_ctypes b in
                  _validate_data_size d byte_length width height layers;;
                  ret (Some d)
              | None => ret None
              end;;
      target <- attr _target;;
      components <- attr _components;;
      if decide (target = gl.GL_TEXTURE_2D_MULTISAMPLE_ARRAY) then
        samples <- attr _samples;;
        internal <- index internal_format_ components;;
        call (gl.glTexImage3DMultisample target samples internal width height layers true)
      else
        alignment <- attr _alignment;;
        call (gl.glPixelStorei gl.GL_UNPACK_ALIGNMENT alignment);;
        call (gl.glPixelStorei gl.GL_PACK_ALIGNMENT alignment);;
        depth <- attr _depth;;
        if depth then
          call (gl.glTexImage3D target 0 gl.GL_DEPTH_COMPONENT24 width height layers 0
                  gl.GL_DEPTH_COMPONENT gl.GL_UNSIGNED_INT data);;
          compare_func_setter (PyStr "<=")
        else
          format <- index format_ components;;
          assign (with_format (Some format));;
          internal_format <- attr _internal_format;;
          internal <- match internal_format with
                      | None =>
                          v <- index internal_format_ components;;
                          assign (with_internal_format (Some v));;
                          ret v
                      | Some v => ret v
                      end;;
          immutable <- attr _immutable;;
          compressed_data <- attr _compressed_data;;
          if immutable then
            call (gl.glTexStorage3D target 1 internal width height layers);;
            match data with
            | Some (b0 :: b') => write (IsBytes (b0 :: b')) 0 None
            | _ => ret tt
            end
          else if compressed_data then
            match data with
            | None => raise (TypeError "object of type 'NoneType' has no len()")
            | Some d =>
                call (gl.glCompressedTexImage3D target 0 internal width height layers 0
                        (len d) d)
            end
          else
            type <- slot "_type" _type;;
            call (gl.glTexImage3D target 0 internal width height layers 0
                    format type data)
  end.

(** [__init__] *)
Definition __init__ (a : Args) : Py unit :=
  max_samples <- gets (fun e => MAX_SAMPLES (info (ctx e)));;
  let '(width, height, layers) := arg_size a in
  assign (fun _ =>
    {| _glo := 0;
       _width := width; _height := height; _layers := layers;
       _dtype := arg_dtype a;
       _components := arg_components a;
       _component_size := 0;
       _alignment := 1;
       _target := arg_target a;
       _samples := Z.min (Z.max 0 (arg_samples a)) max_samples;
       _depth := arg_depth a;
       _immutable := arg_immutable a;
       _compare_func := None;
       _anisotropy := Float64.one;
       _internal_format := arg_internal_format a;
       _compressed := arg_compressed a;
       _compressed_data := arg_compressed_data a;
       _filter := if contains_char "f" (arg_dtype a)
                  then [gl.GL_LINEAR; gl.GL_LINEAR]
                  else [gl.GL_NEAREST; gl.GL_NEAREST];
       _wrap_x := gl.GL_REPEAT;
       _wrap_y := gl.GL_REPEAT;
       _format := None;
       _type := None |});;
  components <- attr _components;;
  if negb (bool_decide (components ∈ [1; 2; 3; 4])) then
    raise (ValueError "Components must be 1, 2, 3 or 4")
  else
    samples <- attr _samples;;
    if truthy (arg_data a) && (0 <? samples) then
      raise (ValueError
               "Multisampled textures are not writable (cannot be initialized with data)")
    else
      assign (with_target (if samples =? 0 then gl.GL_TEXTURE_2D_ARRAY
                           else gl.GL_TEXTURE_2D_MULTISAMPLE_ARRAY));;
      unit_ <- gets (fun e => default_texture_unit (ctx e));;
      call (gl.glActiveTexture (gl.GL_TEXTURE0 + unit_));;
      glo <- glGenTextures;;
      assign (with_glo glo);;
      if glo =? 0 then
        raise (RuntimeError "Cannot create Texture. OpenGL failed to generate a texture id")
      else
        target <- attr _target;;
        call (gl.glBindTexture target glo);;
        _texture_2d (arg_data a);;
        when (samples =? 0)
          (default_filter <- attr _filter;;
           filter_setter (PyTuple (if truthy (arg_filter a)
                                   then default [] (arg_filter a)
                                   else default_filter));;
           default_wrap_x <- attr _wrap_x;;
           wrap_x_setter (match arg_wrap_x a with
                          | Some v => if v =? 0 then default_wrap_x else v
                          | None => default_wrap_x
                          end);;
           default_wrap_y <- attr _wrap_y;;
           wrap_y_setter (match arg_wrap_y a with
                          | Some v => if v =? 0 then default_wrap_y else v
                          | None => default_wrap_y
                          end));;
        gc <- gets (fun e => gc_mode (ctx e));;
        when (bool_decide (gc = "auto")) (modify (on_ctx (add_finalizer glo)));;
        modify (on_ctx (set_stats (ContextStats.incr "texture"))).

(** [resize] *)
Definition resize (new_size : Z * Z) : Py unit :=
  immutable <- attr _immutable;;
  if immutable then raise (ValueError "Immutable textures cannot be resized")
  else
    bind_self;;
    assign (with_width (fst new_size));;
    assign (with_height (snd new_size));;
    _texture_2d None.

(** The loop of the swizzle setter over the characters of the value. *)
Fixpoint swizzle_loop (value : list ascii) (swizzle_enums : list Z) : Py (list Z) :=
  match value with
  | [] => ret swizzle_enums
  | c :: rest =>
      let c := upper c in
      match dict_get (str_of_char c) swizzle_str_to_enum with
      | Some e => swizzle_loop rest (swizzle_enums ++ [e])
      | None =>
          raise (ValueError ("Swizzle value '" +:+ str_of_char c
                             +:+ "' invalid. Must be one of RGBA01"))
      end
  end.

(** [swizzle.setter] *)
Definition swizzle_setter (value : PyObject) : Py unit :=
  match value with
  | PyStr s =>
      if negb (len (chars s) =? 4) then
        raise (ValueError "Swizzle must be a string of length 4")
      else
        swizzle_enums <- swizzle_loop (chars s) [];;
        bind_self;;
        target <- attr _target;;
        e0 <- index swizzle_enums 0;;
        call (gl.glTexParameteri target gl.GL_TEXTURE_SWIZZLE_R e0);;
        e1 <- index swizzle_enums 1;;
        call (gl.glTexParameteri target gl.GL_TEXTURE_SWIZZLE_G e1);;
        e2 <- index swizzle_enums 2;;
        call (gl.glTexParameteri target gl.GL_TEXTURE_SWIZZLE_B e2);;
        e3 <- index swizzle_enums 3;;
        call (gl.glTexParameteri target gl.GL_TEXTURE_SWIZZLE_A e3)
  | _ => raise (ValueError "Swizzle must be a string, not '<class 'type'>'")
  end.

(** [read].  [(gl.GLubyte * n)()] is a zeroed array of [n] bytes; ctypes
    refuses a negative [n]. *)
Definition read (level alignment : Z) : Py (list byte) :=
  samples <- attr _samples;;
  if 0 <? samples then raise (ValueError "Multisampled textures cannot be read directly")
  else
    api <- gets (fun e => gl_api (ctx e));;
    if bool_decide (api = "gl") then
      bind_self;;
      call (gl.glPixelStorei gl.GL_PACK_ALIGNMENT alignment);;
      width <- attr _width;;
      height <- attr _height;;
      layers <- attr _layers;;
      component_size <- attr _component_size;;
      components <- attr _components;;
      let n := width * height * layers * component_size * components in
      if n <? 0 then
        raise (ValueError ("Array length must be >= 0, not " +:+ pretty n))
      else
        let buffer := replicate (Z.to_nat n) Byte.x00 in
        target <- attr _target;;
        format <- slot "_format" _format;;
        type <- slot "_type" _type;;
        gets (fun e => gl.glGetTexImage target level format type buffer (device e))
    else if bool_decide (api = "gles") then
      raise (ValueError "Reading texture array data not supported in GLES yet")
    else
      raise (ValueError "Unknown gl_api: '{self._ctx.gl_api}'").

(** [delete_glo], a static method; its [ctx] is the context of the
    environment. *)
Definition delete_glo (glo : Z) : Py unit :=
  current <- gets (fun e => gl.current_context (device e));;
  if negb current then ret tt
  else
    when (negb (glo =? 0)) (call (gl.glDeleteTextures glo));;
    modify (on_ctx (set_stats (ContextStats.decr "texture"))).

(** [delete] *)
Definition delete : Py unit :=
  glo <- attr _glo;;
  delete_glo glo;;
  assign (with_glo 0).

(** The [byte_size] property. *)
Definition byte_size : Py Z :=
  dtype <- attr _dtype;;
  match dict_get dtype pixel_formats with
  | None => raise (KeyError (repr_str dtype))
  | Some format_info =>
      components <- attr _components;;
      width <- attr _width;;
      height <- attr _height;;
      ret (component_size format_info * components * width * height)
  end.
End Construction.

(** The properties that are read: each returns its slot, except [swizzle],
    which asks the device. *)
Module getter.
Local Open Scope py_scope.

Definition glo : Py Z := attr _glo.
Definition compressed : Py bool := attr _compressed.
Definition width : Py Z := attr _width.
Definition height : Py Z := attr _height.
Definition layers : Py Z := attr _layers.
Definition dtype : Py string := attr _dtype.
Definition size : Py (Z * Z * Z) :=
  width <- attr _width;;
  height <- attr _height;;
  layers <- attr _layers;;
  ret (width, height, layers).
Definition samples : Py Z := attr _samples.
Definition components : Py Z := attr _components.
Definition component_size : Py Z := attr _component_size.
Definition depth : Py bool := attr _depth.
Definition immutable : Py bool := attr _immutable.
Definition filter : Py (list Z) := attr _filter.
Definition wrap_x : Py Z := attr _wrap_x.
Definition wrap_y : Py Z := attr _wrap_y.
Definition anisotropy : Py Float64.t := attr _anisotropy.
Definition compare_func : Py (option string) := attr _compare_func.

(** The loop of the [swizzle] getter over the four values read. *)
Fixpoint swizzle_loop (values : list Z) (swizzle_str : string) : Py string :=
  match values with
  | [] => ret swizzle_str
  | v :: rest =>
      match dict_get v swizzle_enum_to_str with
      | Some s => swizzle_loop rest (swizzle_str +:+ s)
      | None => raise (KeyError (pretty v))
      end
  end.

Definition swizzle : Py string :=
  bind_self;;
  target <- attr _target;;
  swizzle_r <- gets (fun e => gl.glGetTexParameteriv target gl.GL_TEXTURE_SWIZZLE_R
                                (device e));;
  swizzle_g <- gets (fun e => gl.glGetTexParameteriv target gl.GL_TEXTURE_SWIZZLE_G
                                (device e));;
  swizzle_b <- gets (fun e => gl.glGetTexParameteriv target gl.GL_TEXTURE_SWIZZLE_B
                                (device e));;
  swizzle_a <- gets (fun e => gl.glGetTexParameteriv target gl.GL_TEXTURE_SWIZZLE_A
                                (device e));;
  swizzle_loop [swizzle_r; swizzle_g; swizzle_b; swizzle_a] "".

Definition ctx : Py Context := gets ctx.

End getter.

Section Binding.
Local Open Scope py_scope.

(** [use] *)
Definition use (unit_ : Z) : Py unit :=
  call (gl.glActiveTexture (gl.GL_TEXTURE0 + unit_));;
  target <- attr _target;;
  glo <- attr _glo;;
  call (gl.glBindTexture target glo).

(** The two entry points below act on state of the device that is not kept
    here (the chain of mipmaps the device derives, its image units): the
    methods are given for any behaviour of theirs. *)
Variable glGenerateMipmap : Z -> gl.State -> gl.State.
Variable glBindImageTexture : Z -> Z -> Z -> bool -> Z -> Z -> Z -> gl.State -> gl.State.

(** [build_mipmaps] *)
Definition build_mipmaps (base max_level : Z) : Py unit :=
  samples <- attr _samples;;
  if 0 <? samples then raise (ValueError "Multisampled textures don't support mimpmaps")
  else
    bind_self;;
    target <- attr _target;;
    call (gl.glTexParameteri target gl.GL_TEXTURE_BASE_LEVEL base);;
    call (gl.glTexParameteri target gl.GL_TEXTURE_MAX_LEVEL max_level);;
    call (glGenerateMipmap target).

(** What [bind_to_image] can end in besides returning: a Python exception
    of the class itself, or the [ctypes.ArgumentError] of the foreign
    function layer, which refuses [None] where the entry point takes an
    enum. *)
Inductive Raised :=
| Python (x : Exception)
| ArgumentError.

(** [bind_to_image] *)
Definition bind_to_image (unit_ : Z) (read write : bool) (level : Z) (e : Env)
    : (Raised + unit) * Env :=
  if bool_decide (gl_api (ctx e) = "gles") && negb (_immutable (self e)) then
    (inl (Python (ValueError
                    "Textures bound to image units must be created with immutable=True")),
     e)
  else
    let access :=
      if read && write then Some gl.GL_READ_WRITE
      else if read && negb write then Some gl.GL_READ_ONLY
      else if negb read && write then Some gl.GL_WRITE_ONLY
      else None in
    match access with
    | None =>
        (inl (Python (ValueError
                        "Illegal access mode. The texture must at least be read or write only")),
         e)
    | Some access =>
        match _internal_format (self e) with
        | None => (inl ArgumentError, e)
        | Some internal_format =>
            (inr tt,
             on_device (glBindImageTexture unit_ (_glo (self e)) level false 0 access
                          internal_format) e)
        end
    end.

End Binding.

(** [__del__].  [objects] is the list [ctx.objects] that the context works
    off when it collects garbage; the result is that list afterwards. *)
Definition __del__ (objects : list TextureArray) (e : Env) : list TextureArray :=
  if bool_decide (gc_mode (ctx e) = "context_gc") && (0 <? _glo (self e))
  then objects ++ [self e]
  else objects.

(** A texture is created by running the constructor on a new object. *)
Definition unassigned : TextureArray :=
  {| _glo := 0; _width := 0; _height := 0; _layers := 0; _dtype := "";
     _target := 0; _components := 0; _alignment := 0; _depth := false;
     _compare_func := None; _format := None; _internal_format := None;
     _type := None; _component_size := 0; _samples := 0; _filter := [];
     _wrap_x := 0; _wrap_y := 0; _anisotropy := Float64.zero;
     _immutable := false;
     _compressed := false; _compressed_data := false |}.

Definition create (a : Args) (d : gl.State) (c : Context) : (Exception + unit) * Env :=
  __init__ a {| self := unassigned; device := d; ctx := c |}.

(** ** Specification-side notions *)

(** A swizzle string as the specification describes it: four characters,
    each one of R, G, B, A, 0, 1 in either case. *)
Definition swizzle_letters : list ascii := chars "RGBA01rgba".

Definition valid_swizzle (value : PyObject) : Prop :=
  exists s, value = PyStr s /\ length (chars s) = 4%nat
            /\ Forall (fun c => c ∈ swizzle_letters) (chars s).

(** The clamped sample count the constructor stores. *)
Definition clamped_samples (a : Args) (c : Context) : Z :=
  Z.min (Z.max 0 (arg_samples a)) (MAX_SAMPLES (info c)).

(** The bytes the device holds for level 0 of the texture of [e]
    ([None] when the device has no such image). *)
Definition stored_image (e : Env) : option (list byte) :=
  gl.img_data <$> gl.tex_images (gl.lookup_texture (_glo (self e)) (device e)) !! 0.

(** The allocation counter of textures. *)
Definition texture_count (e : Env) : Z := ContextStats.count "texture" (stats (ctx e)).

(** ** A program logic for the methods *)

(** [wp m Q E e]: running [m] from [e] ends in a state that satisfies [Q]
    when [m] returns and [E] when it raises. *)
Definition wp {A} (m : Py A) (Q : A -> Env -> Prop) (E : Exception -> Env -> Prop)
    (e : Env) : Prop :=
  match m e with
  | (inr a, e') => Q a e'
  | (inl x, e') => E x e'
  end.

(** [keeps proj m]: whatever its outcome, [m] leaves the part [proj] of the
    state as it was. *)
Definition keeps {A B} (proj : Env -> B) (m : Py A) : Prop :=
  forall e, wp m (fun _ e' => proj e' = proj e) (fun _ e' => proj e' = proj e) e.

(** The slots that only the constructor and [resize] assign. *)
Definition shape (t : TextureArray) :=
  (_width t, _height t, _layers t, _dtype t, _target t, _components t,
   _alignment t, _depth t, _samples t, _immutable t, _compressed t,
   _compressed_data t).

(** The slots that describe the storage: the shape and what [_texture_2d]
    derives from it. *)
Definition layout (t : TextureArray) :=
  (shape t, _format t, _internal_format t, _type t, _component_size t).

(** Width, height and depth of level 0 of a texture of the device. *)
Definition image_size (name : Z) (st : gl.State) : option (Z * Z * Z) :=
  (fun img => (gl.img_width img, gl.img_height img, gl.img_depth img))
    <$> gl.tex_images (gl.lookup_texture name st) !! 0.

(** The size of the storage the device holds for the texture of [e]. *)
Definition storage_size (e : Env) : option (Z * Z * Z) :=
  image_size (_glo (self e)) (device e).

(** What the setters, [read] and [write] leave alone: the layout of the
    object, its handle, the context and the size of the storage. *)
Definition stable (e : Env) :=
  (layout (self e), _glo (self e), ctx e, storage_size e).

(** The relation between the slots of a texture that the constructor
    establishes and every method maintains. *)
Definition tex_inv (t : TextureArray) : Prop :=
  exists format_info,
    dict_get (_dtype t) pixel_formats = Some format_info
    /\ _component_size t = component_size format_info
    /\ _type t = Some (gl_type format_info)
    /\ _components t ∈ [1; 2; 3; 4]
    /\ _target t = (if _samples t =? 0 then gl.GL_TEXTURE_2D_ARRAY
                    else gl.GL_TEXTURE_2D_MULTISAMPLE_ARRAY)
    /\ (_samples t = 0 -> _depth t = false ->
        _format t = Some (nth (Z.to_nat (_components t)) (base_formats format_info) 0)).

(** What a successful constructor call with arguments [a] on context [c]
    leaves behind. *)
Definition created (a : Args) (c : Context) (e : Env) : Prop :=
  arg_size a = (_width (self e), _height (self e), _layers (self e))
  /\ _dtype (self e) = arg_dtype a
  /\ _components (self e) = arg_components a
  /\ _samples (self e) = clamped_samples a c
  /\ _depth (self e) = arg_depth a
  /\ _immutable (self e) = arg_immutable a
  /\ _compressed (self e) = arg_compressed a
  /\ _glo (self e) <> 0
  /\ tex_inv (self e)
  /\ info (ctx e) = info c
  /\ gl_api (ctx e) = gl_api c
  /\ stats (ctx e) = ContextStats.incr "texture" (stats c).

(** The device after the texture of [e] has been bound on the default unit
    ([glActiveTexture] followed by [glBindTexture]). *)
Definition bound_device (e : Env) (d : gl.State) : gl.State :=
  gl.glBindTexture (_target (self e)) (_glo (self e))
    (gl.glActiveTexture (gl.GL_TEXTURE0 + default_texture_unit (ctx e)) d).

(** The image the device holds for a level of the texture of [e]. *)
Definition device_image (e : Env) (level : Z) : option gl.Image :=
  gl.tex_images (gl.lookup_texture (_glo (self e)) (device e)) !! level.

(** The number of bytes [read] asks the device for. *)
Definition read_size (t : TextureArray) : Z :=
  _width t * _height t * _layers t * _component_size t * _components t.

(** The calls a client can make on a texture, and the state each leaves
    behind, whether it returns or raises. *)
Inductive Call :=
| Resize (new_size : Z * Z)
| SetSwizzle (value : PyObject)
| SetFilter (value : PyObject)
| SetWrapX (value : Z)
| SetWrapY (value : Z)
| SetAnisotropy (value : Float64.t)
| SetCompareFunc (value : PyObject)
| Read (level alignment : Z)
| Write (data : BufferOrBufferProtocol) (level : Z) (viewport : option (list Z))
| Delete.

Definition perform (call : Call) (e : Env) : Env :=
  match call with
  | Resize new_size => snd (resize new_size e)
  | SetSwizzle value => snd (swizzle_setter value e)
  | SetFilter value => snd (filter_setter value e)
  | SetWrapX value => snd (wrap_x_setter value e)
  | SetWrapY value => snd (wrap_y_setter value e)
  | SetAnisotropy value => snd (anisotropy_setter value e)
  | SetCompareFunc value => snd (compare_func_setter value e)
  | Read level alignment => snd (read level alignment e)
  | Write data level viewport => snd (write data level viewport e)
  | Delete => snd (delete e)
  end.

(** The states a texture can be in: the one its constructor returns in, and
    those any sequence of calls leads to from there. *)
Inductive texture : Env -> Prop :=
| texture_new a d c e : create a d c = (inr tt, e) -> texture e
| texture_call call e : texture e -> texture (perform call e).

(** ** Observations of the device and of the object *)

(** An integer parameter the device holds for the texture [name]. *)
Definition parami (name pname : Z) (st : gl.State) : option Z :=
  gl.tex_parami (gl.lookup_texture name st) !! pname.

(** The same for the texture of [e]. *)
Definition device_parami (e : Env) (pname : Z) : option Z :=
  parami (_glo (self e)) pname (device e).

(** [str.upper]. *)
Fixpoint str_upper (s : string) : string :=
  match s with
  | EmptyString => EmptyString
  | String c s' => String (upper c) (str_upper s')
  end.

(** The textures of the device other than [name]. *)
Definition other_textures (name : Z) (st : gl.State) : gmap Z gl.Texture :=
  filter (fun kv => kv.1 <> name) (gl.textures st).

(** The bindings of the texture units other than [unit_]. *)
Definition other_units (unit_ : Z) (st : gl.State) : gmap (Z * Z) Z :=
  filter (fun kv => kv.1.1 <> unit_) (gl.texture_bindings st).

(** What no method other than [delete] touches: the handle, the context,
    the other textures of the device, the bindings of the units other than
    the default one, the next free name and the current context. *)
Definition foreign (e : Env) :=
  (_glo (self e), ctx e,
   other_textures (_glo (self e)) (device e),
   other_units (gl.GL_TEXTURE0 + default_texture_unit (ctx e)) (device e),
   gl.next_name (device e), gl.current_context (device e)).

(** Device calls that leave textures and bindings alone. *)
Definition quiet (f : gl.State -> gl.State) : Prop :=
  forall st : gl.State,
    gl.active_texture (f st) = gl.active_texture st
    /\ gl.texture_bindings (f st) = gl.texture_bindings st
    /\ gl.textures (f st) = gl.textures st
    /\ gl.next_name (f st) = gl.next_name st
    /\ gl.current_context (f st) = gl.current_context st.

(** Device calls that act on the texture bound to [target], if on anything. *)
Definition acts_on_bound (target : Z) (f : gl.State -> gl.State) : Prop :=
  forall st : gl.State, f st = st \/ exists g, f st = gl.with_bound target g st.

(** Device calls that leave the integer parameters of every texture alone. *)
Definition keeps_parami (f : gl.State -> gl.State) : Prop :=
  forall (name p : Z) (st : gl.State), parami name p (f st) = parami name p st.

(** Device calls that leave the images of every texture alone. *)
Definition keeps_images (f : gl.State -> gl.State) : Prop :=
  forall (name : Z) (st : gl.State),
    gl.tex_images (gl.lookup_texture name (f st)) = gl.tex_images (gl.lookup_texture name st).

(** The sampling parameters the device holds for the texture of [e]:
    minification and magnification filter, wrap mode in x and in y. *)
Definition sampler_keys : list Z :=
  [gl.GL_TEXTURE_MIN_FILTER; gl.GL_TEXTURE_MAG_FILTER;
   gl.GL_TEXTURE_WRAP_S; gl.GL_TEXTURE_WRAP_T].

Definition sampler_params (name : Z) (st : gl.State) : list (option Z) :=
  (fun pname => parami name pname st) <$> sampler_keys.

Definition device_sampler (e : Env) : list (option Z) :=
  sampler_params (_glo (self e)) (device e).

(** The same as the object caches them. *)
Definition cached_sampler (t : TextureArray) : list (option Z) :=
  [_filter t !! 0%nat; _filter t !! 1%nat; Some (_wrap_x t); Some (_wrap_y t)].

(** The cache of the object agrees with the device. *)
Definition sampler_in_sync (e : Env) : Prop :=
  length (_filter (self e)) = 2%nat /\ device_sampler e = cached_sampler (self e).

(** What the methods other than the [filter] and wrap setters leave alone. *)
Definition sampler (e : Env) :=
  (_glo (self e), _samples (self e), _filter (self e), _wrap_x (self e),
   _wrap_y (self e), device_sampler e).

(** The bytes of an image as a tightly packed transfer delivers them. *)
Definition texels (img : gl.Image) (bpp : Z) : list byte :=
  (fun i : nat => gl.byte_at (gl.img_data img) (Z.of_nat i))
    <$> seq 0 (Z.to_nat (gl.img_width img * gl.img_height img * gl.img_depth img * bpp)).

(** [bytes] with the [layer]-th block of [size] bytes replaced by [data]. *)
Definition replace_layer (layer size : Z) (data bytes : list byte) : list byte :=
  take (Z.to_nat (layer * size)) bytes ++ data
  ++ drop (Z.to_nat ((layer + 1) * size)) bytes.

(** The bytes of one layer of a texture. *)
Definition layer_size (t : TextureArray) : Z :=
  _width t * _height t * _component_size t * _components t.

(** A depth texture has no transfer format. *)
Definition depth_inv (t : TextureArray) : Prop :=
  _depth t = true -> _format t = None.

(** A texture that is neither multisampled nor a depth texture has its
    internal format. *)
Definition format_inv (t : TextureArray) : Prop :=
  _samples t = 0 -> _depth t = false -> is_Some (_internal_format t).

(** The images (one per level) the device holds for the texture of [e],
    with the handle they are held under. *)
Definition contents (e : Env) :=
  (_glo (self e), gl.tex_images (gl.lookup_texture (_glo (self e)) (device e))).

(** ** Sample devices, contexts and textures *)

Module Sample.

Definition device : gl.State :=
  {| gl.current_context := true; gl.next_name := 1;
     gl.active_texture := gl.GL_TEXTURE0;
     gl.texture_bindings := ∅; gl.textures := ∅;
     gl.pixel_store := ∅; gl.buffer_bindings := ∅ |}.

Definition context (api : string) (max_samples : Z) (max_anisotropy : Float64.t)
    : Context :=
  {| info := {| MAX_SAMPLES := max_samples;
                MAX_TEXTURE_MAX_ANISOTROPY := max_anisotropy;
                MAX_TEXTURE_SIZE := 16384 |};
     gc_mode := "context_gc"; gl_api := api; default_texture_unit := 15;
     stats := ∅; finalizers := [] |}.

Definition gl_context : Context := context "gl" 4 Float64.sixteen.
Definition gles_context : Context := context "gles" 4 Float64.sixteen.

(** [TextureArray(ctx, size, components=1, dtype="u1", data=data,
    depth=depth, samples=samples, immutable=immutable)] *)
Definition args (size : Z * Z * Z) (data : option (list byte))
    (depth : bool) (samples : Z) (immutable : bool) : Args :=
  {| arg_size := size; arg_components := 1; arg_dtype := "u1"; arg_data := data;
     arg_filter := None; arg_wrap_x := None; arg_wrap_y := None;
     arg_target := gl.GL_TEXTURE_2D_ARRAY; arg_depth := depth;
     arg_samples := samples; arg_immutable := immutable;
     arg_internal_format := None;
     arg_compressed := false; arg_compressed_data := false |}.

(** A 2 x 1 texture of two layers, one byte per pixel. *)
Definition two_layers : Env :=
  snd (create (args (2, 1, 2) None false 0 false) device gl_context).

(** The same with immutable storage. *)
Definition immutable : Env :=
  snd (create (args (2, 1, 2) None false 0 true) device gl_context).

(** The first texture on a device whose maximum anisotropy is 0.5. *)
Definition small_maximum : Env :=
  snd (create (args (2, 1, 2) None false 0 false) device
         (context "gl" 4 Float64.half)).

(** The first texture on a context of the restricted API variant. *)
Definition gles_texture : Env :=
  snd (create (args (2, 1, 2) None false 0 false) device gles_context).

(** A device that does not support multisampling. *)
Definition no_multisampling : Context := context "gl" 0 Float64.sixteen.

(** A 2 x 2 texture of one layer. *)
Definition one_layer : Env :=
  snd (create (args (2, 2, 1) None false 0 false) device gl_context).

(** A texture of four samples per pixel. *)
Definition multisampled : Env :=
  snd (create (args (2, 1, 2) None false 4 false) device gl_context).

(** A depth texture. *)
Definition depth_texture : Env :=
  snd (create (args (2, 1, 2) None true 0 false) device gl_context).

(** A 2 x 2 texture of three layers. *)
Definition three_layers : Env :=
  snd (create (args (2, 2, 3) None false 0 false) device gl_context).

(** A texture of two layers whose width is 0. *)
Definition empty : Env :=
  snd (create (args (0, 1, 2) None false 0 false) device gl_context).

(** The first texture, created with its four bytes. *)
Definition with_data : Env :=
  snd (create (args (2, 1, 2) (Some [Byte.x0a; Byte.x0b; Byte.x0c; Byte.x0d]) false 0 false)
         device gl_context).

(** [TextureArray(ctx, (2, 1, 2), components=components, dtype=dtype)] *)
Definition typed_args (components : Z) (dtype : string) : Args :=
  {| arg_size := (2, 1, 2); arg_components := components; arg_dtype := dtype;
     arg_data := None;
     arg_filter := None; arg_wrap_x := None; arg_wrap_y := None;
     arg_target := gl.GL_TEXTURE_2D_ARRAY; arg_depth := false;
     arg_samples := 0; arg_immutable := false;
     arg_internal_format := None;
     arg_compressed := false; arg_compressed_data := false |}.

(** A texture created from four bytes of compressed data. *)
Definition compressed_args : Args :=
  {| arg_size := (2, 1, 2); arg_components := 1; arg_dtype := "u1";
     arg_data := Some [Byte.x0a; Byte.x0b; Byte.x0c; Byte.x0d];
     arg_filter := None; arg_wrap_x := None; arg_wrap_y := None;
     arg_target := gl.GL_TEXTURE_2D_ARRAY; arg_depth := false;
     arg_samples := 0; arg_immutable := false;
     arg_internal_format := Some 0x83F0;
     arg_compressed := true; arg_compressed_data := true |}.

Definition compressed : Env := snd (create compressed_args device gl_context).

(** The first texture once no context is current any more. *)
Definition lost_context : Env :=
  on_device
    (fun st =>
       {| gl.current_context := false; gl.next_name := gl.next_name st;
          gl.active_texture := gl.active_texture st;
          gl.texture_bindings := gl.texture_bindings st; gl.textures := gl.textures st;
          gl.pixel_store := gl.pixel_store st;
          gl.buffer_bindings := gl.buffer_bindings st |})
    two_layers.

End Sample.

(** A second texture on the device and context of the first. *)
Definition second_texture : Env :=
  snd (create (Sample.args (2, 1, 2) None false 0 false) (device Sample.two_layers)
         (ctx Sample.two_layers)).

(** ** Properties *)

Section SimpleErrors.

(** C6. [resize] on a texture with immutable storage raises the
    [ValueError] "Immutable textures cannot be resized" as its first
    statement: no device call is made and the object, the device and the
    context are left exactly as they were. *)
Theorem resize_immutable_fails (new_size : Z * Z) (e : Env) :
  _immutable (self e) = true ->
  resize new_size e = (inl (ValueError "Immutable textures cannot be resized"), e).
Proof.
  intros Himm. unfold resize, bind, attr, gets. cbn. now rewrite Himm.
Qed.

Lemma resize_immutable_fails_witness :
  _immutable (self Sample.immutable) = true
  /\ resize (4, 4) Sample.immutable
     = (inl (ValueError "Immutable textures cannot be resized"), Sample.immutable).
Proof.
  split; [reflexivity | apply (resize_immutable_fails (4, 4)); reflexivity].
Defined.

(** C8. On a texture that is not a depth texture the [compare_func]
    setter raises the [ValueError] "Depth comparison function can only be
    set on depth textures" whatever the value is ([None] and the valid
    strings included), and changes nothing. *)
Theorem compare_func_requires_depth (value : PyObject) (e : Env) :
  _depth (self e) = false ->
  compare_func_setter value e
  = (inl (ValueError "Depth comparison function can only be set on depth textures"), e).
Proof.
  intros Hdepth. unfold compare_func_setter, bind, attr, gets. cbn.
  now rewrite Hdepth.
Qed.

Lemma compare_func_requires_depth_witness :
  _depth (self Sample.two_layers) = false
  /\ compare_func_setter PyNone Sample.two_layers
     = (inl (ValueError "Depth comparison function can only be set on depth textures"),
        Sample.two_layers).
Proof.
  split; [reflexivity | apply (compare_func_requires_depth PyNone); reflexivity].
Defined.

End SimpleErrors.

Section Write.

(** C5, as amended.  A viewport that is given, is not empty and does not
    have exactly five entries makes [write] raise a [ValueError] before
    any device call: the object, the device and the context are unchanged.
    (On a multisampled texture the error is the one about multisampling,
    raised earlier still.) *)
Theorem write_viewport_arity (data : BufferOrBufferProtocol) (level : Z)
    (viewport : list Z) (e : Env) :
  viewport <> [] ->
  length viewport <> 5%nat ->
  write data level (Some viewport) e
  = (inl (ValueError (if 0 <? _samples (self e)
                      then "Writing to multisampled textures not supported"
                      else "Viewport must be of length 5")), e).
Proof.
  intros Hne Hlen. unfold write, bind, attr, gets. cbn.
  destruct (0 <? _samples (self e)); [reflexivity |].
  destruct viewport as [|x [|y [|l [|w [|h [|k rest]]]]]]; cbn in *;
    first [reflexivity | congruence].
Qed.

Lemma write_viewport_arity_witness :
  [0; 0; 2] <> [] /\ length [0; 0; 2] <> 5%nat
  /\ write (IsBytes [Byte.x01; Byte.x02]) 0 (Some [0; 0; 2]) Sample.two_layers
     = (inl (ValueError "Viewport must be of length 5"), Sample.two_layers).
Proof.
  assert (H1 : [0; 0; 2] <> @nil Z) by discriminate.
  assert (H2 : length [0; 0; 2] <> 5%nat) by (simpl; lia).
  split; [exact H1 | split; [exact H2 |]].
  exact (write_viewport_arity (IsBytes [Byte.x01; Byte.x02]) 0 [0; 0; 2]
           Sample.two_layers H1 H2).
Defined.

(** C5 as stated fails for a viewport of arity 0: the empty tuple is
    false in [if viewport:], so the call is treated as one without a
    viewport and the data is uploaded. *)
Lemma write_empty_viewport_accepted :
  let r := write (IsBytes [Byte.x01; Byte.x02]) 0 (Some []) Sample.two_layers in
  length (@nil Z) <> 5%nat
  /\ fst r = inr tt
  /\ stored_image Sample.two_layers = Some []
  /\ stored_image (snd r) = Some [Byte.x01; Byte.x02; Byte.x00; Byte.x00].
Proof. repeat split; [discriminate]. Qed.

End Write.

Section Delete.

Lemma count_insert (key : string) (v : Z) (s : ContextStats.t) :
  ContextStats.count key (<[key := v]> s) = v.
Proof. unfold ContextStats.count. now rewrite lookup_insert_eq. Qed.

Lemma count_decr (key : string) (s : ContextStats.t) :
  ContextStats.count key (ContextStats.decr key s) = ContextStats.count key s - 1.
Proof. apply count_insert. Qed.

(** The effect of one [delete] while a GL context is current. *)
Lemma delete_spec (e : Env) :
  gl.current_context (device e) = true ->
  delete e
  = (inr tt,
     {| self := with_glo 0 (self e);
        device := if _glo (self e) =? 0 then device e
                  else gl.glDeleteTextures (_glo (self e)) (device e);
        ctx := set_stats (ContextStats.decr "texture") (ctx e) |}).
Proof.
  intros Hcur. unfold delete, delete_glo, bind, attr, gets, when, call, assign, modify.
  cbn. rewrite Hcur. cbn. destruct (_glo (self e) =? 0); reflexivity.
Qed.

(** C1.  What the code does on a double delete: neither call raises, the
    handle is 0 after the first call and the second call leaves the object
    and the device alone, but the allocation counter goes down by one on
    each call, by two in all. *)
Theorem delete_twice_decrements_twice (e : Env) :
  gl.current_context (device e) = true ->
  let e1 := snd (delete e) in
  let e2 := snd (delete e1) in
  fst (delete e) = inr tt /\ fst (delete e1) = inr tt
  /\ _glo (self e1) = 0
  /\ self e2 = self e1 /\ device e2 = device e1
  /\ texture_count e1 = texture_count e - 1
  /\ texture_count e2 = texture_count e - 2.
Proof.
  intros Hcur e1 e2.
  assert (Hcur1 : gl.current_context (device e1) = true).
  { subst e1. rewrite (delete_spec e Hcur). cbn.
    destruct (_glo (self e) =? 0); [exact Hcur |].
    unfold gl.glDeleteTextures. destruct (decide (_glo (self e) = 0)); [exact Hcur |].
    exact Hcur. }
  subst e2. rewrite (delete_spec e1 Hcur1).
  subst e1. rewrite (delete_spec e Hcur). cbn.
  unfold texture_count. cbn. rewrite ?count_insert, ?count_decr.
  repeat split; lia.
Qed.

Lemma delete_twice_decrements_twice_witness :
  gl.current_context (device Sample.two_layers) = true
  /\ texture_count Sample.two_layers = 1
  /\ texture_count (snd (delete Sample.two_layers)) = 0
  /\ texture_count (snd (delete (snd (delete Sample.two_layers)))) = -1.
Proof.
  assert (Hcur : gl.current_context (device Sample.two_layers) = true) by reflexivity.
  pose proof (delete_twice_decrements_twice Sample.two_layers Hcur) as H.
  cbv zeta in H. destruct H as (_ & _ & _ & _ & _ & H1 & H2).
  assert (H0 : texture_count Sample.two_layers = 1) by reflexivity.
  rewrite H0 in H1, H2.
  repeat split; assumption.
Defined.

End Delete.

Section Anisotropy.

Lemma float_range (x : Float64.t) : 0 <= Float64.bits x < 2 ^ 64.
Proof. exact (proj2_dsig x). Qed.

Lemma magnitude_spec (x : Float64.t) :
  Float64.magnitude x
  = if Float64.sign x then Float64.bits x - 2 ^ 63 else Float64.bits x.
Proof.
  pose proof (float_range x) as Hx.
  unfold Float64.magnitude, Float64.sign.
  change (2 ^ 64) with (2 * 2 ^ 63) in Hx.
  assert (Hpos : 0 < 2 ^ 63) by reflexivity.
  generalize dependent (2 ^ 63). intros h Hx Hpos.
  destruct (Z.leb_spec h (Float64.bits x)) as [Hge | Hlt].
  - replace (Float64.bits x) with (Float64.bits x - h + 1 * h) at 1 by ring.
    rewrite Z.mod_add by lia. apply Z.mod_small. lia.
  - apply Z.mod_small. lia.
Qed.

(** Two floats at the same place of the number line, other than zero,
    are the same float. *)
Lemma key_inj (a b : Float64.t) :
  Float64.key a = Float64.key b -> Float64.key b <> 0 -> a = b.
Proof.
  intros Hkey Hnz. apply dsig_eq. change (Float64.bits a = Float64.bits b).
  pose proof (float_range a) as Ha. pose proof (float_range b) as Hb.
  unfold Float64.key in Hkey, Hnz.
  rewrite (magnitude_spec a), (magnitude_spec b) in Hkey.
  rewrite (magnitude_spec b) in Hnz.
  unfold Float64.sign in Hkey, Hnz.
  change (2 ^ 64) with (2 * 2 ^ 63) in Ha, Hb.
  assert (Hpos : 0 < 2 ^ 63) by reflexivity.
  generalize dependent (2 ^ 63). intros h Hkey Hnz Ha Hb Hpos.
  revert Hkey Hnz.
  destruct (Z.leb_spec h (Float64.bits a));
    destruct (Z.leb_spec h (Float64.bits b)); lia.
Qed.

Lemma le_not_lt_key (a b : Float64.t) :
  Float64.le a b = true -> Float64.lt a b = false -> Float64.key a = Float64.key b.
Proof.
  unfold Float64.le, Float64.lt. intros Hle Hlt.
  apply andb_prop in Hle as [Hnan Hle]. rewrite Hnan in Hlt. cbn in Hlt.
  apply Z.leb_le in Hle. apply Z.ltb_ge in Hlt. lia.
Qed.

Lemma le_not_gt (a b : Float64.t) : Float64.le a b = true -> Float64.lt b a = false.
Proof.
  unfold Float64.le, Float64.lt. intros Hle.
  apply andb_prop in Hle as [_ Hle]. apply Z.leb_le in Hle.
  apply andb_false_iff. right. apply Z.ltb_ge. lia.
Qed.

Lemma lt_trans_false (a b c : Float64.t) :
  Float64.lt a b = true -> Float64.lt b c = true -> Float64.lt c a = false.
Proof.
  unfold Float64.lt. intros Hab Hbc.
  apply andb_prop in Hab as [_ Hab]. apply andb_prop in Hbc as [_ Hbc].
  apply Z.ltb_lt in Hab, Hbc.
  apply andb_false_iff. right. apply Z.ltb_ge. lia.
Qed.

Lemma lt_asym (a b : Float64.t) : Float64.lt a b = true -> Float64.lt b a = false.
Proof.
  unfold Float64.lt. intros Hab. apply andb_prop in Hab as [_ Hab].
  apply Z.ltb_lt in Hab. apply andb_false_iff. right. apply Z.ltb_ge. lia.
Qed.

Lemma key_one : Float64.key Float64.one <> 0.
Proof. vm_compute. discriminate. Qed.

(** The value the setter assigns to [_anisotropy]. *)
Lemma anisotropy_setter_stores (value : Float64.t) (e : Env) :
  fst (anisotropy_setter value e) = inr tt
  /\ _anisotropy (self (snd (anisotropy_setter value e)))
     = Float64.max Float64.one
         (Float64.min value (MAX_TEXTURE_MAX_ANISOTROPY (info (ctx e)))).
Proof. split; reflexivity. Qed.

(** C9.  The setter never raises.  A value above the device maximum stores
    exactly the device maximum, a value below 1.0 stores exactly 1.0, and a
    value within [1.0, device maximum] is stored unchanged.  The device
    maximum is at least 1.0 on every device (the anisotropic filtering
    extension requires a maximum of at least 2.0); that bound is used in
    the first case only. *)
Theorem anisotropy_setter_clamps (value : Float64.t) (e : Env) :
  let maximum := MAX_TEXTURE_MAX_ANISOTROPY (info (ctx e)) in
  let stored := _anisotropy (self (snd (anisotropy_setter value e))) in
  fst (anisotropy_setter value e) = inr tt
  /\ (Float64.le Float64.one maximum = true ->
      Float64.gt value maximum = true -> stored = maximum)
  /\ (Float64.lt value Float64.one = true -> stored = Float64.one)
  /\ (Float64.le Float64.one value = true ->
      Float64.le value maximum = true -> stored = value).
Proof.
  intros maximum stored.
  destruct (anisotropy_setter_stores value e) as [Hret Hstored].
  fold maximum in Hstored. fold stored in Hstored.
  split; [exact Hret |]. rewrite Hstored. clear Hret Hstored stored.
  unfold Float64.max, Float64.min, Float64.gt.
  split; [| split].
  - intros Hmax Hgt. rewrite Hgt.
    destruct (Float64.lt Float64.one maximum) eqn:Hlt; [reflexivity |].
    symmetry. apply key_inj; [| exact key_one].
    symmetry. now apply le_not_lt_key.
  - intros Hlt.
    destruct (Float64.lt maximum value) eqn:Hmv.
    + now rewrite (lt_trans_false _ _ _ Hmv Hlt).
    + now rewrite (lt_asym _ _ Hlt).
  - intros Hlo Hhi. rewrite (le_not_gt _ _ Hhi).
    destruct (Float64.lt Float64.one value) eqn:Hlt; [reflexivity |].
    symmetry. apply key_inj; [| exact key_one].
    symmetry. now apply le_not_lt_key.
Qed.

(** The three cases on a device whose maximum is 16.0: 32.0 stores 16.0,
    0.5 stores 1.0 and 2.0 stores 2.0. *)
Lemma anisotropy_setter_clamps_witness :
  _anisotropy (self (snd (anisotropy_setter Float64.thirty_two Sample.two_layers)))
  = Float64.sixteen
  /\ _anisotropy (self (snd (anisotropy_setter Float64.half Sample.two_layers)))
     = Float64.one
  /\ _anisotropy (self (snd (anisotropy_setter Float64.two Sample.two_layers)))
     = Float64.two.
Proof.
  split; [| split].
  - apply (anisotropy_setter_clamps Float64.thirty_two Sample.two_layers);
      vm_compute; reflexivity.
  - apply (anisotropy_setter_clamps Float64.half Sample.two_layers);
      vm_compute; reflexivity.
  - apply (anisotropy_setter_clamps Float64.two Sample.two_layers);
      vm_compute; reflexivity.
Defined.

(** The lower bound has priority in [max(1.0, min(value, maximum))]: were
    a maximum of 0.5 reported, the value 0.75 would store 1.0. *)
Remark anisotropy_above_small_maximum :
  Float64.gt Float64.three_quarters
    (MAX_TEXTURE_MAX_ANISOTROPY (info (ctx Sample.small_maximum))) = true
  /\ Float64.bits
       (_anisotropy (self (snd (anisotropy_setter Float64.three_quarters
                                  Sample.small_maximum))))
     = Float64.bits Float64.one
  /\ Float64.bits
       (_anisotropy (self (snd (anisotropy_setter Float64.three_quarters
                                  Sample.small_maximum))))
     <> Float64.bits (MAX_TEXTURE_MAX_ANISOTROPY (info (ctx Sample.small_maximum))).
Proof.
  split; [vm_compute; reflexivity |]. split; [vm_compute; reflexivity |].
  vm_compute. discriminate.
Qed.

End Anisotropy.

Section Swizzle.

(** The table of the setter knows exactly the letters of the
    specification, once upper-cased. *)
Lemma swizzle_letter_known (c : ascii) :
  bool_decide (is_Some (dict_get (str_of_char (upper c)) swizzle_str_to_enum))
  = bool_decide (c ∈ swizzle_letters).
Proof.
  destruct c as [[] [] [] [] [] [] [] []]; vm_compute; reflexivity.
Qed.

Lemma swizzle_letter_iff (c : ascii) :
  is_Some (dict_get (str_of_char (upper c)) swizzle_str_to_enum)
  <-> c ∈ swizzle_letters.
Proof.
  pose proof (swizzle_letter_known c) as H.
  split; intros Hc.
  - apply (bool_decide_unpack _). rewrite <- H. now apply bool_decide_pack.
  - apply (bool_decide_unpack _). rewrite H. now apply bool_decide_pack.
Qed.

(** The loop either collects one enum per character, all characters being
    letters of the specification, or stops at the first character that is
    not one with a [ValueError]; it never touches the state. *)
Lemma swizzle_loop_spec (value : list ascii) (swizzle_enums : list Z) (e : Env) :
  (exists enums, swizzle_loop value swizzle_enums e = (inr enums, e)
                 /\ length enums = (length swizzle_enums + length value)%nat
                 /\ Forall (fun c => c ∈ swizzle_letters) value)
  \/ (exists msg, swizzle_loop value swizzle_enums e = (inl (ValueError msg), e)
                  /\ ~ Forall (fun c => c ∈ swizzle_letters) value).
Proof.
  revert swizzle_enums. induction value as [|c rest IH]; intros acc.
  - left. exists acc. cbn. repeat split; [lia | constructor].
  - cbn [swizzle_loop].
    destruct (dict_get (str_of_char (upper c)) swizzle_str_to_enum) as [v|] eqn:Hc.
    + assert (Hin : c ∈ swizzle_letters) by (apply swizzle_letter_iff; rewrite Hc; eauto).
      destruct (IH (acc ++ [v])%list) as [(enums & Heq & Hlen & Hall) | (msg & Heq & Hnot)].
      * left. exists enums. rewrite Heq. repeat split; [| now constructor].
        rewrite Hlen, length_app. cbn. lia.
      * right. exists msg. rewrite Heq. split; [reflexivity |].
        intros Hall. apply Hnot. now inversion Hall.
    + right. eexists. split; [reflexivity |].
      intros Hall. inversion Hall as [|? ? Hin _]; subst.
      apply swizzle_letter_iff in Hin. rewrite Hc in Hin. now destruct Hin.
Qed.

(** C7.  A value that is not a string of four characters, each one of
    R, G, B, A, 0, 1 in either case, makes the swizzle setter raise a
    [ValueError] before any device call: the device (and with it the
    swizzle state set before), the object and the context are unchanged. *)
Theorem swizzle_setter_rejects (value : PyObject) (e : Env) :
  ~ valid_swizzle value ->
  exists msg, swizzle_setter value e = (inl (ValueError msg), e).
Proof.
  intros Hinvalid.
  destruct value as [| b | n | f | s | b | items]; try (eexists; reflexivity).
  unfold swizzle_setter.
  destruct (len (chars s) =? 4) eqn:Hlen; cbn [negb]; [| eexists; reflexivity].
  apply Z.eqb_eq in Hlen. unfold len in Hlen.
  unfold bind at 1.
  destruct (swizzle_loop_spec (chars s) [] e)
    as [(enums & Heq & _ & Hall) | (msg & Heq & _)]; rewrite Heq.
  - exfalso. apply Hinvalid. exists s. repeat split; [lia | exact Hall].
  - exists msg. reflexivity.
Qed.

Lemma swizzle_setter_rejects_witness :
  ~ valid_swizzle (PyStr "RGB")
  /\ exists msg, swizzle_setter (PyStr "RGB") Sample.two_layers
                 = (inl (ValueError msg), Sample.two_layers).
Proof.
  assert (H : ~ valid_swizzle (PyStr "RGB")).
  { intros (s & Hs & Hlen & _). injection Hs as <-. cbn in Hlen. lia. }
  split; [exact H | exact (swizzle_setter_rejects (PyStr "RGB") Sample.two_layers H)].
Defined.

(** Conversely, a valid swizzle string is accepted. *)
Lemma swizzle_setter_accepts (value : PyObject) (e : Env) :
  valid_swizzle value -> fst (swizzle_setter value e) = inr tt.
Proof.
  intros (s & -> & Hlen & Hall). unfold swizzle_setter.
  destruct (len (chars s) =? 4) eqn:E;
    [| apply Z.eqb_neq in E; unfold len in E; lia].
  cbn [negb]. unfold bind at 1.
  destruct (swizzle_loop_spec (chars s) [] e)
    as [(enums & Heq & Hn & _) | (msg & _ & Hnot)]; [| contradiction].
  rewrite Heq. rewrite Hlen in Hn. cbn in Hn.
  destruct enums as [|e0 [|e1 [|e2 [|e3 [|e4 rest]]]]]; cbn in Hn; try lia.
  reflexivity.
Qed.

(** Setting "ABGR" reaches the device in that order. *)
Example swizzle_setter_abgr :
  let d := device (snd (swizzle_setter (PyStr "abgr") Sample.two_layers)) in
  (fun p => gl.tex_parami (gl.lookup_texture 1 d) !! p)
    <$> [gl.GL_TEXTURE_SWIZZLE_R; gl.GL_TEXTURE_SWIZZLE_G;
         gl.GL_TEXTURE_SWIZZLE_B; gl.GL_TEXTURE_SWIZZLE_A]
  = [Some gl.GL_ALPHA; Some gl.GL_BLUE; Some gl.GL_GREEN; Some gl.GL_RED].
Proof. vm_compute. reflexivity. Qed.

End Swizzle.

(** ** Rules of the program logic *)

Section Rules.
Context {A B : Type}.
Implicit Types (Q : A -> Env -> Prop) (E : Exception -> Env -> Prop) (e : Env).

Lemma wp_ret (a : A) Q E e : Q a e -> wp (ret a) Q E e.
Proof. exact id. Qed.

Lemma wp_raise (x : Exception) Q E e : E x e -> wp (raise x) Q E e.
Proof. exact id. Qed.

Lemma wp_gets (f : Env -> A) Q E e : Q (f e) e -> wp (gets f) Q E e.
Proof. exact id. Qed.

Lemma wp_attr (f : TextureArray -> A) Q E e : Q (f (self e)) e -> wp (attr f) Q E e.
Proof. exact id. Qed.

Lemma wp_bind (m : Py B) (k : B -> Py A) Q E e :
  wp m (fun b e' => wp (k b) Q E e') E e -> wp (bind m k) Q E e.
Proof. unfold wp, bind. now destruct (m e) as [[x | b] e']. Qed.

Lemma wp_mono (m : Py A) Q Q' E E' e :
  wp m Q E e ->
  (forall a e', Q a e' -> Q' a e') -> (forall x e', E x e' -> E' x e') ->
  wp m Q' E' e.
Proof. unfold wp. destruct (m e) as [[x | a] e']; auto. Qed.

Lemma wp_returns (m : Py A) Q E e a e' :
  wp m Q E e -> m e = (inr a, e') -> Q a e'.
Proof. unfold wp. intros H Heq. now rewrite Heq in H. Qed.

Lemma wp_total (m : Py A) Q e :
  wp m Q (fun _ _ => False) e -> exists a e', m e = (inr a, e') /\ Q a e'.
Proof. unfold wp. destruct (m e) as [[x | a] e']; [tauto | eauto]. Qed.

Lemma wp_raises (m : Py A) E e :
  wp m (fun _ _ => False) E e -> exists x e', m e = (inl x, e') /\ E x e'.
Proof. unfold wp. destruct (m e) as [[x | a] e']; [eauto | tauto]. Qed.

Lemma wp_keeps {C} (proj : Env -> C) (m : Py A) Q E e :
  keeps proj m ->
  (forall a e', proj e' = proj e -> Q a e') ->
  (forall x e', proj e' = proj e -> E x e') ->
  wp m Q E e.
Proof. intros Hm HQ HE. eapply wp_mono; [apply Hm | |]; cbn; auto. Qed.
End Rules.

Lemma wp_modify (f : Env -> Env) (Q : unit -> Env -> Prop) E e :
  Q tt (f e) -> wp (modify f) Q E e.
Proof. exact id. Qed.

Lemma wp_glGenTextures (Q : Z -> Env -> Prop) E e :
  Q (fst (gl.glGenTextures (device e)))
    (on_device (fun _ => snd (gl.glGenTextures (device e))) e) ->
  wp glGenTextures Q E e.
Proof. exact id. Qed.

(** A part of what is kept is kept. *)
Lemma keeps_coarser {A B C} (fine : Env -> B) (coarse : Env -> C) (m : Py A) :
  (forall e e', fine e' = fine e -> coarse e' = coarse e) ->
  keeps fine m -> keeps coarse m.
Proof.
  intros Hsub Hm e. eapply wp_mono; [apply Hm | |]; cbn; auto.
Qed.

Create Rewrite HintDb layout.

(** ** The size of the storage under the calls of the device *)

Section ImageSize.
Implicit Types (name target : Z) (st : gl.State).

Lemma image_size_glActiveTexture name unit_ st :
  image_size name (gl.glActiveTexture unit_ st) = image_size name st.
Proof. reflexivity. Qed.

Lemma image_size_glBindTexture name target name' st :
  image_size name (gl.glBindTexture target name' st) = image_size name st.
Proof. reflexivity. Qed.

Lemma image_size_glBindBuffer name target name' st :
  image_size name (gl.glBindBuffer target name' st) = image_size name st.
Proof. reflexivity. Qed.

Lemma image_size_glPixelStorei name pname value st :
  image_size name (gl.glPixelStorei pname value st) = image_size name st.
Proof. unfold gl.glPixelStorei. now destruct (decide _). Qed.

(** A change of the bound texture that keeps the size of level 0. *)
Lemma image_size_with_bound name target f st :
  (forall t, (fun img => (gl.img_width img, gl.img_height img, gl.img_depth img))
               <$> gl.tex_images (f t) !! 0
             = (fun img => (gl.img_width img, gl.img_height img, gl.img_depth img))
                 <$> gl.tex_images t !! 0) ->
  image_size name (gl.with_bound target f st) = image_size name st.
Proof.
  intros Hf. unfold image_size, gl.with_bound, gl.lookup_texture, gl.set_textures. cbn.
  destruct (decide (gl.bound target st = name)) as [-> | Hne].
  - rewrite lookup_insert_eq. cbn. apply Hf.
  - now rewrite lookup_insert_ne.
Qed.

Lemma image_size_glTexParameteri name target pname value st :
  image_size name (gl.glTexParameteri target pname value st) = image_size name st.
Proof. now apply image_size_with_bound. Qed.

Lemma image_size_glTexParameterf name target pname value st :
  image_size name (gl.glTexParameterf target pname value st) = image_size name st.
Proof. now apply image_size_with_bound. Qed.

Lemma image_size_glTexSubImage3D name target level x y z w h d format type data st :
  image_size name (gl.glTexSubImage3D target level x y z w h d format type data st)
  = image_size name st.
Proof.
  unfold gl.glTexSubImage3D.
  destruct (gl.bytes_per_pixel format type) as [bpp |]; [| reflexivity].
  destruct (gl.tex_images _ !! level) as [img |] eqn:Himg; [| reflexivity].
  destruct (gl.inside img x y z w h d); [| reflexivity].
  unfold image_size, gl.with_bound, gl.lookup_texture, gl.set_textures in *. cbn.
  destruct (decide (gl.bound target st = name)) as [<- | Hne].
  - rewrite lookup_insert_eq. cbn.
    destruct (decide (level = 0)) as [-> | Hl].
    + rewrite lookup_insert_eq, Himg. reflexivity.
    + now rewrite lookup_insert_ne.
  - now rewrite lookup_insert_ne.
Qed.

(** A call that specifies level 0 of the bound texture. *)
Lemma image_size_specified name target (img : gl.Image) (f : gl.Texture -> gl.Texture) st :
  gl.bound target st = name ->
  (forall t, gl.tex_images (f t) !! 0 = Some img) ->
  image_size name (gl.with_bound target f st)
  = Some (gl.img_width img, gl.img_height img, gl.img_depth img).
Proof.
  intros <- Hf. unfold image_size, gl.with_bound, gl.lookup_texture, gl.set_textures.
  cbn [gl.textures]. rewrite lookup_insert_eq. cbn [default]. unfold id. now rewrite Hf.
Qed.

End ImageSize.

#[export] Hint Rewrite image_size_glActiveTexture image_size_glBindTexture
  image_size_glBindBuffer image_size_glPixelStorei image_size_glTexParameteri
  image_size_glTexParameterf image_size_glTexSubImage3D : layout.

Create HintDb keeps.

(** One step of symbolic execution of a method under [wp]. *)
Ltac wp_step :=
  cbv beta;
  lazymatch goal with
  | |- wp (bind _ _) _ _ _ => apply wp_bind
  | |- wp (ret _) _ _ _ => apply wp_ret
  | |- wp (raise _) _ _ _ => apply wp_raise
  | |- wp (gets _) _ _ _ => apply wp_gets
  | |- wp (attr _) _ _ _ => apply wp_attr
  | |- wp (modify _) _ _ _ => apply wp_modify
  | |- wp (assign _) _ _ _ => apply wp_modify
  | |- wp (call _) _ _ _ => apply wp_modify
  | |- wp (when ?b _) _ _ _ => unfold when
  | |- wp (index _ _) _ _ _ => unfold index
  | |- wp (slot _ _) _ _ _ => unfold slot
  | |- wp glGenTextures _ _ _ => apply wp_glGenTextures
  | |- wp (if ?b then _ else _) _ _ _ => destruct b eqn:?
  | |- wp (match ?x with _ => _ end) _ _ _ => destruct x eqn:?
  | |- wp _ _ _ _ =>
      eapply wp_keeps; [solve [eauto with keeps] | intros ? ? ? | intros ? ? ?]
  end.

(** Assignments outside the layout. *)
Lemma layout_with_glo v t : layout (with_glo v t) = layout t.
Proof. reflexivity. Qed.
Lemma layout_with_filter v t : layout (with_filter v t) = layout t.
Proof. reflexivity. Qed.
Lemma layout_with_wrap_x v t : layout (with_wrap_x v t) = layout t.
Proof. reflexivity. Qed.
Lemma layout_with_wrap_y v t : layout (with_wrap_y v t) = layout t.
Proof. reflexivity. Qed.
Lemma layout_with_anisotropy v t : layout (with_anisotropy v t) = layout t.
Proof. reflexivity. Qed.
Lemma layout_with_compare_func v t : layout (with_compare_func v t) = layout t.
Proof. reflexivity. Qed.

#[export] Hint Rewrite layout_with_glo layout_with_filter layout_with_wrap_x
  layout_with_wrap_y layout_with_anisotropy layout_with_compare_func : layout.

(** Reduce the slots of explicit objects and environments. *)
Ltac cbn_fields :=
  cbn [self device ctx on_self on_device on_ctx
       _glo _width _height _layers _dtype _target _components _alignment _depth
       _compare_func _format _internal_format _type _component_size _samples
       _filter _wrap_x _wrap_y _anisotropy _immutable _compressed _compressed_data
       with_glo with_width with_height with_target with_compare_func with_format
       with_internal_format with_type with_component_size with_filter with_wrap_x
       with_wrap_y with_anisotropy] in *.

(** Close a goal about kept slots from the equations collected on the way. *)
Ltac kept :=
  cbv beta; unfold stable, storage_size in *;
  cbn [self device ctx on_self on_device on_ctx] in *;
  autorewrite with layout in *; cbn_fields; congruence.

Ltac keeps_auto := intros ?; repeat wp_step; kept.

(** Name every slot of every environment at hand and use the equations
    between them. *)
Ltac open_envs :=
  repeat match goal with x : Env |- _ => destruct x as [[] ? ?] end;
  cbv beta in *; unfold stable, layout, shape in *; cbn_fields; simplify_eq.

Section Frames.

Lemma keeps_bind_self : keeps stable bind_self.
Proof. unfold bind_self. keeps_auto. Qed.

Lemma keeps_slot name f : keeps stable (slot name f).
Proof. unfold slot. keeps_auto. Qed.

Lemma keeps_index t i : keeps stable (index t i).
Proof. unfold index. keeps_auto. Qed.

Lemma keeps_validate data byte_size w h l :
  keeps stable (_validate_data_size data byte_size w h l).
Proof. unfold _validate_data_size. keeps_auto. Qed.

Hint Resolve keeps_bind_self keeps_slot keeps_index keeps_validate : keeps.

Lemma keeps_filter_setter value : keeps stable (filter_setter value).
Proof. unfold filter_setter. keeps_auto. Qed.

Lemma keeps_wrap_x_setter value : keeps stable (wrap_x_setter value).
Proof. unfold wrap_x_setter. keeps_auto. Qed.

Lemma keeps_wrap_y_setter value : keeps stable (wrap_y_setter value).
Proof. unfold wrap_y_setter. keeps_auto. Qed.

Lemma keeps_anisotropy_setter value : keeps stable (anisotropy_setter value).
Proof. unfold anisotropy_setter. keeps_auto. Qed.

Lemma keeps_compare_func_setter value : keeps stable (compare_func_setter value).
Proof. unfold compare_func_setter. keeps_auto. Qed.

Lemma keeps_write data level viewport : keeps stable (write data level viewport).
Proof. unfold write. keeps_auto. Qed.

Lemma keeps_swizzle_loop value enums : keeps stable (swizzle_loop value enums).
Proof.
  revert enums. induction value as [|c rest IH]; intros enums e; cbn [swizzle_loop].
  - now apply wp_ret.
  - destruct (dict_get _ _); [apply IH | now apply wp_raise].
Qed.

Hint Resolve keeps_swizzle_loop : keeps.

Lemma keeps_swizzle_setter value : keeps stable (swizzle_setter value).
Proof. unfold swizzle_setter. keeps_auto. Qed.

Lemma keeps_read level alignment : keeps stable (read level alignment).
Proof. unfold read. keeps_auto. Qed.

Lemma keeps_delete : keeps (fun e => layout (self e)) delete.
Proof. unfold delete, delete_glo. keeps_auto. Qed.

End Frames.

#[export] Hint Resolve keeps_bind_self keeps_slot keeps_index keeps_validate
  keeps_filter_setter keeps_wrap_x_setter keeps_wrap_y_setter
  keeps_compare_func_setter keeps_write : keeps.

Section Storage.

(** Every entry of [pixel_formats] has its two tuples of five formats and
    an element size of 1, 2 or 4 bytes that is the size of its transfer
    type; the base formats name as many components as their index. *)
Lemma pixel_formats_wf (dtype : string) (format_info : FormatInfo) :
  dict_get dtype pixel_formats = Some format_info ->
  length (base_formats format_info) = 5%nat
  /\ length (internal_formats format_info) = 5%nat
  /\ component_size format_info ∈ [1; 2; 4]
  /\ gl.type_size (gl_type format_info) = Some (component_size format_info)
  /\ (forall c, c ∈ [1; 2; 3; 4] ->
        gl.format_components (nth (Z.to_nat c) (base_formats format_info) 0) = Some c).
Proof.
  unfold pixel_formats. cbn [dict_get].
  repeat (destruct (decide (_ = dtype)) as [_ | _];
          [ intros Heq; apply (inj Some) in Heq; subst format_info;
            cbn; split; [reflexivity |]; split; [reflexivity |];
            split; [apply (bool_decide_unpack _); exact I |];
            split; [reflexivity |];
            intros c Hc; apply list_elem_of_In in Hc; cbn in Hc;
            intuition (subst; reflexivity)
          | ]).
  discriminate.
Qed.

(** [_texture_2d] touches neither the shape, the handle nor the context.
    When it returns, the slots are related as [tex_inv] says; when it
    raises, they still are if they were before. *)
Lemma texture_2d_spec (data : option (list byte)) (e : Env) :
  _components (self e) ∈ [1; 2; 3; 4] ->
  _target (self e) = (if _samples (self e) =? 0 then gl.GL_TEXTURE_2D_ARRAY
                      else gl.GL_TEXTURE_2D_MULTISAMPLE_ARRAY) ->
  wp (_texture_2d data)
     (fun _ e' => (shape (self e'), _glo (self e'), ctx e')
                  = (shape (self e), _glo (self e), ctx e)
                  /\ tex_inv (self e'))
     (fun _ e' => (shape (self e'), _glo (self e'), ctx e')
                  = (shape (self e), _glo (self e), ctx e)
                  /\ (tex_inv (self e) -> tex_inv (self e')))
     e.
Proof.
  intros Hc Ht.
  assert (Hneg : (_components (self e) <? 0) = false).
  { apply Z.ltb_ge. apply list_elem_of_In in Hc. cbn in Hc. lia. }
  unfold _texture_2d. repeat wp_step.
  all: open_envs.
  all: (split; [first [reflexivity | congruence] |]).
  all: unfold tex_inv; cbn_fields.
  all: try solve [intros Hinv; exact Hinv].
  all: match goal with Hf : dict_get _ pixel_formats = Some ?f |- _ =>
         try (intros (f' & Hf' & Hsz & Hty & _ & _ & Hfmt);
              assert (f' = f) as -> by congruence);
         exists f
       end.
  all: repeat (split; [first [assumption | reflexivity | congruence] |]).
  all: intros Hs Hd; subst.
  all: try discriminate.
  all: try (rewrite Hneg; reflexivity).
  all: try (rewrite Hneg in *; reflexivity).
  all: try (apply Hfmt; reflexivity).
Qed.

(** The constructor: what holds of the new texture when it returns. *)
Lemma init_spec (a : Args) (e : Env) :
  wp (__init__ a) (fun _ e' => created a (ctx e) e') (fun _ _ => True) e.
Proof.
  unfold __init__. destruct (arg_size a) as [[w h] l] eqn:Hsize.
  repeat (wp_step; cbn_fields); try exact I.
  assert (Hcomp : arg_components a ∈ [1; 2; 3; 4]).
  { apply negb_false_iff in Heqb. now apply bool_decide_eq_true in Heqb. }
  apply Z.eqb_neq in Heqb1.
  eapply wp_mono; [apply texture_2d_spec; cbn_fields; [exact Hcomp | reflexivity] | |];
    cbv beta; [| intros; exact I].
  intros [] e1 [Hkept Hinv]. cbn_fields.
  repeat (wp_step; cbn_fields); try exact I.
  all: unfold created, clamped_samples, tex_inv in *.
  all: open_envs.
  all: cbn [info gl_api stats set_stats add_finalizer].
  all: repeat (split; [first [assumption | reflexivity | congruence] |]).
  all: first [assumption | reflexivity | congruence].
Qed.

Lemma create_spec (a : Args) (d : gl.State) (c : Context) (e : Env) :
  create a d c = (inr tt, e) -> created a c e.
Proof.
  intros Hrun. exact (wp_returns _ _ _ _ _ _ (init_spec a _) Hrun).
Qed.

(** [tex_inv] only looks at these slots. *)
Lemma tex_inv_congr (t t' : TextureArray) :
  (_dtype t', _component_size t', _type t', _components t', _target t',
   _samples t', _depth t', _format t')
  = (_dtype t, _component_size t, _type t, _components t, _target t,
     _samples t, _depth t, _format t) ->
  tex_inv t -> tex_inv t'.
Proof.
  destruct t, t'. unfold tex_inv. cbn. intros Heq. simplify_eq. exact id.
Qed.

Lemma tex_inv_layout (t t' : TextureArray) :
  layout t' = layout t -> tex_inv t -> tex_inv t'.
Proof.
  intros Heq. apply tex_inv_congr. unfold layout, shape in Heq. congruence.
Qed.

(** [resize] leaves the slots related as [tex_inv] says. *)
Lemma resize_tex_inv (new_size : Z * Z) (e : Env) :
  tex_inv (self e) ->
  wp (resize new_size) (fun _ e' => tex_inv (self e')) (fun _ e' => tex_inv (self e')) e.
Proof.
  intros Hinv. unfold resize. wp_step. wp_step. wp_step; [now apply wp_raise |].
  wp_step. wp_step.
  - assert (Hinv1 : tex_inv (self e')).
    { eapply tex_inv_layout; [| exact Hinv]. unfold stable in *. congruence. }
    repeat (wp_step; cbn [self on_self]).
    assert (Hinv2 : tex_inv (with_height new_size.2 (with_width new_size.1 (self e')))).
    { eapply tex_inv_congr; [| exact Hinv1]. reflexivity. }
    pose proof Hinv2 as (fi & _ & _ & _ & Hc & Ht & _).
    eapply wp_mono; [apply texture_2d_spec; assumption | |]; cbv beta.
    + now intros _ e2 [_ H2].
    + intros _ e2 [_ H2]. now apply H2.
  - eapply tex_inv_layout; [| exact Hinv]. unfold stable in *. congruence.
Qed.

Lemma keeps_tex_inv {A} (m : Py A) (e : Env) :
  keeps (fun e => layout (self e)) m -> tex_inv (self e) -> tex_inv (self (snd (m e))).
Proof.
  intros Hm Hinv. specialize (Hm e). unfold wp in Hm.
  destruct (m e) as [[x | a] e']; cbn; now apply (tex_inv_layout (self e)).
Qed.

Lemma stable_layout {A} (m : Py A) : keeps stable m -> keeps (fun e => layout (self e)) m.
Proof. apply keeps_coarser. unfold stable. congruence. Qed.

(** Every state of a texture relates its slots as [tex_inv] says. *)
Lemma texture_tex_inv (e : Env) : texture e -> tex_inv (self e).
Proof.
  induction 1 as [a d c e Hnew | call e _ IH].
  - apply (create_spec a d c e Hnew).
  - destruct call; cbn [perform].
    + pose proof (resize_tex_inv new_size e IH) as H. unfold wp in H.
      now destruct (resize new_size e) as [[x | []] e'].
    + apply keeps_tex_inv; [apply stable_layout, keeps_swizzle_setter | exact IH].
    + apply keeps_tex_inv; [apply stable_layout, keeps_filter_setter | exact IH].
    + apply keeps_tex_inv; [apply stable_layout, keeps_wrap_x_setter | exact IH].
    + apply keeps_tex_inv; [apply stable_layout, keeps_wrap_y_setter | exact IH].
    + apply keeps_tex_inv; [apply stable_layout, keeps_anisotropy_setter | exact IH].
    + apply keeps_tex_inv; [apply stable_layout, keeps_compare_func_setter | exact IH].
    + apply keeps_tex_inv; [apply stable_layout, keeps_read | exact IH].
    + apply keeps_tex_inv; [apply stable_layout, keeps_write | exact IH].
    + apply keeps_tex_inv; [apply keeps_delete | exact IH].
Qed.

Lemma glGetTexImage_length target level format type buffer st :
  length (gl.glGetTexImage target level format type buffer st) = length buffer.
Proof.
  unfold gl.glGetTexImage.
  destruct (gl.bytes_per_pixel format type); [| reflexivity].
  destruct (_ !! level); [apply length_imap | reflexivity].
Qed.

(** On a texture that is neither multisampled nor a depth texture, on the
    full API variant, [read] returns, and returns as many bytes as it asked
    the device for; the object and the context are as before. *)
Lemma read_returns (level alignment : Z) (e : Env) :
  tex_inv (self e) ->
  _samples (self e) = 0 -> _depth (self e) = false -> gl_api (ctx e) = "gl" ->
  0 <= read_size (self e) ->
  exists data e',
    read level alignment e = (inr data, e')
    /\ len data = read_size (self e)
    /\ self e' = self e /\ ctx e' = ctx e.
Proof.
  intros (fi & Hfi & Hsz & Hty & Hc & Ht & Hfmt) Hs Hd Hapi Hn.
  specialize (Hfmt Hs Hd). unfold read_size in *.
  apply wp_total. unfold read.
  wp_step. wp_step. rewrite Hs. cbn [Z.ltb Z.compare].
  wp_step. wp_step. rewrite Hapi.
  rewrite (bool_decide_eq_true_2 ("gl" = "gl")) by reflexivity.
  wp_step. unfold bind_self. repeat (wp_step; cbn_fields).
  - apply Z.ltb_lt in Heqb. lia.
  - split; [| split; reflexivity].
    unfold len. rewrite glGetTexImage_length, length_replicate. lia.
  - congruence.
  - congruence.
Qed.

(** The [byte_size] property of a texture: the table's element size times
    components, width and height. *)
Lemma byte_size_spec (e : Env) :
  tex_inv (self e) ->
  byte_size e
  = (inr (_component_size (self e) * _components (self e)
          * _width (self e) * _height (self e)), e).
Proof.
  intros (fi & Hfi & Hsz & _). unfold byte_size, bind, attr, gets, ret.
  cbv beta iota. rewrite Hfi. cbv beta iota. now rewrite Hsz.
Qed.

End Storage.

Section Creation.

(** C2, as amended.  When the sample count, once clamped to
    [0, MAX_SAMPLES], is positive and the data argument is given and not
    empty, the constructor raises a [ValueError] before any device call:
    the device and the context are as they were. *)
Theorem create_multisampled_with_data (a : Args) (d : gl.State) (c : Context) :
  0 < clamped_samples a c ->
  truthy (arg_data a) = true ->
  exists msg e',
    create a d c = (inl (ValueError msg), e') /\ device e' = d /\ ctx e' = c.
Proof.
  intros Hsamples Hdata. unfold clamped_samples in Hsamples.
  apply Z.ltb_lt in Hsamples.
  enough (H : wp (__init__ a) (fun _ _ => False)
                (fun x e' => exists msg, x = ValueError msg
                                         /\ device e' = d /\ ctx e' = c)
                {| self := unassigned; device := d; ctx := c |}).
  { apply wp_raises in H as (x & e' & Hrun & msg & -> & Hd & Hc). eauto. }
  unfold __init__. destruct (arg_size a) as [[w h] l].
  repeat (wp_step; cbn_fields).
  all: try solve [eexists; repeat split].
  all: rewrite Hdata, Hsamples in *; discriminate.
Qed.

Lemma create_multisampled_with_data_witness :
  0 < clamped_samples (Sample.args (2, 1, 2) (Some [Byte.x01]) false 4 false)
        Sample.gl_context
  /\ exists msg e',
       create (Sample.args (2, 1, 2) (Some [Byte.x01]) false 4 false)
         Sample.device Sample.gl_context
       = (inl (ValueError msg), e')
       /\ device e' = Sample.device /\ ctx e' = Sample.gl_context.
Proof.
  assert (H : 0 < clamped_samples (Sample.args (2, 1, 2) (Some [Byte.x01]) false 4 false)
                    Sample.gl_context) by (vm_compute; reflexivity).
  split; [exact H |].
  exact (create_multisampled_with_data _ Sample.device Sample.gl_context H eq_refl).
Defined.

(** C2 as stated fails on a device without multisampling: the sample
    count is clamped to 0, so a call with [samples=4] and data creates an
    ordinary texture holding the data. *)
Lemma create_with_data_without_multisampling :
  let a := Sample.args (2, 1, 2)
             (Some [Byte.x01; Byte.x02; Byte.x03; Byte.x04]) false 4 false in
  let r := create a Sample.device Sample.no_multisampling in
  0 < arg_samples a
  /\ arg_data a = Some [Byte.x01; Byte.x02; Byte.x03; Byte.x04]
  /\ fst r = inr tt
  /\ stored_image (snd r) = Some [Byte.x01; Byte.x02; Byte.x03; Byte.x04].
Proof. vm_compute. repeat split. Qed.

(** With an empty byte string the check on multisampling does not fire
    either ([if data and ...]); the size check of [_texture_2d] raises
    instead, after the device has handed out a texture name. *)
Example create_multisampled_with_empty_data :
  let r := create (Sample.args (2, 1, 2) (Some []) false 4 false)
             Sample.device Sample.gl_context in
  fst r = inl (ValueError "Data size 0 does not match expected size 4")
  /\ gl.next_name (device (snd r)) = 2.
Proof. vm_compute. split; reflexivity. Qed.

(** C3, as amended.  A texture that the constructor returns, that is not
    multisampled and not a depth texture, on the full API variant ("gl")
    and with sizes that are not negative, was given one of the nine element
    kinds and 1 to 4 components, and [read] on it returns
    [width * height * layers * element size * components] bytes. *)
Theorem create_then_read_length (a : Args) (d : gl.State) (c : Context) (e : Env)
    (level alignment : Z) :
  create a d c = (inr tt, e) ->
  clamped_samples a c = 0 ->
  arg_depth a = false ->
  gl_api c = "gl" ->
  0 <= (arg_size a).1.1 -> 0 <= (arg_size a).1.2 -> 0 <= (arg_size a).2 ->
  exists format_info data e',
    dict_get (arg_dtype a) pixel_formats = Some format_info
    /\ arg_components a ∈ [1; 2; 3; 4]
    /\ read level alignment e = (inr data, e')
    /\ len data = (arg_size a).1.1 * (arg_size a).1.2 * (arg_size a).2
                  * component_size format_info * arg_components a.
Proof.
  intros Hnew Hs Hd Hapi Hw Hh Hl.
  destruct (create_spec a d c e Hnew)
    as (Hsize & Hdtype & Hcomp & Hsamples & Hdepth & _ & _ & _ & Hinv & _ & Hgl & _).
  pose proof Hinv as (fi & Hfi & Hsz & _ & Hc & _).
  pose proof (pixel_formats_wf _ _ Hfi) as (_ & _ & Hin & _).
  rewrite Hsize in *. cbn [fst snd] in *.
  assert (Hn : 0 <= read_size (self e)).
  { unfold read_size. rewrite Hsz.
    apply list_elem_of_In in Hin, Hc. cbn in Hin, Hc.
    repeat apply Z.mul_nonneg_nonneg; lia. }
  destruct (read_returns level alignment e Hinv) as (data & e' & Hread & Hlen & _);
    try congruence.
  exists fi, data, e'. rewrite <- Hdtype, <- Hcomp, <- Hsz.
  repeat split; assumption.
Qed.

Lemma create_then_read_length_witness :
  exists format_info data e',
    dict_get "u1" pixel_formats = Some format_info
    /\ 1 ∈ [1; 2; 3; 4]
    /\ read 0 1 Sample.two_layers = (inr data, e')
    /\ len data = 2 * 1 * 2 * component_size format_info * 1.
Proof.
  refine (create_then_read_length (Sample.args (2, 1, 2) None false 0 false)
            Sample.device Sample.gl_context Sample.two_layers 0 1 _ _ _ _ _ _ _);
    vm_compute; first [reflexivity | discriminate].
Defined.

(** C3 as stated fails on the restricted API variant ("gles"): the
    texture is created, but [read] raises. *)
Lemma read_unsupported_on_gles :
  fst (create (Sample.args (2, 1, 2) None false 0 false) Sample.device
         Sample.gles_context) = inr tt
  /\ _samples (self Sample.gles_texture) = 0
  /\ read 0 1 Sample.gles_texture
     = (inl (ValueError "Reading texture array data not supported in GLES yet"),
        Sample.gles_texture).
Proof. repeat split. Qed.

(** Nor does [read] return on a depth texture: [_format] is never
    assigned on that path. *)
Example read_depth_texture :
  let r := create (Sample.args (2, 1, 2) None true 0 false) Sample.device
             Sample.gl_context in
  fst r = inr tt
  /\ fst (read 0 1 (snd r))
     = inl (AttributeError "'TextureArray' object has no attribute '_format'").
Proof. vm_compute. split; reflexivity. Qed.

(** C10, as amended.  On every texture [byte_size] returns
    width * height * components * element size, with no factor for the
    layers.  On a texture of more than one layer that [read] applies to
    (not multisampled, not a depth texture, full API variant) and whose
    width and height are positive, it is strictly less than the number of
    bytes a full [read] returns, which is [byte_size] times the layers. *)
Theorem byte_size_omits_layers (e : Env) :
  texture e ->
  exists format_info size,
    dict_get (_dtype (self e)) pixel_formats = Some format_info
    /\ byte_size e = (inr size, e)
    /\ size = _width (self e) * _height (self e) * _components (self e)
              * component_size format_info
    /\ (_samples (self e) = 0 -> _depth (self e) = false -> gl_api (ctx e) = "gl" ->
        0 < _width (self e) -> 0 < _height (self e) -> 1 < _layers (self e) ->
        forall level alignment,
        exists data e',
          read level alignment e = (inr data, e')
          /\ len data = size * _layers (self e)
          /\ size < len data).
Proof.
  intros Htex.
  pose proof (texture_tex_inv e Htex) as Hinv.
  pose proof Hinv as (fi & Hfi & Hsz & _ & Hc & _).
  pose proof (pixel_formats_wf _ _ Hfi) as (_ & _ & Hin & _).
  exists fi, (_component_size (self e) * _components (self e)
              * _width (self e) * _height (self e)).
  split; [exact Hfi |]. split; [now apply byte_size_spec |].
  split; [rewrite Hsz; ring |].
  intros Hs Hd Hapi Hw Hh Hl level alignment.
  assert (Hpos : 0 < _component_size (self e) * _components (self e)
                     * _width (self e) * _height (self e)).
  { rewrite Hsz. apply list_elem_of_In in Hin, Hc. cbn in Hin, Hc.
    repeat apply Z.mul_pos_pos; lia. }
  destruct (read_returns level alignment e Hinv Hs Hd Hapi)
    as (data & e' & Hread & Hlen & _).
  { unfold read_size. nia. }
  exists data, e'. split; [exact Hread |].
  unfold read_size in Hlen. split; [rewrite Hlen; ring | nia].
Qed.

Lemma byte_size_omits_layers_witness :
  exists format_info size,
    dict_get "u1" pixel_formats = Some format_info
    /\ byte_size Sample.two_layers = (inr size, Sample.two_layers)
    /\ size = 2 * 1 * 1 * component_size format_info
    /\ exists data e',
         read 0 1 Sample.two_layers = (inr data, e')
         /\ len data = size * 2
         /\ size < len data.
Proof.
  assert (Htex : texture Sample.two_layers).
  { apply (texture_new (Sample.args (2, 1, 2) None false 0 false)
             Sample.device Sample.gl_context).
    vm_compute. reflexivity. }
  destruct (byte_size_omits_layers Sample.two_layers Htex)
    as (format_info & size & Hfi & Hsize & Hformula & Hread).
  exists format_info, size.
  split; [exact Hfi |]. split; [exact Hsize |]. split; [exact Hformula |].
  apply (Hread eq_refl eq_refl eq_refl); vm_compute; reflexivity.
Defined.

(** C10 as stated fails on a texture without texels: the constructor
    accepts a width of 0, and on the resulting texture of two layers
    [byte_size] is 0 and a full [read] returns 0 bytes, so [byte_size] is
    not strictly less. *)
Lemma byte_size_of_empty_texture :
  fst (create (Sample.args (0, 1, 2) None false 0 false) Sample.device
         Sample.gl_context) = inr tt
  /\ _samples (self Sample.empty) = 0 /\ _depth (self Sample.empty) = false
  /\ 1 < _layers (self Sample.empty)
  /\ exists size data e',
       byte_size Sample.empty = (inr size, Sample.empty)
       /\ read 0 1 Sample.empty = (inr data, e')
       /\ size = 0 /\ len data = 0 /\ ~ size < len data.
Proof.
  repeat split; try (vm_compute; reflexivity).
  eexists _, _, _. repeat split; try (vm_compute; reflexivity).
  vm_compute. discriminate.
Qed.

End Creation.

Section WriteThenRead.

(** A byte pattern sized for the whole texture is refused by [write] when
    the texture has more (or fewer) layers than one: without a viewport the
    data is checked against the size of a single layer.  Nothing is
    changed. *)
Lemma write_whole_texture_refused (data : list byte) (level : Z) (e : Env) :
  _samples (self e) = 0 ->
  _compressed (self e) = false ->
  len data = read_size (self e) ->
  _layers (self e) <> 1 ->
  read_size (self e) <> 0 ->
  write (IsBytes data) level None e
  = (inl (ValueError
            ("Data size " +:+ pretty (len data) +:+ " does not match expected size "
             +:+ pretty (_width (self e) * _height (self e) * 1
                         * _component_size (self e) * _components (self e)))), e).
Proof.
  intros Hs Hc Hlen Hl Hn. unfold read_size in *.
  unfold write, _validate_data_size, data_to_ctypes, bind, attr, gets, raise, ret.
  cbv beta iota. rewrite Hs. cbn [Z.ltb Z.compare truthy]. cbv beta iota.
  rewrite Hc. cbv beta iota.
  fold (len data).
  destruct (len data =? _ * _ * 1 * _ * _) eqn:Heq; [| reflexivity].
  apply Z.eqb_eq in Heq. exfalso. nia.
Qed.

(** C4.  What the code does on a texture of two layers (2 x 1 pixels of
    one byte): the four bytes that fill the texture are refused, and of the
    two bytes that [write] accepts, [read] returns four, the second layer
    being untouched. *)
Theorem write_then_read_two_layers :
  _samples (self Sample.two_layers) = 0
  /\ _compressed (self Sample.two_layers) = false
  /\ gl_api (ctx Sample.two_layers) = "gl"
  /\ read_size (self Sample.two_layers) = 4
  /\ write (IsBytes [Byte.x01; Byte.x02; Byte.x03; Byte.x04]) 0 None Sample.two_layers
     = (inl (ValueError "Data size 4 does not match expected size 2"),
        Sample.two_layers)
  /\ fst (write (IsBytes [Byte.x01; Byte.x02]) 0 None Sample.two_layers) = inr tt
  /\ fst (read 0 1 (snd (write (IsBytes [Byte.x01; Byte.x02]) 0 None Sample.two_layers)))
     = inr [Byte.x01; Byte.x02; Byte.x00; Byte.x00].
Proof. vm_compute. repeat split. Qed.

(** The constructor itself relies on [write] taking the data of the whole
    texture: with immutable storage it checks the data against all layers
    and then hands them to [write], which refuses them when there are two
    layers. *)
Example create_immutable_two_layers_with_data :
  fst (create (Sample.args (2, 1, 2)
                 (Some [Byte.x01; Byte.x02; Byte.x03; Byte.x04]) false 0 true)
         Sample.device Sample.gl_context)
  = inl (ValueError "Data size 4 does not match expected size 2").
Proof. vm_compute. reflexivity. Qed.

End WriteThenRead.

(** ** Transfers between client memory and the device *)

Section Transfer.

Lemma row_stride_1 (n : Z) : gl.row_stride n 1 = n.
Proof. unfold gl.row_stride. rewrite Z.div_1_r. lia. Qed.

Lemma byte_at_lookup (data : list byte) (i : nat) (b : byte) :
  data !! i = Some b -> gl.byte_at data (Z.of_nat i) = b.
Proof.
  intros H. unfold gl.byte_at.
  destruct (Z.ltb_spec (Z.of_nat i) 0); [lia |].
  rewrite Nat2Z.id, nth_lookup, H. reflexivity.
Qed.

(** A block that covers a whole one-layer image takes its bytes from the
    same offsets of client memory. *)
Lemma client_offset_whole (W H bpp i : Z) :
  0 < W -> 0 < H -> 0 < bpp -> 0 <= i < W * H * bpp ->
  gl.client_offset W H bpp 0 0 0 W H 1 (W * bpp) i = Some i.
Proof.
  intros HW HH Hb Hi. unfold gl.client_offset.
  assert (Hp : 0 <= i / bpp < W * H).
  { split; [apply Z.div_pos; lia |]. apply Z.div_lt_upper_bound; lia. }
  set (p := i / bpp) in *.
  assert (Hrow : 0 <= p / W < H).
  { split; [apply Z.div_pos; lia |]. apply Z.div_lt_upper_bound; lia. }
  assert (Hlayer : p / (W * H) = 0) by (apply Z.div_small; lia).
  rewrite Hlayer, (Z.mod_small (p / W) H) by lia.
  pose proof (Z.mod_pos_bound p W HW) as Hcol.
  replace ((0 <=? p mod W) && (p mod W <? 0 + W) && (0 <=? p / W)
           && (p / W <? 0 + H) && (0 <=? 0) && (0 <? 0 + 1)) with true.
  2:{ symmetry. repeat (apply andb_true_intro; split);
        first [apply Z.leb_le | apply Z.ltb_lt]; lia. }
  f_equal.
  pose proof (Z.div_mod p W ltac:(lia)) as Hdm.
  pose proof (Z.div_mod i bpp ltac:(lia)) as Hdi. fold p in Hdi.
  nia.
Qed.

Lemma sub_image_whole (img : gl.Image) (bpp : Z) (data : list byte) :
  0 < gl.img_width img -> 0 < gl.img_height img -> gl.img_depth img = 1 -> 0 < bpp ->
  len data = gl.img_width img * gl.img_height img * gl.img_depth img * bpp ->
  gl.img_data
    (gl.sub_image img bpp 0 0 0 (gl.img_width img) (gl.img_height img) 1
       (gl.img_width img * bpp) data)
  = data.
Proof.
  intros HW HH HD Hb Hlen. unfold gl.sub_image. cbn [gl.img_data].
  apply list_eq. intros i. rewrite list_lookup_fmap.
  unfold len in Hlen.
  destruct (decide (i < length data)%nat) as [Hi | Hi].
  - rewrite (lookup_seq_lt) by lia. cbn.
    rewrite client_offset_whole by lia.
    destruct (lookup_lt_is_Some_2 data i Hi) as [b Hb'].
    rewrite Hb'. f_equal. now apply byte_at_lookup.
  - rewrite lookup_seq_ge by lia. cbn. symmetry. apply lookup_ge_None. lia.
Qed.

Lemma get_tex_image_whole (img : gl.Image) (bpp : Z) :
  0 < gl.img_width img -> 0 < gl.img_height img -> gl.img_depth img = 1 -> 0 < bpp ->
  len (gl.img_data img) = gl.img_width img * gl.img_height img * gl.img_depth img * bpp ->
  imap (fun (j : nat) (old : byte) =>
          let r := Z.of_nat j / (gl.img_width img * bpp) in
          let o := Z.of_nat j mod (gl.img_width img * bpp) in
          if (o <? gl.img_width img * bpp) && (r <? gl.img_height img * gl.img_depth img)
          then gl.byte_at (gl.img_data img) (r * (gl.img_width img * bpp) + o)
          else old)
    (replicate (length (gl.img_data img)) Byte.x00)
  = gl.img_data img.
Proof.
  intros HW HH HD Hb Hlen. unfold len in Hlen.
  apply list_eq. intros i. rewrite list_lookup_imap.
  destruct (decide (i < length (gl.img_data img))%nat) as [Hi | Hi].
  - rewrite lookup_replicate_2 by lia. cbn.
    set (row := gl.img_width img * bpp) in *.
    assert (Hrow : 0 < row) by (unfold row; lia).
    pose proof (Z.mod_pos_bound (Z.of_nat i) row Hrow) as Ho.
    assert (Hr : Z.of_nat i / row < gl.img_height img * gl.img_depth img).
    { apply Z.div_lt_upper_bound; [lia |]. unfold row. nia. }
    destruct (Z.ltb_spec (Z.of_nat i mod row) row); [| lia].
    destruct (Z.ltb_spec (Z.of_nat i / row) (gl.img_height img * gl.img_depth img)); [| lia].
    cbn [andb].
    replace (Z.of_nat i / row * row + Z.of_nat i mod row) with (Z.of_nat i)
      by (pose proof (Z.div_mod (Z.of_nat i) row ltac:(lia)); lia).
    destruct (lookup_lt_is_Some_2 (gl.img_data img) i Hi) as [b Hb'].
    rewrite Hb'. f_equal. now apply byte_at_lookup.
  - rewrite (lookup_ge_None_2 (replicate _ _)) by (rewrite length_replicate; lia).
    cbn. symmetry. apply lookup_ge_None. lia.
Qed.

Lemma glPixelStorei_1 pname st :
  gl.glPixelStorei pname 1 st
  = {| gl.current_context := gl.current_context st; gl.next_name := gl.next_name st;
       gl.active_texture := gl.active_texture st;
       gl.texture_bindings := gl.texture_bindings st; gl.textures := gl.textures st;
       gl.pixel_store := <[pname := 1]> (gl.pixel_store st);
       gl.buffer_bindings := gl.buffer_bindings st |}.
Proof. reflexivity. Qed.

Lemma bound_bound_device e d : gl.bound (_target (self e)) (bound_device e d) = _glo (self e).
Proof.
  unfold gl.bound, bound_device, gl.glBindTexture, gl.set_texture_bindings. cbn.
  now rewrite lookup_insert_eq.
Qed.

Lemma write_bytes_spec (data : list byte) (level : Z) (e : Env) :
  tex_inv (self e) ->
  _samples (self e) = 0 -> _depth (self e) = false -> _compressed (self e) = false ->
  len data = _width (self e) * _height (self e) * 1
             * _component_size (self e) * _components (self e) ->
  exists format type,
    _format (self e) = Some format /\ _type (self e) = Some type
    /\ write (IsBytes data) level None e
       = (inr tt,
          on_device
            (fun d =>
               gl.glTexSubImage3D (_target (self e)) level 0 0 0
                 (_width (self e)) (_height (self e)) 1 format type data
                 (gl.glPixelStorei gl.GL_UNPACK_ALIGNMENT 1
                    (gl.glPixelStorei gl.GL_PACK_ALIGNMENT 1 (bound_device e d)))) e).
Proof.
  intros (fi & Hfi & Hsz & Hty & Hc & Ht & Hfmt) Hs Hd Hcomp Hlen.
  specialize (Hfmt Hs Hd). eexists. eexists. split; [exact Hfmt |]. split; [exact Hty |].
  enough (H : wp (write (IsBytes data) level None)
                (fun _ e' => e' = on_device
            (fun d =>
               gl.glTexSubImage3D (_target (self e)) level 0 0 0
                 (_width (self e)) (_height (self e)) 1
                 (nth (Z.to_nat (_components (self e))) (base_formats fi) 0)
                 (gl_type fi) data
                 (gl.glPixelStorei gl.GL_UNPACK_ALIGNMENT 1
                    (gl.glPixelStorei gl.GL_PACK_ALIGNMENT 1 (bound_device e d)))) e)
                (fun _ _ => False) e).
  { apply wp_total in H as ([] & e' & Hrun & ->). exact Hrun. }
  unfold write. wp_step. wp_step. rewrite Hs. cbn [Z.ltb Z.compare truthy].
  unfold _validate_data_size, data_to_ctypes, bind_self.
  repeat (wp_step; cbn_fields).
  all: try congruence.
  all: try (simplify_eq; reflexivity).
  all: repeat match goal with
         | H : negb _ = true |- _ => apply negb_true_iff in H
         | H : (_ =? _) = false |- _ => apply Z.eqb_neq in H
         end; unfold len in *; try lia.
Qed.


Lemma read_spec (level alignment : Z) (e : Env) :
  tex_inv (self e) ->
  _samples (self e) = 0 -> _depth (self e) = false -> gl_api (ctx e) = "gl" ->
  0 <= read_size (self e) ->
  exists format type,
    _format (self e) = Some format /\ _type (self e) = Some type
    /\ read level alignment e
       = (inr (gl.glGetTexImage (_target (self e)) level format type
                 (replicate (Z.to_nat (read_size (self e))) Byte.x00)
                 (gl.glPixelStorei gl.GL_PACK_ALIGNMENT alignment
                    (bound_device e (device e)))),
          on_device (fun d => gl.glPixelStorei gl.GL_PACK_ALIGNMENT alignment
                                (bound_device e d)) e).
Proof.
  intros (fi & Hfi & Hsz & Hty & Hc & Ht & Hfmt) Hs Hd Hapi Hn.
  specialize (Hfmt Hs Hd). eexists. eexists. split; [exact Hfmt |]. split; [exact Hty |].
  unfold read_size in *.
  enough (H : wp (read level alignment)
                (fun data e' =>
                   (data, e')
                   = (gl.glGetTexImage (_target (self e)) level
                        (nth (Z.to_nat (_components (self e))) (base_formats fi) 0)
                        (gl_type fi)
                        (replicate (Z.to_nat (_width (self e) * _height (self e)
                                              * _layers (self e) * _component_size (self e)
                                              * _components (self e))) Byte.x00)
                        (gl.glPixelStorei gl.GL_PACK_ALIGNMENT alignment
                           (bound_device e (device e))),
                      on_device (fun d => gl.glPixelStorei gl.GL_PACK_ALIGNMENT alignment
                                            (bound_device e d)) e))
                (fun _ _ => False) e).
  { apply wp_total in H as (data & e' & Hrun & Heq). now simplify_eq. }
  unfold read.
  wp_step. wp_step. rewrite Hs. cbn [Z.ltb Z.compare].
  wp_step. wp_step. rewrite Hapi.
  rewrite (bool_decide_eq_true_2 ("gl" = "gl")) by reflexivity.
  wp_step. unfold bind_self. repeat (wp_step; cbn_fields).
  - apply Z.ltb_lt in Heqb. lia.
  - simplify_eq. reflexivity.
  - congruence.
  - congruence.
Qed.


Lemma bound_glPixelStorei target pname value st :
  gl.bound target (gl.glPixelStorei pname value st) = gl.bound target st.
Proof. unfold gl.glPixelStorei. now destruct (decide _). Qed.

Lemma lookup_texture_glPixelStorei name pname value st :
  gl.lookup_texture name (gl.glPixelStorei pname value st) = gl.lookup_texture name st.
Proof. unfold gl.glPixelStorei. now destruct (decide _). Qed.

Lemma alignment_glPixelStorei_1 pname st :
  gl.alignment_of pname (gl.glPixelStorei pname 1 st) = 1.
Proof.
  rewrite glPixelStorei_1. unfold gl.alignment_of. cbn. now rewrite lookup_insert_eq.
Qed.

Lemma bound_bind target name unit_ st :
  gl.bound target (gl.glBindTexture target name (gl.glActiveTexture unit_ st)) = name.
Proof.
  unfold gl.bound, gl.glBindTexture, gl.set_texture_bindings. cbn.
  now rewrite lookup_insert_eq.
Qed.

Lemma lookup_texture_bind target name name' unit_ st :
  gl.lookup_texture name' (gl.glBindTexture target name (gl.glActiveTexture unit_ st))
  = gl.lookup_texture name' st.
Proof. reflexivity. Qed.

Lemma bound_with_bound target target' f st :
  gl.bound target (gl.with_bound target' f st) = gl.bound target st.
Proof. reflexivity. Qed.

Lemma lookup_texture_with_bound target f st :
  gl.lookup_texture (gl.bound target st) (gl.with_bound target f st)
  = f (gl.lookup_texture (gl.bound target st) st).
Proof.
  unfold gl.with_bound, gl.lookup_texture at 1, gl.set_textures. cbn.
  now rewrite lookup_insert_eq.
Qed.

(** The device side of a write of a whole one-layer image followed by a
    read with pack alignment 1. *)
Lemma device_round_trip (target name unit_ format type bpp : Z) (st : gl.State)
    (img : gl.Image) (data : list byte) :
  gl.bytes_per_pixel format type = Some bpp -> 0 < bpp ->
  gl.tex_images (gl.lookup_texture name st) !! 0 = Some img ->
  0 <= gl.img_width img -> 0 <= gl.img_height img -> gl.img_depth img = 1 ->
  len data = gl.img_width img * gl.img_height img * 1 * bpp ->
  let rebind d := gl.glBindTexture target name (gl.glActiveTexture unit_ d) in
  gl.glGetTexImage target 0 format type
    (replicate (Z.to_nat (gl.img_width img * gl.img_height img * 1 * bpp)) Byte.x00)
    (gl.glPixelStorei gl.GL_PACK_ALIGNMENT 1
       (rebind
          (gl.glTexSubImage3D target 0 0 0 0 (gl.img_width img) (gl.img_height img) 1
             format type data
             (gl.glPixelStorei gl.GL_UNPACK_ALIGNMENT 1
                (gl.glPixelStorei gl.GL_PACK_ALIGNMENT 1 (rebind st))))))
  = data.
Proof.
  intros Hbpp Hpos Himg HW HH HD Hlen rebind.
  destruct (decide (gl.img_width img * gl.img_height img = 0)) as [Hzero | Hnz].
  { (* an empty image: nothing is written, nothing is read *)
    assert (Hdata : data = []).
    { apply length_zero_iff_nil. unfold len in Hlen. nia. }
    rewrite Hdata. apply length_zero_iff_nil.
    rewrite glGetTexImage_length, length_replicate. nia. }
  assert (HW' : 0 < gl.img_width img) by nia.
  assert (HH' : 0 < gl.img_height img) by nia.
  set (s2 := gl.glPixelStorei gl.GL_UNPACK_ALIGNMENT 1
               (gl.glPixelStorei gl.GL_PACK_ALIGNMENT 1 (rebind st))).
  assert (Hb2 : gl.bound target s2 = name).
  { unfold s2, rebind. now rewrite !bound_glPixelStorei, bound_bind. }
  assert (Ht2 : gl.lookup_texture name s2 = gl.lookup_texture name st).
  { unfold s2, rebind. now rewrite !lookup_texture_glPixelStorei. }
  assert (Ha2 : gl.alignment_of gl.GL_UNPACK_ALIGNMENT s2 = 1).
  { unfold s2. apply alignment_glPixelStorei_1. }
  set (img' := gl.sub_image img bpp 0 0 0 (gl.img_width img) (gl.img_height img) 1
                 (gl.img_width img * bpp) data).
  assert (Hs3 : gl.glTexSubImage3D target 0 0 0 0 (gl.img_width img) (gl.img_height img) 1
                  format type data s2
                = gl.with_bound target (gl.set_images (insert 0 img')) s2).
  { unfold gl.glTexSubImage3D. rewrite Hbpp, Hb2, Ht2, Himg, Ha2, row_stride_1.
    replace (gl.inside img 0 0 0 (gl.img_width img) (gl.img_height img) 1) with true;
      [reflexivity |].
    symmetry. unfold gl.inside. rewrite HD.
    repeat (apply andb_true_intro; split); apply Z.leb_le; lia. }
  rewrite Hs3.
  set (s3 := gl.with_bound target (gl.set_images (insert 0 img')) s2).
  assert (Ht3 : gl.tex_images (gl.lookup_texture name s3) !! 0 = Some img').
  { unfold s3. rewrite <- Hb2 at 1. rewrite lookup_texture_with_bound.
    unfold gl.set_images. cbn. now rewrite lookup_insert_eq. }
  assert (Hdata : gl.img_data img' = data).
  { unfold img'. apply sub_image_whole; try assumption. rewrite HD. exact Hlen. }
  unfold gl.glGetTexImage.
  rewrite Hbpp, bound_glPixelStorei. unfold rebind at 1. rewrite bound_bind.
  rewrite lookup_texture_glPixelStorei. unfold rebind at 1.
  rewrite lookup_texture_bind, Ht3, alignment_glPixelStorei_1, row_stride_1.
  change (gl.img_width img') with (gl.img_width img).
  change (gl.img_height img') with (gl.img_height img).
  change (gl.img_depth img') with (gl.img_depth img).
  transitivity (gl.img_data img'); [| exact Hdata].
  replace (Z.to_nat (gl.img_width img * gl.img_height img * 1 * bpp))
    with (length (gl.img_data img')).
  2:{ rewrite Hdata. unfold len in Hlen. lia. }
  pose proof (get_tex_image_whole img' bpp) as Hget.
  apply Hget; try assumption.
  rewrite Hdata. change (gl.img_depth img') with (gl.img_depth img). rewrite HD. exact Hlen.
Qed.


Lemma tex_inv_bytes_per_pixel (t : TextureArray) (format type : Z) :
  tex_inv t -> _samples t = 0 -> _depth t = false ->
  _format t = Some format -> _type t = Some type ->
  gl.bytes_per_pixel format type = Some (_components t * _component_size t)
  /\ 0 < _components t * _component_size t.
Proof.
  intros (fi & Hfi & Hsz & Hty & Hc & _ & Hfmt) Hs Hd Hformat Htype.
  specialize (Hfmt Hs Hd).
  destruct (pixel_formats_wf _ _ Hfi) as (_ & _ & Hin & Hts & Hfc).
  assert (format = nth (Z.to_nat (_components t)) (base_formats fi) 0) as -> by congruence.
  assert (type = gl_type fi) as -> by congruence.
  unfold gl.bytes_per_pixel. rewrite (Hfc _ Hc), Hts, Hsz. split; [reflexivity |].
  apply list_elem_of_In in Hin, Hc. cbn in Hin, Hc. apply Z.mul_pos_pos; lia.
Qed.

(** Writing the bytes of a whole one-layer texture and reading them back. *)
Lemma write_then_read_single_layer (data : list byte) (e : Env) (img : gl.Image) :
  tex_inv (self e) ->
  _samples (self e) = 0 -> _depth (self e) = false -> _compressed (self e) = false ->
  gl_api (ctx e) = "gl" ->
  _layers (self e) = 1 -> 0 <= _width (self e) -> 0 <= _height (self e) ->
  device_image e 0 = Some img ->
  (gl.img_width img, gl.img_height img, gl.img_depth img)
  = (_width (self e), _height (self e), 1) ->
  len data = read_size (self e) ->
  exists e1 e2,
    write (IsBytes data) 0 None e = (inr tt, e1) /\ read 0 1 e1 = (inr data, e2).
Proof.
  intros Hinv Hs Hd Hcomp Hapi Hl HW HH Himg Hdims Hlen.
  assert (Hlen1 : len data = _width (self e) * _height (self e) * 1
                             * _component_size (self e) * _components (self e)).
  { rewrite Hlen. unfold read_size. now rewrite Hl. }
  destruct (write_bytes_spec data 0 e Hinv Hs Hd Hcomp Hlen1)
    as (format & type & Hformat & Htype & Hwrite).
  destruct (tex_inv_bytes_per_pixel _ _ _ Hinv Hs Hd Hformat Htype) as [Hbpp Hpos].
  eexists. eexists. split; [exact Hwrite |].
  match goal with |- read 0 1 ?x = _ => set (e1 := x) end.
  assert (Hn : 0 <= read_size (self e1)).
  { subst e1. cbn_fields. rewrite <- Hlen. unfold len. lia. }
  destruct (read_spec 0 1 e1) as (format' & type' & Hformat' & Htype' & Hread);
    try assumption.
  rewrite Hread. f_equal. f_equal.
  subst e1. unfold bound_device. cbn_fields.
  assert (format' = format) as -> by (cbn_fields; congruence).
  assert (type' = type) as -> by (cbn_fields; congruence).
  injection Hdims as HiW HiH HiD.
  unfold read_size. rewrite Hl, <- HiW, <- HiH.
  replace (gl.img_width img * gl.img_height img * 1 * _component_size (self e)
           * _components (self e))
    with (gl.img_width img * gl.img_height img * 1
          * (_components (self e) * _component_size (self e))) by ring.
  apply (device_round_trip _ (_glo (self e)) _ _ _ _ (device e) img);
    try assumption; try lia.
Qed.

End Transfer.

(** ** Storage on the device and the round trip of one layer *)

Section Specify.
Implicit Types (name target : Z) (st : gl.State).

Lemma not_negative_size w h d : 0 <= w -> 0 <= h -> 0 <= d -> gl.negative_size w h d = false.
Proof.
  intros. unfold gl.negative_size.
  now rewrite !(proj2 (Z.ltb_ge _ _)) by assumption.
Qed.

Lemma image_size_glTexImage3D name target internalformat w h d border format type bpp data st :
  gl.bound target st = name -> gl.bytes_per_pixel format type = Some bpp ->
  0 <= w -> 0 <= h -> 0 <= d ->
  image_size name (gl.glTexImage3D target 0 internalformat w h d border format type data st)
  = Some (w, h, d).
Proof.
  intros Hb Hbpp Hw Hh Hd. unfold gl.glTexImage3D.
  rewrite Hbpp, not_negative_size by assumption.
  eapply (image_size_specified name target (gl.mkImage w h d _)); [exact Hb |].
  intros t. unfold gl.set_images. cbn. now rewrite lookup_insert_eq.
Qed.

Lemma image_size_glCompressedTexImage3D name target internalformat w h d border size data st :
  gl.bound target st = name -> 0 <= w -> 0 <= h -> 0 <= d ->
  image_size name
    (gl.glCompressedTexImage3D target 0 internalformat w h d border size data st)
  = Some (w, h, d).
Proof.
  intros Hb Hw Hh Hd. unfold gl.glCompressedTexImage3D.
  rewrite not_negative_size by assumption.
  eapply (image_size_specified name target (gl.mkImage w h d _)); [exact Hb |].
  intros t. unfold gl.set_images. cbn. now rewrite lookup_insert_eq.
Qed.

Lemma image_size_glTexStorage3D name target levels internalformat w h d st :
  gl.bound target st = name -> 0 <= w -> 0 <= h -> 0 <= d ->
  image_size name (gl.glTexStorage3D target levels internalformat w h d st)
  = Some (w, h, d).
Proof.
  intros Hb Hw Hh Hd. unfold gl.glTexStorage3D.
  rewrite not_negative_size by assumption.
  eapply (image_size_specified name target (gl.mkImage w h d _)); [exact Hb |].
  intros t. unfold gl.set_images. cbn. now rewrite lookup_singleton_eq.
Qed.

Lemma image_size_glTexImage3DMultisample name target samples internalformat w h d fixed st :
  gl.bound target st = name -> 0 <= w -> 0 <= h -> 0 <= d ->
  image_size name (gl.glTexImage3DMultisample target samples internalformat w h d fixed st)
  = Some (w, h, d).
Proof.
  intros Hb Hw Hh Hd. unfold gl.glTexImage3DMultisample.
  rewrite not_negative_size by assumption.
  eapply (image_size_specified name target (gl.mkImage w h d _)); [exact Hb |].
  intros t. cbn. now rewrite lookup_singleton_eq.
Qed.

End Specify.

Lemma validate_unchanged data byte_size w h l (e : Env) :
  snd (_validate_data_size data byte_size w h l e) = e.
Proof.
  unfold _validate_data_size, bind, attr, gets, raise, ret. cbv beta iota.
  destruct (_compressed (self e)); [reflexivity |]. cbv beta iota.
  destruct (negb _); [reflexivity |]. destruct (negb _); reflexivity.
Qed.

Lemma keeps_validate_all data byte_size w h l :
  keeps (fun e => e) (_validate_data_size data byte_size w h l).
Proof.
  intros e. pose proof (validate_unchanged data byte_size w h l e) as H.
  unfold wp. destruct (_validate_data_size _ _ _ _ _ e) as [[x | []] e']; exact H.
Qed.

Lemma table_bytes_per_pixel (dtype : string) (fi : FormatInfo) (c : Z) :
  dict_get dtype pixel_formats = Some fi -> c ∈ [1; 2; 3; 4] ->
  gl.bytes_per_pixel (nth (Z.to_nat c) (base_formats fi) 0) (gl_type fi)
  = Some (c * component_size fi).
Proof.
  intros Hfi Hc. destruct (pixel_formats_wf _ _ Hfi) as (_ & _ & _ & Hts & Hfc).
  unfold gl.bytes_per_pixel. now rewrite (Hfc _ Hc), Hts.
Qed.

Lemma texture_2d_image (data : option (list byte)) (e : Env) :
  _components (self e) ∈ [1; 2; 3; 4] ->
  gl.bound (_target (self e)) (device e) = _glo (self e) ->
  0 <= _width (self e) -> 0 <= _height (self e) -> 0 <= _layers (self e) ->
  wp (_texture_2d data)
     (fun _ e' => storage_size e'
                  = Some (_width (self e), _height (self e), _layers (self e)))
     (fun _ _ => True) e.
Proof.
  intros Hc Hb Hw Hh Hl.
  assert (Hneg : (_components (self e) <? 0) = false).
  { apply Z.ltb_ge. apply list_elem_of_In in Hc. cbn in Hc. lia. }
  unfold _texture_2d.
  repeat first
    [ lazymatch goal with
      | |- wp (_validate_data_size _ _ _ _ _) _ _ _ =>
          eapply wp_keeps; [apply keeps_validate_all | intros [] ? -> | intros; exact I]
      end
    | wp_step; cbn_fields ];
    try exact I.
  all: rewrite ?Hneg.
  all: try match goal with
         | H : stable ?e' = stable ?x |- storage_size ?e' = _ =>
             assert (storage_size e' = storage_size x) as ->
               by (unfold stable in H; congruence)
         end.
  all: unfold storage_size; cbn_fields.
  all: first [ eapply image_size_glTexImage3D
             | apply image_size_glTexStorage3D
             | apply image_size_glCompressedTexImage3D
             | apply image_size_glTexImage3DMultisample ];
       try assumption;
       try (rewrite ?bound_glPixelStorei; exact Hb).
  all: try (eapply table_bytes_per_pixel; eassumption).
  all: try reflexivity.
Qed.


Lemma bound_glBindTexture target name st :
  gl.bound target (gl.glBindTexture target name st) = name.
Proof.
  unfold gl.bound, gl.glBindTexture, gl.set_texture_bindings. cbn.
  now rewrite lookup_insert_eq.
Qed.

(** The constructor leaves storage of the size asked for on the device. *)
Lemma init_image (a : Args) (e : Env) :
  wp (__init__ a)
     (fun _ e' => 0 <= (arg_size a).1.1 -> 0 <= (arg_size a).1.2 -> 0 <= (arg_size a).2 ->
                  storage_size e' = Some (arg_size a))
     (fun _ _ => True) e.
Proof.
  unfold __init__. destruct (arg_size a) as [[w h] l] eqn:Hsize. cbn [fst snd].
  repeat (wp_step; cbn_fields); try exact I.
  assert (Hcomp : arg_components a ∈ [1; 2; 3; 4]).
  { apply negb_false_iff in Heqb. now apply bool_decide_eq_true in Heqb. }
  destruct (decide (0 <= w /\ 0 <= h /\ 0 <= l)) as [(Hw & Hh & Hl) | Hneg].
  2:{ eapply wp_mono; [apply texture_2d_spec; cbn_fields; [exact Hcomp | reflexivity] | |];
        cbv beta; [| intros; exact I].
      intros [] e1 _. repeat (wp_step; cbn_fields); try exact I; intros; lia. }
  eapply wp_mono;
    [apply texture_2d_image; cbn_fields;
       [exact Hcomp | apply bound_glBindTexture | exact Hw | exact Hh | exact Hl] | |];
    cbv beta; [| intros; exact I].
  intros [] e1 Hstore. cbn_fields.
  repeat (wp_step; cbn_fields); try exact I.
  all: intros _ _ _.
  all: repeat match goal with
         | H : stable ?e' = stable ?x |- _ =>
             assert (storage_size e' = storage_size x)
               by (unfold stable in H; congruence);
             clear H
         end.
  all: unfold storage_size in *; cbn_fields; congruence.
Qed.

Lemma create_image (a : Args) (d : gl.State) (c : Context) (e : Env) :
  create a d c = (inr tt, e) ->
  0 <= (arg_size a).1.1 -> 0 <= (arg_size a).1.2 -> 0 <= (arg_size a).2 ->
  storage_size e = Some (arg_size a).
Proof.
  intros Hrun. exact (wp_returns _ _ _ _ _ _ (init_image a _) Hrun).
Qed.

(** A texture of one layer, as the constructor returns it: the bytes
    written without a viewport are the bytes read. *)
Theorem create_write_read_single_layer (a : Args) (d : gl.State) (c : Context) (e : Env)
    (data : list byte) :
  create a d c = (inr tt, e) ->
  clamped_samples a c = 0 -> arg_depth a = false -> arg_compressed a = false ->
  gl_api c = "gl" ->
  0 <= (arg_size a).1.1 -> 0 <= (arg_size a).1.2 -> (arg_size a).2 = 1 ->
  len data = read_size (self e) ->
  exists e1 e2,
    write (IsBytes data) 0 None e = (inr tt, e1) /\ read 0 1 e1 = (inr data, e2).
Proof.
  intros Hnew Hs Hd Hcomp Hapi Hw Hh Hl Hlen.
  pose proof (create_image a d c e Hnew Hw Hh ltac:(lia)) as Hstore.
  destruct (create_spec a d c e Hnew)
    as (Hsize & _ & _ & Hsamples & Hdepth & _ & Hcompressed & _ & Hinv & _ & Hgl & _).
  rewrite Hsize in *. cbn [fst snd] in *.
  unfold storage_size, image_size in Hstore.
  apply fmap_Some in Hstore as (img & Himg & Hdims).
  apply (write_then_read_single_layer data e img); try assumption; try congruence.
Qed.

Lemma create_write_read_single_layer_witness :
  exists e1 e2,
    write (IsBytes [Byte.x0a; Byte.x0b; Byte.x0c; Byte.x0d]) 0 None Sample.one_layer
    = (inr tt, e1)
    /\ read 0 1 e1 = (inr [Byte.x0a; Byte.x0b; Byte.x0c; Byte.x0d], e2).
Proof.
  refine (create_write_read_single_layer (Sample.args (2, 2, 1) None false 0 false)
            Sample.device Sample.gl_context Sample.one_layer
            [Byte.x0a; Byte.x0b; Byte.x0c; Byte.x0d] _ _ _ _ _ _ _ _ _);
    vm_compute; first [reflexivity | discriminate].
Defined.

(** ** What the calls leave alone on the device *)


Section Observations.
Implicit Types (name target pname : Z) (st : gl.State).

Lemma quiet_glPixelStorei pname value : quiet (gl.glPixelStorei pname value).
Proof. intros st. unfold gl.glPixelStorei. destruct (decide _); repeat split. Qed.

Lemma quiet_glBindBuffer target name : quiet (gl.glBindBuffer target name).
Proof. intros st. repeat split. Qed.

Lemma quiet_active f st : quiet f -> gl.active_texture (f st) = gl.active_texture st.
Proof. intros Hf. apply Hf. Qed.

Lemma quiet_bound f target st : quiet f -> gl.bound target (f st) = gl.bound target st.
Proof.
  intros Hf. destruct (Hf st) as (Ha & Hb & _). unfold gl.bound. now rewrite Ha, Hb.
Qed.

Lemma quiet_lookup_texture f name st :
  quiet f -> gl.lookup_texture name (f st) = gl.lookup_texture name st.
Proof.
  intros Hf. destruct (Hf st) as (_ & _ & Ht & _). unfold gl.lookup_texture. now rewrite Ht.
Qed.

Lemma quiet_other_units f u st : quiet f -> other_units u (f st) = other_units u st.
Proof.
  intros Hf. destruct (Hf st) as (_ & Hb & _). unfold other_units. now rewrite Hb.
Qed.

Lemma quiet_other_textures f name st :
  quiet f -> other_textures name (f st) = other_textures name st.
Proof.
  intros Hf. destruct (Hf st) as (_ & _ & Ht & _). unfold other_textures. now rewrite Ht.
Qed.

Lemma quiet_next_name f st : quiet f -> gl.next_name (f st) = gl.next_name st.
Proof. intros Hf. apply Hf. Qed.

Lemma quiet_current_context f st :
  quiet f -> gl.current_context (f st) = gl.current_context st.
Proof. intros Hf. apply Hf. Qed.

Lemma acts_glTexParameteri target pname value :
  acts_on_bound target (gl.glTexParameteri target pname value).
Proof. intros st. right. eexists. reflexivity. Qed.

Lemma acts_glTexParameterf target pname value :
  acts_on_bound target (gl.glTexParameterf target pname value).
Proof. intros st. right. eexists. reflexivity. Qed.

Lemma acts_glTexImage3D target level internalformat w h d border format type data :
  acts_on_bound target
    (gl.glTexImage3D target level internalformat w h d border format type data).
Proof.
  intros st. unfold gl.glTexImage3D.
  destruct (gl.bytes_per_pixel format type); [| now left].
  destruct (gl.negative_size w h d); [now left |]. right. eexists. reflexivity.
Qed.

Lemma acts_glCompressedTexImage3D target level internalformat w h d border size data :
  acts_on_bound target
    (gl.glCompressedTexImage3D target level internalformat w h d border size data).
Proof.
  intros st. unfold gl.glCompressedTexImage3D.
  destruct (gl.negative_size w h d); [now left |]. right. eexists. reflexivity.
Qed.

Lemma acts_glTexStorage3D target levels internalformat w h d :
  acts_on_bound target (gl.glTexStorage3D target levels internalformat w h d).
Proof.
  intros st. unfold gl.glTexStorage3D.
  destruct (gl.negative_size w h d); [now left |]. right. eexists. reflexivity.
Qed.

Lemma acts_glTexImage3DMultisample target samples internalformat w h d fixed :
  acts_on_bound target
    (gl.glTexImage3DMultisample target samples internalformat w h d fixed).
Proof.
  intros st. unfold gl.glTexImage3DMultisample.
  destruct (gl.negative_size w h d); [now left |]. right. eexists. reflexivity.
Qed.

Lemma acts_glTexSubImage3D target level x y z w h d format type data :
  acts_on_bound target (gl.glTexSubImage3D target level x y z w h d format type data).
Proof.
  intros st. unfold gl.glTexSubImage3D.
  destruct (gl.bytes_per_pixel format type); [| now left].
  destruct (_ !! level); [| now left].
  destruct (gl.inside _ _ _ _ _ _ _); [| now left]. right. eexists. reflexivity.
Qed.

Lemma acts_active target f st :
  acts_on_bound target f -> gl.active_texture (f st) = gl.active_texture st.
Proof. intros Hf. destruct (Hf st) as [-> | [g ->]]; reflexivity. Qed.

Lemma acts_bound target f target' st :
  acts_on_bound target f -> gl.bound target' (f st) = gl.bound target' st.
Proof. intros Hf. destruct (Hf st) as [-> | [g ->]]; reflexivity. Qed.

Lemma acts_next_name target f st :
  acts_on_bound target f -> gl.next_name (f st) = gl.next_name st.
Proof. intros Hf. destruct (Hf st) as [-> | [g ->]]; reflexivity. Qed.

Lemma acts_current_context target f st :
  acts_on_bound target f -> gl.current_context (f st) = gl.current_context st.
Proof. intros Hf. destruct (Hf st) as [-> | [g ->]]; reflexivity. Qed.

Lemma acts_other_units target f u st :
  acts_on_bound target f -> other_units u (f st) = other_units u st.
Proof. intros Hf. destruct (Hf st) as [-> | [g ->]]; reflexivity. Qed.

Lemma acts_other_textures target f name st :
  acts_on_bound target f -> gl.bound target st = name ->
  other_textures name (f st) = other_textures name st.
Proof.
  intros Hf Hb. destruct (Hf st) as [-> | [g ->]]; [reflexivity |].
  unfold other_textures, gl.with_bound, gl.set_textures. cbn [gl.textures].
  rewrite Hb. apply map_filter_insert_not. intros y. cbn. tauto.
Qed.

(** Selecting a unit and binding a texture. *)
Lemma other_units_glActiveTexture u a st :
  other_units u (gl.glActiveTexture a st) = other_units u st.
Proof. reflexivity. Qed.

Lemma other_textures_glActiveTexture name a st :
  other_textures name (gl.glActiveTexture a st) = other_textures name st.
Proof. reflexivity. Qed.

Lemma other_textures_glBindTexture name target name' st :
  other_textures name (gl.glBindTexture target name' st) = other_textures name st.
Proof. reflexivity. Qed.

Lemma other_units_glBindTexture u target name st :
  gl.active_texture st = u ->
  other_units u (gl.glBindTexture target name st) = other_units u st.
Proof.
  intros Ha. unfold other_units, gl.glBindTexture, gl.set_texture_bindings.
  cbn [gl.texture_bindings]. rewrite Ha.
  apply map_filter_insert_not. intros y. cbn. tauto.
Qed.

Lemma active_glActiveTexture a st : gl.active_texture (gl.glActiveTexture a st) = a.
Proof. reflexivity. Qed.

Lemma active_glBindTexture target name st :
  gl.active_texture (gl.glBindTexture target name st) = gl.active_texture st.
Proof. reflexivity. Qed.

End Observations.

(** Rewrite an observation of the device after a call into the observation
    before it. *)
Ltac quiet_call := first [apply quiet_glPixelStorei | apply quiet_glBindBuffer].
Ltac bound_call :=
  first [ apply acts_glTexParameteri | apply acts_glTexParameterf
        | apply acts_glTexImage3D | apply acts_glCompressedTexImage3D
        | apply acts_glTexStorage3D | apply acts_glTexImage3DMultisample
        | apply acts_glTexSubImage3D ].

Ltac bindings_step :=
  match goal with
  | |- context [gl.bound ?t (gl.glBindTexture ?t ?n ?st)] =>
      rewrite (bound_glBindTexture t n st)
  | |- context [gl.active_texture (gl.glActiveTexture ?a ?st)] =>
      rewrite (active_glActiveTexture a st)
  | |- context [gl.active_texture (gl.glBindTexture ?t ?n ?st)] =>
      rewrite (active_glBindTexture t n st)
  | |- context [gl.bound ?t (?f ?st)] =>
      first [ rewrite (quiet_bound f t st) by quiet_call
            | erewrite (acts_bound _ f t st) by bound_call ]
  | |- context [gl.active_texture (?f ?st)] =>
      first [ rewrite (quiet_active f st) by quiet_call
            | erewrite (acts_active _ f st) by bound_call ]
  end.

Ltac frame_side := repeat bindings_step; first [reflexivity | assumption | congruence].

Ltac frame_step :=
  match goal with
  | |- context [other_textures ?n (gl.glActiveTexture ?a ?st)] =>
      rewrite (other_textures_glActiveTexture n a st)
  | |- context [other_textures ?n (gl.glBindTexture ?t ?n' ?st)] =>
      rewrite (other_textures_glBindTexture n t n' st)
  | |- context [other_units ?u (gl.glActiveTexture ?a ?st)] =>
      rewrite (other_units_glActiveTexture u a st)
  | |- context [other_units ?u (gl.glBindTexture ?t ?n ?st)] =>
      rewrite (other_units_glBindTexture u t n st) by frame_side
  | |- context [other_textures ?n (?f ?st)] =>
      first [ rewrite (quiet_other_textures f n st) by quiet_call
            | erewrite (acts_other_textures _ f n st) by first [bound_call | frame_side] ]
  | |- context [other_units ?u (?f ?st)] =>
      first [ rewrite (quiet_other_units f u st) by quiet_call
            | erewrite (acts_other_units _ f u st) by bound_call ]
  | |- context [gl.next_name (?f ?st)] =>
      first [ rewrite (quiet_next_name f st) by quiet_call
            | erewrite (acts_next_name _ f st) by bound_call
            | progress cbn [gl.next_name gl.glActiveTexture gl.glBindTexture
                            gl.set_texture_bindings] ]
  | |- context [gl.current_context (?f ?st)] =>
      first [ rewrite (quiet_current_context f st) by quiet_call
            | erewrite (acts_current_context _ f st) by bound_call
            | progress cbn [gl.current_context gl.glActiveTexture gl.glBindTexture
                            gl.set_texture_bindings] ]
  end.

Ltac framed :=
  cbv beta;
  repeat match goal with
         | H : foreign ?e' = _ |- context [foreign ?e'] => rewrite H; clear H
         end;
  unfold foreign in *;
  cbn [self device ctx on_self on_device on_ctx] in *; cbn_fields;
  repeat frame_step; first [reflexivity | congruence].

(** Symbolic execution with the helper methods opened. *)
Ltac wp_open :=
  cbv beta;
  lazymatch goal with
  | |- wp bind_self _ _ _ => unfold bind_self
  | |- wp (_validate_data_size _ _ _ _ _) _ _ _ =>
      eapply wp_keeps;
        [ apply keeps_validate_all
        | let e' := fresh "e" in let H := fresh in
          intros [] e' H; cbv beta in H; subst e'
        | let e' := fresh "e" in let H := fresh in
          intros ? e' H; cbv beta in H; subst e' ]
  | |- wp (bind _ _) _ _ _ => apply wp_bind
  | |- wp (ret _) _ _ _ => apply wp_ret
  | |- wp (raise _) _ _ _ => apply wp_raise
  | |- wp (gets _) _ _ _ => apply wp_gets
  | |- wp (attr _) _ _ _ => apply wp_attr
  | |- wp (modify _) _ _ _ => apply wp_modify
  | |- wp (assign _) _ _ _ => apply wp_modify
  | |- wp (call _) _ _ _ => apply wp_modify
  | |- wp (when ?b _) _ _ _ => unfold when
  | |- wp (index _ _) _ _ _ => unfold index
  | |- wp (slot _ _) _ _ _ => unfold slot
  | |- wp glGenTextures _ _ _ => apply wp_glGenTextures
  | |- wp (if ?b then _ else _) _ _ _ => destruct b eqn:?
  | |- wp (match ?x with _ => _ end) _ _ _ => destruct x eqn:?
  end.

Lemma wp_total_unit (m : Py unit) (Q : Env -> Prop) (e : Env) :
  wp m (fun _ e' => Q e') (fun _ _ => False) e -> exists e', m e = (inr tt, e') /\ Q e'.
Proof. intros H. apply wp_total in H as ([] & e' & Hrun & HQ). eauto. Qed.

Create HintDb foreign.

Ltac wp_foreign :=
  first [ wp_open
        | eapply wp_keeps; [solve [eauto with foreign] | intros ? ? ? | intros ? ? ?] ].

Ltac foreign_auto := intros ?; repeat (wp_foreign; cbn_fields); framed.

Section Foreign.

Lemma foreign_filter_setter value : keeps foreign (filter_setter value).
Proof. unfold filter_setter. foreign_auto. Qed.

Lemma foreign_wrap_x_setter value : keeps foreign (wrap_x_setter value).
Proof. unfold wrap_x_setter. foreign_auto. Qed.

Lemma foreign_wrap_y_setter value : keeps foreign (wrap_y_setter value).
Proof. unfold wrap_y_setter. foreign_auto. Qed.

Lemma foreign_anisotropy_setter value : keeps foreign (anisotropy_setter value).
Proof. unfold anisotropy_setter. foreign_auto. Qed.

Lemma foreign_compare_func_setter value : keeps foreign (compare_func_setter value).
Proof. unfold compare_func_setter. foreign_auto. Qed.

Lemma foreign_write data level viewport : keeps foreign (write data level viewport).
Proof. unfold write. foreign_auto. Qed.

Lemma foreign_swizzle_loop value enums : keeps foreign (swizzle_loop value enums).
Proof.
  revert enums. induction value as [|c rest IH]; intros enums e; cbn [swizzle_loop].
  - now apply wp_ret.
  - destruct (dict_get _ _); [apply IH | now apply wp_raise].
Qed.

Hint Resolve foreign_swizzle_loop foreign_compare_func_setter foreign_write : foreign.

Lemma foreign_swizzle_setter value : keeps foreign (swizzle_setter value).
Proof. unfold swizzle_setter. foreign_auto. Qed.

Lemma foreign_read level alignment : keeps foreign (read level alignment).
Proof. unfold read. foreign_auto. Qed.

Lemma foreign_texture_2d data e :
  gl.bound (_target (self e)) (device e) = _glo (self e) ->
  wp (_texture_2d data) (fun _ e' => foreign e' = foreign e)
    (fun _ e' => foreign e' = foreign e) e.
Proof.
  intros Hb. unfold _texture_2d. repeat (wp_foreign; cbn_fields); framed.
Qed.

Lemma foreign_resize new_size : keeps foreign (resize new_size).
Proof.
  intros e. unfold resize. repeat (wp_open; cbn_fields); [framed |].
  eapply wp_mono; [apply foreign_texture_2d | |]; cbv beta; cbn_fields.
  - frame_side.
  - intros _ e' ->. framed.
  - intros _ e' ->. framed.
Qed.

End Foreign.

(** ** The sampling parameters *)


Section Parameters.
Implicit Types (name target pname : Z) (st : gl.State).

Lemma keeps_parami_quiet f : quiet f -> keeps_parami f.
Proof.
  intros Hf name p st. unfold parami. now rewrite (quiet_lookup_texture f name st Hf).
Qed.

Lemma keeps_parami_glActiveTexture a : keeps_parami (gl.glActiveTexture a).
Proof. intros name p st. reflexivity. Qed.

Lemma keeps_parami_glBindTexture target name : keeps_parami (gl.glBindTexture target name).
Proof. intros n p st. reflexivity. Qed.

Lemma lookup_texture_with_bound_eq name target f st :
  gl.bound target st = name ->
  gl.lookup_texture name (gl.with_bound target f st) = f (gl.lookup_texture name st).
Proof. intros <-. apply lookup_texture_with_bound. Qed.

Lemma lookup_texture_with_bound_ne name target f st :
  gl.bound target st <> name ->
  gl.lookup_texture name (gl.with_bound target f st) = gl.lookup_texture name st.
Proof.
  intros Hne. unfold gl.with_bound, gl.lookup_texture, gl.set_textures. cbn.
  now rewrite lookup_insert_ne.
Qed.

Lemma parami_with_bound name p target g st :
  (forall t, gl.tex_parami (g t) = gl.tex_parami t) ->
  parami name p (gl.with_bound target g st) = parami name p st.
Proof.
  intros Hg. unfold parami.
  destruct (decide (gl.bound target st = name)) as [Hb | Hb].
  - rewrite lookup_texture_with_bound_eq by exact Hb. now rewrite Hg.
  - now rewrite lookup_texture_with_bound_ne.
Qed.

Lemma keeps_parami_glTexParameterf target pname value :
  keeps_parami (gl.glTexParameterf target pname value).
Proof. intros name p st. now apply parami_with_bound. Qed.

Lemma keeps_parami_glTexImage3D target level internalformat w h d border format type data :
  keeps_parami (gl.glTexImage3D target level internalformat w h d border format type data).
Proof.
  intros name p st. unfold gl.glTexImage3D.
  destruct (gl.bytes_per_pixel format type); [| reflexivity].
  destruct (gl.negative_size w h d); [reflexivity |]. now apply parami_with_bound.
Qed.

Lemma keeps_parami_glCompressedTexImage3D target level internalformat w h d border size data :
  keeps_parami
    (gl.glCompressedTexImage3D target level internalformat w h d border size data).
Proof.
  intros name p st. unfold gl.glCompressedTexImage3D.
  destruct (gl.negative_size w h d); [reflexivity |]. now apply parami_with_bound.
Qed.

Lemma keeps_parami_glTexStorage3D target levels internalformat w h d :
  keeps_parami (gl.glTexStorage3D target levels internalformat w h d).
Proof.
  intros name p st. unfold gl.glTexStorage3D.
  destruct (gl.negative_size w h d); [reflexivity |]. now apply parami_with_bound.
Qed.

Lemma keeps_parami_glTexImage3DMultisample target samples internalformat w h d fixed :
  keeps_parami (gl.glTexImage3DMultisample target samples internalformat w h d fixed).
Proof.
  intros name p st. unfold gl.glTexImage3DMultisample.
  destruct (gl.negative_size w h d); [reflexivity |]. now apply parami_with_bound.
Qed.

Lemma keeps_parami_glTexSubImage3D target level x y z w h d format type data :
  keeps_parami (gl.glTexSubImage3D target level x y z w h d format type data).
Proof.
  intros name p st. unfold gl.glTexSubImage3D.
  destruct (gl.bytes_per_pixel format type); [| reflexivity].
  destruct (_ !! level); [| reflexivity].
  destruct (gl.inside _ _ _ _ _ _ _); [| reflexivity]. now apply parami_with_bound.
Qed.

Lemma parami_glTexParameteri_same name target pname v st :
  gl.bound target st = name ->
  parami name pname (gl.glTexParameteri target pname v st) = Some v.
Proof.
  intros Hb. unfold parami, gl.glTexParameteri.
  rewrite lookup_texture_with_bound_eq by exact Hb. cbn. apply lookup_insert_eq.
Qed.

Lemma parami_glTexParameteri_other name target pname p v st :
  p <> pname ->
  parami name p (gl.glTexParameteri target pname v st) = parami name p st.
Proof.
  intros Hp. unfold parami, gl.glTexParameteri.
  destruct (decide (gl.bound target st = name)) as [Hb | Hb].
  - rewrite lookup_texture_with_bound_eq by exact Hb. cbn. now apply lookup_insert_ne.
  - now rewrite lookup_texture_with_bound_ne.
Qed.

Lemma keeps_sampler_params f name st :
  keeps_parami f -> sampler_params name (f st) = sampler_params name st.
Proof.
  intros Hf. unfold sampler_params. apply list_fmap_ext. intros _ p _. apply Hf.
Qed.

Lemma sampler_params_glTexParameteri_other name target pname v st :
  bool_decide (pname ∈ sampler_keys) = false ->
  sampler_params name (gl.glTexParameteri target pname v st) = sampler_params name st.
Proof.
  intros Hp. apply bool_decide_eq_false in Hp.
  unfold sampler_params. apply list_fmap_ext. intros i p Hi.
  apply parami_glTexParameteri_other. intros ->. apply Hp.
  eapply list_elem_of_lookup_2. exact Hi.
Qed.

End Parameters.

Ltac parami_call :=
  first [ apply keeps_parami_glActiveTexture | apply keeps_parami_glBindTexture
        | apply keeps_parami_glTexParameterf | apply keeps_parami_glTexImage3D
        | apply keeps_parami_glCompressedTexImage3D | apply keeps_parami_glTexStorage3D
        | apply keeps_parami_glTexImage3DMultisample | apply keeps_parami_glTexSubImage3D
        | apply keeps_parami_quiet; quiet_call ].

Ltac parami_step :=
  match goal with
  | |- context [parami ?n ?p (gl.glTexParameteri ?t ?p' ?v ?st)] =>
      first [ rewrite (parami_glTexParameteri_other n t p' p v st) by discriminate
            | rewrite (parami_glTexParameteri_same n t p v st) by frame_side ]
  | |- context [parami ?n ?p (?f ?st)] =>
      rewrite ((ltac:(parami_call) : keeps_parami f) n p st)
  end.

Ltac sampler_step :=
  match goal with
  | |- context [sampler_params ?n (gl.glTexParameteri ?t ?p ?v ?st)] =>
      rewrite (sampler_params_glTexParameteri_other n t p v st) by reflexivity
  | |- context [sampler_params ?n (?f ?st)] =>
      rewrite (keeps_sampler_params f n st) by parami_call
  end.

Ltac sampled :=
  cbv beta;
  repeat match goal with
         | H : sampler ?e' = _ |- context [sampler ?e'] => rewrite H; clear H
         end;
  unfold sampler, device_sampler;
  cbn [self device ctx on_self on_device on_ctx
       _glo _samples _filter _wrap_x _wrap_y
       with_glo with_width with_height with_target with_compare_func with_format
       with_internal_format with_type with_component_size with_filter with_wrap_x
       with_wrap_y with_anisotropy];
  repeat sampler_step;
  first [reflexivity | unfold sampler, device_sampler in *; congruence].

Create HintDb sampler.

Ltac wp_sampler :=
  first [ wp_open
        | eapply wp_keeps; [solve [eauto with sampler] | intros ? ? ? | intros ? ? ?] ].

Ltac sampler_auto := intros ?; repeat (wp_sampler; cbn_fields); sampled.

Section Sampler.

Lemma sampler_anisotropy_setter value : keeps sampler (anisotropy_setter value).
Proof. unfold anisotropy_setter. sampler_auto. Qed.

Lemma sampler_compare_func_setter value : keeps sampler (compare_func_setter value).
Proof. unfold compare_func_setter. sampler_auto. Qed.

Lemma sampler_write data level viewport : keeps sampler (write data level viewport).
Proof. unfold write. sampler_auto. Qed.

Lemma sampler_swizzle_loop value enums : keeps sampler (swizzle_loop value enums).
Proof.
  revert enums. induction value as [|c rest IH]; intros enums e; cbn [swizzle_loop].
  - now apply wp_ret.
  - destruct (dict_get _ _); [apply IH | now apply wp_raise].
Qed.

Hint Resolve sampler_swizzle_loop sampler_compare_func_setter sampler_write : sampler.

Lemma sampler_swizzle_setter value : keeps sampler (swizzle_setter value).
Proof. unfold swizzle_setter. sampler_auto. Qed.

Lemma sampler_read level alignment : keeps sampler (read level alignment).
Proof. unfold read. sampler_auto. Qed.

Lemma sampler_texture_2d data : keeps sampler (_texture_2d data).
Proof. unfold _texture_2d. sampler_auto. Qed.

Hint Resolve sampler_texture_2d : sampler.

Lemma sampler_resize new_size : keeps sampler (resize new_size).
Proof. unfold resize. sampler_auto. Qed.

Ltac synced :=
  cbv beta; unfold sampler_in_sync, device_sampler, sampler_params, sampler_keys,
    cached_sampler in *;
  cbn [self device ctx on_self on_device on_ctx fmap list_fmap length lookup list_lookup
       _glo _samples _filter _wrap_x _wrap_y
       with_glo with_width with_height with_target with_compare_func with_format
       with_internal_format with_type with_component_size with_filter with_wrap_x
       with_wrap_y with_anisotropy] in *;
  repeat parami_step.

Lemma sync_filter_setter value e :
  sampler_in_sync e ->
  wp (filter_setter value) (fun _ e' => sampler_in_sync e')
    (fun _ e' => sampler_in_sync e') e.
Proof.
  intros Hsync. unfold filter_setter. repeat (wp_open; cbn_fields); try exact Hsync.
  synced. destruct Hsync as [_ Hsync]. split; [reflexivity | congruence].
Qed.

Lemma sync_wrap_x_setter value e :
  sampler_in_sync e ->
  wp (wrap_x_setter value) (fun _ e' => sampler_in_sync e')
    (fun _ e' => sampler_in_sync e') e.
Proof.
  intros Hsync. unfold wrap_x_setter. repeat (wp_open; cbn_fields).
  synced. destruct Hsync as [Hlen Hsync]. split; [exact Hlen | congruence].
Qed.

Lemma sync_wrap_y_setter value e :
  sampler_in_sync e ->
  wp (wrap_y_setter value) (fun _ e' => sampler_in_sync e')
    (fun _ e' => sampler_in_sync e') e.
Proof.
  intros Hsync. unfold wrap_y_setter. repeat (wp_open; cbn_fields).
  synced. destruct Hsync as [Hlen Hsync]. split; [exact Hlen | congruence].
Qed.

Lemma sync_init (a : Args) (e : Env) :
  wp (__init__ a) (fun _ e' => _samples (self e') = 0 -> sampler_in_sync e')
    (fun _ _ => True) e.
Proof.
  unfold __init__. destruct (arg_size a) as [[w h] l] eqn:Hsize.
  repeat (wp_step; cbn_fields); try exact I.
  eapply wp_keeps; [apply (keeps_coarser sampler (fun e => (_glo (self e), _samples (self e))));
                    [unfold sampler; congruence | apply sampler_texture_2d]
                   | intros [] e1 Hkept | intros; exact I].
  cbn_fields. injection Hkept as Hglo Hsamples.
  unfold filter_setter, wrap_x_setter, wrap_y_setter.
  repeat (wp_open; cbn_fields); try exact I.
  all: intros Hs0.
  all: try (apply Z.eqb_neq in Heqb2; congruence).
  all: synced; split; reflexivity.
Qed.

Lemma create_in_sync (a : Args) (d : gl.State) (c : Context) (e : Env) :
  create a d c = (inr tt, e) -> _samples (self e) = 0 -> sampler_in_sync e.
Proof.
  intros Hrun. exact (wp_returns _ _ _ _ _ _ (sync_init a _) Hrun).
Qed.

Lemma delete_forgets_handle (e : Env) : _glo (self (snd (delete e))) = 0.
Proof.
  unfold delete, delete_glo, bind, attr, gets, when, call, assign, modify, ret.
  cbn. destruct (gl.current_context (device e)); cbn; [| reflexivity].
  destruct (_glo (self e) =? 0); reflexivity.
Qed.

Lemma keeps_snd {A B} (proj : Env -> B) (m : Py A) (e : Env) :
  keeps proj m -> proj (snd (m e)) = proj e.
Proof. intros Hm. specialize (Hm e). unfold wp in Hm. now destruct (m e) as [[x | a] e']. Qed.

Lemma wp_snd {A} (m : Py A) (P : Env -> Prop) (e : Env) :
  wp m (fun _ e' => P e') (fun _ e' => P e') e -> P (snd (m e)).
Proof. unfold wp. now destruct (m e) as [[x | a] e']. Qed.

Lemma sync_sampler (e e' : Env) :
  sampler e' = sampler e -> sampler_in_sync e -> sampler_in_sync e'.
Proof.
  unfold sampler, sampler_in_sync, cached_sampler.
  intros Heq [Hlen Hsync].
  pose proof (f_equal snd Heq) as Hd.
  pose proof (f_equal (fun p => p.1.2) Heq) as Hy.
  pose proof (f_equal (fun p => p.1.1.2) Heq) as Hx.
  pose proof (f_equal (fun p => p.1.1.1.2) Heq) as Hf.
  cbn [fst snd] in Hd, Hy, Hx, Hf. rewrite Hf, Hx, Hy, Hd. now split.
Qed.


End Sampler.

(** ** The swizzle mask read back *)

Section SwizzleRoundTrip.

Lemma swizzle_tables_inverse_b (c : ascii) :
  match dict_get (str_of_char (upper c)) swizzle_str_to_enum with
  | Some v => bool_decide (dict_get v swizzle_enum_to_str = Some (str_of_char (upper c)))
  | None => true
  end = true.
Proof. destruct c as [[] [] [] [] [] [] [] []]; vm_compute; reflexivity. Qed.

Lemma swizzle_tables_inverse (c : ascii) :
  c ∈ swizzle_letters ->
  exists v, dict_get (str_of_char (upper c)) swizzle_str_to_enum = Some v
            /\ dict_get v swizzle_enum_to_str = Some (str_of_char (upper c)).
Proof.
  intros Hc. apply swizzle_letter_iff in Hc as [v Hv].
  exists v. split; [exact Hv |].
  pose proof (swizzle_tables_inverse_b c) as H. rewrite Hv in H.
  now apply bool_decide_eq_true in H.
Qed.

Lemma bound_glTexParameteri target' target p v st :
  gl.bound target' (gl.glTexParameteri target p v st) = gl.bound target' st.
Proof. reflexivity. Qed.

Lemma glGetTexParameteriv_set target pname v st :
  parami (gl.bound target st) pname st = Some v ->
  gl.glGetTexParameteriv target pname st = v.
Proof. unfold gl.glGetTexParameteriv, parami. now intros ->. Qed.

Lemma parami_bind name p target name' unit_ st :
  parami name p (gl.glBindTexture target name' (gl.glActiveTexture unit_ st))
  = parami name p st.
Proof. reflexivity. Qed.

Lemma swizzle_read_back (target glo unit_ r g b a : Z) (d : gl.State) :
  let rebind st := gl.glBindTexture target glo (gl.glActiveTexture unit_ st) in
  let st :=
    rebind (gl.glTexParameteri target gl.GL_TEXTURE_SWIZZLE_A a
              (gl.glTexParameteri target gl.GL_TEXTURE_SWIZZLE_B b
                 (gl.glTexParameteri target gl.GL_TEXTURE_SWIZZLE_G g
                    (gl.glTexParameteri target gl.GL_TEXTURE_SWIZZLE_R r (rebind d))))) in
  gl.glGetTexParameteriv target gl.GL_TEXTURE_SWIZZLE_R st = r
  /\ gl.glGetTexParameteriv target gl.GL_TEXTURE_SWIZZLE_G st = g
  /\ gl.glGetTexParameteriv target gl.GL_TEXTURE_SWIZZLE_B st = b
  /\ gl.glGetTexParameteriv target gl.GL_TEXTURE_SWIZZLE_A st = a.
Proof.
  intros rebind st.
  assert (Hb : gl.bound target st = glo) by apply bound_bind.
  repeat split; apply glGetTexParameteriv_set; rewrite Hb; subst st; unfold rebind at 1;
    rewrite parami_bind;
    rewrite ?parami_glTexParameteri_other by discriminate;
    apply parami_glTexParameteri_same;
    rewrite ?bound_glTexParameteri; apply bound_bind.
Qed.

(** X3.  The swizzle mask read back: after the [swizzle] setter has been
    given a valid string (four letters among R, G, B, A, 0, 1 in either
    case), the [swizzle] getter returns that string in upper case. *)
Theorem swizzle_round_trip (s : string) (e : Env) :
  valid_swizzle (PyStr s) ->
  exists e1 e2,
    swizzle_setter (PyStr s) e = (inr tt, e1)
    /\ getter.swizzle e1 = (inr (str_upper s), e2).
Proof.
  intros (s' & Hs & Hlen & Hall). injection Hs as <-.
  destruct s as [|c0 [|c1 [|c2 [|c3 [|c4 rest]]]]]; cbn in Hlen; try lia.
  cbn [chars] in Hall.
  apply Forall_cons in Hall as [H0 Hall]. apply Forall_cons in Hall as [H1 Hall].
  apply Forall_cons in Hall as [H2 Hall]. apply Forall_cons in Hall as [H3 _].
  apply swizzle_tables_inverse in H0 as (v0 & Hv0 & Hs0).
  apply swizzle_tables_inverse in H1 as (v1 & Hv1 & Hs1).
  apply swizzle_tables_inverse in H2 as (v2 & Hv2 & Hs2).
  apply swizzle_tables_inverse in H3 as (v3 & Hv3 & Hs3).
  enough (H : wp (swizzle_setter (PyStr (String c0 (String c1 (String c2 (String c3 EmptyString))))))
                (fun _ e1 => wp getter.swizzle
                               (fun r _ => r = String (upper c0) (String (upper c1)
                                             (String (upper c2) (String (upper c3) EmptyString))))
                               (fun _ _ => False) e1)
                (fun _ _ => False) e).
  { apply wp_total in H as ([] & e1 & Hset & Hget).
    apply wp_total in Hget as (r & e2 & Hget & ->). eauto. }
  unfold swizzle_setter. cbn [chars].
  change (negb (len [c0; c1; c2; c3] =? 4)) with false. cbv iota.
  cbn [swizzle_loop]. rewrite Hv0. cbn [swizzle_loop app]. rewrite Hv1.
  cbn [swizzle_loop app]. rewrite Hv2. cbn [swizzle_loop app]. rewrite Hv3.
  cbn [swizzle_loop app].
  unfold bind_self, index, getter.swizzle, bind_self.
  change (len [v0; v1; v2; v3]) with 4.
  repeat (wp_step; cbn_fields); try discriminate.
  repeat match goal with
         | |- context [nth ?i ?l 0] =>
             let r := eval vm_compute in (nth i l 0) in change (nth i l 0) with r
         end.
  destruct (swizzle_read_back (_target (self e)) (_glo (self e))
              (gl.GL_TEXTURE0 + default_texture_unit (ctx e)) v0 v1 v2 v3 (device e))
    as (-> & -> & -> & ->).
  cbn [getter.swizzle_loop]. rewrite Hs0, Hs1, Hs2, Hs3. reflexivity.
Qed.
End SwizzleRoundTrip.

(** ** Multisampled textures *)

Section Multisampled.
Variable glGenerateMipmap : Z -> gl.State -> gl.State.

(** X11.  On a multisampled texture [read], [write] and [build_mipmaps] raise
    ValueError before any call of the device, whatever their arguments,
    and leave the state as it was. *)
Theorem multisampled_refuses (data : BufferOrBufferProtocol) (level alignment : Z)
    (viewport : option (list Z)) (base max_level : Z) (e : Env) :
  0 < _samples (self e) ->
  read level alignment e
  = (inl (ValueError "Multisampled textures cannot be read directly"), e)
  /\ write data level viewport e
     = (inl (ValueError "Writing to multisampled textures not supported"), e)
  /\ build_mipmaps glGenerateMipmap base max_level e
     = (inl (ValueError "Multisampled textures don't support mimpmaps"), e).
Proof.
  intros Hs. apply Z.ltb_lt in Hs.
  unfold read, write, build_mipmaps, bind, attr, gets. cbv beta iota.
  rewrite Hs. repeat split.
Qed.
End Multisampled.

Lemma multisampled_refuses_witness :
  0 < _samples (self Sample.multisampled)
  /\ read 0 1 Sample.multisampled
     = (inl (ValueError "Multisampled textures cannot be read directly"),
        Sample.multisampled).
Proof.
  assert (H : 0 < _samples (self Sample.multisampled)) by (vm_compute; reflexivity).
  split; [exact H |].
  exact (proj1 (multisampled_refuses (fun _ st => st) (IsBytes []) 0 1 None 0 1000
                  Sample.multisampled H)).
Defined.

(** ** Other textures and other units *)

Section Isolation.

Lemma other_textures_lookup (name n : Z) (st : gl.State) :
  n <> name -> other_textures name st !! n = gl.textures st !! n.
Proof.
  intros Hn. unfold other_textures. rewrite map_lookup_filter.
  destruct (gl.textures st !! n) as [t |]; [| reflexivity]. cbn.
  now rewrite option_guard_True.
Qed.

Lemma other_units_lookup (unit_ u target : Z) (st : gl.State) :
  u <> unit_ -> other_units unit_ st !! (u, target) = gl.texture_bindings st !! (u, target).
Proof.
  intros Hu. unfold other_units. rewrite map_lookup_filter.
  destruct (gl.texture_bindings st !! (u, target)) as [t |]; [| reflexivity]. cbn.
  now rewrite option_guard_True.
Qed.

Lemma foreign_perform (call : Call) (e : Env) :
  call <> Delete -> foreign (perform call e) = foreign e.
Proof.
  intros Hcall. destruct call; cbn [perform]; try contradiction; apply keeps_snd.
  - apply foreign_resize.
  - apply foreign_swizzle_setter.
  - apply foreign_filter_setter.
  - apply foreign_wrap_x_setter.
  - apply foreign_wrap_y_setter.
  - apply foreign_anisotropy_setter.
  - apply foreign_compare_func_setter.
  - apply foreign_read.
  - apply foreign_write.
Qed.

Lemma delete_textures (e : Env) (name : Z) :
  name <> _glo (self e) ->
  gl.textures (device (snd (delete e))) !! name = gl.textures (device e) !! name.
Proof.
  intros Hname.
  unfold delete, delete_glo, bind, attr, gets, when, call, assign, modify, ret.
  cbn. destruct (gl.current_context (device e)); cbn; [| reflexivity].
  destruct (_glo (self e) =? 0); cbn; [reflexivity |].
  unfold gl.glDeleteTextures. destruct (decide (_glo (self e) = 0)); [reflexivity |].
  cbn. now apply lookup_delete_ne.
Qed.

(** X6.  No call on a texture changes what the device holds for another
    texture: after a resize, a setter, a read, a write or a delete, every
    name other than the handle of the texture maps to what it mapped to. *)
Theorem calls_leave_other_textures (call : Call) (e : Env) (name : Z) :
  name <> _glo (self e) ->
  gl.textures (device (perform call e)) !! name = gl.textures (device e) !! name.
Proof.
  intros Hname.
  assert (Hcases : call = Delete \/ call <> Delete) by (destruct call; auto; right; discriminate).
  destruct Hcases as [-> | Hcall].
  - now apply delete_textures.
  - pose proof (foreign_perform call e Hcall) as Hf. unfold foreign in Hf.
    pose proof (f_equal (fun p => p.1.1.1.2) Hf) as Ht.
    pose proof (f_equal (fun p => p.1.1.1.1.1) Hf) as Hg.
    cbn [fst snd] in Ht, Hg. rewrite Hg in Ht.
    rewrite <- !(other_textures_lookup (_glo (self e))) by exact Hname.
    now rewrite Ht.
Qed.


End Isolation.

(** ** Writing one layer *)

Section Layers.

Lemma client_offset_layer (W H bpp l i : Z) :
  0 < W -> 0 < H -> 0 < bpp -> 0 <= l -> 0 <= i ->
  gl.client_offset W H bpp 0 0 l W H 1 (W * bpp) i
  = if (l * (W * H * bpp) <=? i) && (i <? (l + 1) * (W * H * bpp))
    then Some (i - l * (W * H * bpp)) else None.
Proof.
  intros HW HH Hb Hl Hi. unfold gl.client_offset.
  set (p := i / bpp).
  assert (Hp : 0 <= p) by (apply Z.div_pos; lia).
  pose proof (Z.div_mod i bpp ltac:(lia)) as Hdi. fold p in Hdi.
  pose proof (Z.mod_pos_bound i bpp Hb) as Hmi.
  pose proof (Z.div_mod p W ltac:(lia)) as Hdp.
  pose proof (Z.mod_pos_bound p W HW) as Hcol.
  assert (Hq : 0 <= p / W) by (apply Z.div_pos; lia).
  pose proof (Z.div_mod (p / W) H ltac:(lia)) as Hdq.
  pose proof (Z.mod_pos_bound (p / W) H HH) as Hrow.
  assert (Hlayer : p / (W * H) = p / W / H) by (rewrite Z.div_div; lia).
  rewrite Hlayer.
  set (col := p mod W) in *. set (row := (p / W) mod H) in *.
  set (layer := p / W / H) in *. set (q := p / W) in *. set (r := i mod bpp) in *.
  assert (Hi' : i = ((layer * H + row) * W + col) * bpp + r).
  { transitivity (bpp * (W * (H * layer + row) + col) + r); [| ring].
    rewrite <- Hdq, <- Hdp. exact Hdi. }
  clearbody col row layer q r p. clear Hdi Hdp Hdq Hlayer.
  assert (Hrc : 0 <= row * W + col <= H * W - 1) by nia.
  assert (Ht : 0 <= (row * W + col) * bpp + r < W * H * bpp) by nia.
  assert (Hi2 : i = layer * (W * H * bpp) + ((row * W + col) * bpp + r))
    by (rewrite Hi'; ring).
  replace (((layer - l) * H + (row - 0)) * (W * bpp) + (col - 0) * bpp + r)
    with ((layer - l) * (W * H * bpp) + ((row * W + col) * bpp + r)) by ring.
  assert (HS : 0 < W * H * bpp) by nia.
  generalize dependent ((row * W + col) * bpp + r). intros t Ht Hi2.
  generalize dependent (W * H * bpp). intros S Ht Hi2 HS.
  clear Hi' Hrc.
  destruct (Z.leb_spec 0 col); [| lia]. destruct (Z.ltb_spec col (0 + W)); [| lia].
  destruct (Z.leb_spec 0 row); [| lia]. destruct (Z.ltb_spec row (0 + H)); [| lia].
  cbn [andb].
  destruct (Z.leb_spec l layer) as [Hl1 | Hl1];
    destruct (Z.ltb_spec layer (l + 1)) as [Hl2 | Hl2]; cbn [andb].
  - assert (layer = l) as -> by lia.
    destruct (Z.leb_spec (l * S) i); [| nia].
    destruct (Z.ltb_spec i ((l + 1) * S)); [| nia].
    cbn [andb]. f_equal. nia.
  - destruct (Z.ltb_spec i ((l + 1) * S)); [nia |].
    now rewrite andb_false_r.
  - destruct (Z.leb_spec (l * S) i); [nia | reflexivity].
  - lia.
Qed.

Lemma texels_lookup (img : gl.Image) (bpp : Z) (i : nat) :
  texels img bpp !! i
  = if decide (i < Z.to_nat (gl.img_width img * gl.img_height img * gl.img_depth img * bpp))%nat
    then Some (gl.byte_at (gl.img_data img) (Z.of_nat i)) else None.
Proof.
  unfold texels. rewrite list_lookup_fmap.
  destruct (decide _) as [Hi | Hi].
  - now rewrite lookup_seq_lt.
  - rewrite lookup_seq_ge by lia. reflexivity.
Qed.

Lemma byte_at_fmap_seq (f : nat -> byte) (n i : nat) :
  (i < n)%nat -> gl.byte_at (f <$> seq 0 n) (Z.of_nat i) = f i.
Proof.
  intros Hi. apply byte_at_lookup. rewrite list_lookup_fmap, lookup_seq_lt by exact Hi.
  reflexivity.
Qed.

Lemma byte_at_lookup_lt (data : list byte) (i : nat) :
  (i < length data)%nat -> data !! i = Some (gl.byte_at data (Z.of_nat i)).
Proof.
  intros Hi. destruct (lookup_lt_is_Some_2 data i Hi) as [b Hb].
  rewrite Hb. f_equal. symmetry. now apply byte_at_lookup.
Qed.

(** A tightly packed read of a whole image. *)
Lemma get_tex_image_texels (img : gl.Image) (bpp : Z) :
  0 <= gl.img_width img -> 0 <= gl.img_height img -> 0 <= gl.img_depth img -> 0 < bpp ->
  imap (fun (j : nat) (old : byte) =>
          let r := Z.of_nat j / (gl.img_width img * bpp) in
          let o := Z.of_nat j mod (gl.img_width img * bpp) in
          if (o <? gl.img_width img * bpp) && (r <? gl.img_height img * gl.img_depth img)
          then gl.byte_at (gl.img_data img) (r * (gl.img_width img * bpp) + o)
          else old)
    (replicate (Z.to_nat (gl.img_width img * gl.img_height img * gl.img_depth img * bpp))
       Byte.x00)
  = texels img bpp.
Proof.
  intros HW HH HD Hb. apply list_eq. intros i.
  rewrite list_lookup_imap, texels_lookup.
  destruct (decide _) as [Hi | Hi].
  - rewrite lookup_replicate_2 by exact Hi. cbn.
    set (row := gl.img_width img * bpp) in *.
    assert (Hrow : 0 < row) by (unfold row; nia).
    pose proof (Z.mod_pos_bound (Z.of_nat i) row Hrow) as Ho.
    assert (Hr : Z.of_nat i / row < gl.img_height img * gl.img_depth img).
    { apply Z.div_lt_upper_bound; [lia |]. unfold row. nia. }
    destruct (Z.ltb_spec (Z.of_nat i mod row) row); [| lia].
    destruct (Z.ltb_spec (Z.of_nat i / row) (gl.img_height img * gl.img_depth img)); [| lia].
    cbn [andb].
    replace (Z.of_nat i / row * row + Z.of_nat i mod row) with (Z.of_nat i)
      by (pose proof (Z.div_mod (Z.of_nat i) row ltac:(lia)); lia).
    reflexivity.
  - rewrite (lookup_ge_None_2 (replicate _ _)) by (rewrite length_replicate; lia).
    reflexivity.
Qed.

(** Replacing one layer of an image replaces that block of its bytes. *)
Lemma sub_image_layer_texels (img : gl.Image) (bpp l : Z) (data : list byte) :
  0 < gl.img_width img -> 0 < gl.img_height img -> 0 <= l < gl.img_depth img -> 0 < bpp ->
  len data = gl.img_width img * gl.img_height img * bpp ->
  texels (gl.sub_image img bpp 0 0 l (gl.img_width img) (gl.img_height img) 1
            (gl.img_width img * bpp) data) bpp
  = replace_layer l (gl.img_width img * gl.img_height img * bpp) data (texels img bpp).
Proof.
  intros HW HH Hl Hb Hlen. unfold len in Hlen.
  set (S := gl.img_width img * gl.img_height img * bpp) in *.
  assert (HS : 0 < S) by (unfold S; nia).
  set (n := Z.to_nat (gl.img_width img * gl.img_height img * gl.img_depth img * bpp)).
  assert (Hn : Z.of_nat n = gl.img_depth img * S) by (unfold n, S; nia).
  assert (Hlen_t : length (texels img bpp) = n) by (unfold texels; now rewrite length_fmap, length_seq).
  apply list_eq. intros i. rewrite texels_lookup.
  unfold gl.sub_image. cbn [gl.img_width gl.img_height gl.img_depth gl.img_data]. fold n.
  unfold replace_layer.
  assert (Ha : length (take (Z.to_nat (l * S)) (texels img bpp)) = Z.to_nat (l * S)).
  { rewrite length_take_le; [reflexivity |]. rewrite Hlen_t. nia. }
  destruct (decide (i < n)%nat) as [Hi | Hi].
  - rewrite byte_at_fmap_seq by exact Hi.
    rewrite client_offset_layer by lia. fold S.
    destruct (Z.leb_spec (l * S) (Z.of_nat i)) as [H1 | H1];
      [destruct (Z.ltb_spec (Z.of_nat i) ((l + 1) * S)) as [H2 | H2] |]; cbn [andb].
    + rewrite lookup_app_r by (rewrite Ha; lia). rewrite Ha.
      rewrite lookup_app_l by lia.
      rewrite byte_at_lookup_lt by lia. do 2 f_equal. lia.
    + rewrite lookup_app_r by (rewrite Ha; lia). rewrite Ha.
      rewrite lookup_app_r by lia. rewrite lookup_drop.
      replace (Z.to_nat ((l + 1) * S) + (i - Z.to_nat (l * S) - length data))%nat with i
        by lia.
      rewrite texels_lookup. fold n. now rewrite decide_True.
    + rewrite lookup_app_l by (rewrite Ha; lia).
      rewrite lookup_take_lt by lia. rewrite texels_lookup. fold n.
      now rewrite decide_True.
  - symmetry. apply lookup_ge_None.
    rewrite !length_app, Ha, length_drop, Hlen_t. nia.
Qed.

Lemma glGetTexImage_texels (target name format type bpp : Z) (st : gl.State)
    (img : gl.Image) :
  gl.bytes_per_pixel format type = Some bpp -> 0 < bpp ->
  gl.bound target st = name ->
  gl.tex_images (gl.lookup_texture name st) !! 0 = Some img ->
  gl.alignment_of gl.GL_PACK_ALIGNMENT st = 1 ->
  0 <= gl.img_width img -> 0 <= gl.img_height img -> 0 <= gl.img_depth img ->
  gl.glGetTexImage target 0 format type
    (replicate (Z.to_nat (gl.img_width img * gl.img_height img * gl.img_depth img * bpp))
       Byte.x00) st
  = texels img bpp.
Proof.
  intros Hbpp Hpos Hb Himg Ha HW HH HD. unfold gl.glGetTexImage.
  rewrite Hbpp, Hb, Himg, Ha, row_stride_1. now apply get_tex_image_texels.
Qed.

(** [write] of bytes through a viewport of five entries, when the size of
    the data is that of the viewport. *)
Lemma write_bytes_viewport (data : list byte) (level x y l w h : Z) (e : Env) :
  tex_inv (self e) ->
  _samples (self e) = 0 -> _depth (self e) = false -> _compressed (self e) = false ->
  len data = w * h * 1 * _component_size (self e) * _components (self e) ->
  exists format type,
    _format (self e) = Some format /\ _type (self e) = Some type
    /\ write (IsBytes data) level (Some [x; y; l; w; h]) e
       = (inr tt,
          on_device
            (fun d =>
               gl.glTexSubImage3D (_target (self e)) level x y l w h 1 format type data
                 (gl.glPixelStorei gl.GL_UNPACK_ALIGNMENT 1
                    (gl.glPixelStorei gl.GL_PACK_ALIGNMENT 1 (bound_device e d)))) e).
Proof.
  intros (fi & Hfi & Hsz & Hty & Hc & Ht & Hfmt) Hs Hd Hcomp Hlen.
  specialize (Hfmt Hs Hd). eexists. eexists. split; [exact Hfmt |]. split; [exact Hty |].
  enough (H : wp (write (IsBytes data) level (Some [x; y; l; w; h]))
                (fun _ e' => e' = on_device
            (fun d =>
               gl.glTexSubImage3D (_target (self e)) level x y l w h 1
                 (nth (Z.to_nat (_components (self e))) (base_formats fi) 0)
                 (gl_type fi) data
                 (gl.glPixelStorei gl.GL_UNPACK_ALIGNMENT 1
                    (gl.glPixelStorei gl.GL_PACK_ALIGNMENT 1 (bound_device e d)))) e)
                (fun _ _ => False) e).
  { apply wp_total in H as ([] & e' & Hrun & ->). exact Hrun. }
  unfold write. wp_step. wp_step. rewrite Hs. cbn [Z.ltb Z.compare truthy].
  unfold _validate_data_size, data_to_ctypes, bind_self.
  repeat (wp_step; cbn_fields).
  all: try congruence.
  all: try (simplify_eq; reflexivity).
  all: repeat match goal with
         | H : negb _ = true |- _ => apply negb_true_iff in H
         | H : (_ =? _) = false |- _ => apply Z.eqb_neq in H
         end; unfold len in *; try lia.
Qed.

Lemma read_texels (e : Env) (img : gl.Image) :
  tex_inv (self e) ->
  _samples (self e) = 0 -> _depth (self e) = false -> gl_api (ctx e) = "gl" ->
  device_image e 0 = Some img ->
  (gl.img_width img, gl.img_height img, gl.img_depth img)
  = (_width (self e), _height (self e), _layers (self e)) ->
  0 <= _width (self e) -> 0 <= _height (self e) -> 0 <= _layers (self e) ->
  read 0 1 e
  = (inr (texels img (_components (self e) * _component_size (self e))),
     on_device (fun d => gl.glPixelStorei gl.GL_PACK_ALIGNMENT 1 (bound_device e d)) e).
Proof.
  intros Hinv Hs Hd Hapi Himg Hdims HW HH HL.
  injection Hdims as HiW HiH HiD.
  assert (Hn : 0 <= read_size (self e)).
  { unfold read_size. destruct Hinv as (fi & Hfi & Hsz & _ & Hc & _).
    destruct (pixel_formats_wf _ _ Hfi) as (_ & _ & Hin & _).
    rewrite Hsz. apply list_elem_of_In in Hin, Hc. cbn in Hin, Hc.
    repeat apply Z.mul_nonneg_nonneg; lia. }
  destruct (read_spec 0 1 e Hinv Hs Hd Hapi Hn) as (format & type & Hformat & Htype & Hread).
  destruct (tex_inv_bytes_per_pixel _ _ _ Hinv Hs Hd Hformat Htype) as [Hbpp Hpos].
  rewrite Hread. f_equal. f_equal.
  unfold read_size. rewrite <- HiW, <- HiH, <- HiD.
  replace (gl.img_width img * gl.img_height img * gl.img_depth img
           * _component_size (self e) * _components (self e))
    with (gl.img_width img * gl.img_height img * gl.img_depth img
          * (_components (self e) * _component_size (self e))) by ring.
  apply (glGetTexImage_texels _ (_glo (self e))); try assumption; try lia.
  - rewrite bound_glPixelStorei. apply bound_bound_device.
  - apply alignment_glPixelStorei_1.
Qed.

(** The image of the texture after a layer has been written. *)
Lemma write_layer_image (data : list byte) (l : Z) (e : Env) (img : gl.Image) :
  tex_inv (self e) ->
  _samples (self e) = 0 -> _depth (self e) = false -> _compressed (self e) = false ->
  device_image e 0 = Some img ->
  (gl.img_width img, gl.img_height img, gl.img_depth img)
  = (_width (self e), _height (self e), _layers (self e)) ->
  0 <= _width (self e) -> 0 <= _height (self e) -> 0 <= l < _layers (self e) ->
  len data = layer_size (self e) ->
  exists e',
    write (IsBytes data) 0 (Some [0; 0; l; _width (self e); _height (self e)]) e
    = (inr tt, e')
    /\ self e' = self e /\ ctx e' = ctx e
    /\ device_image e' 0
       = Some (gl.sub_image img (_components (self e) * _component_size (self e))
                 0 0 l (gl.img_width img) (gl.img_height img) 1
                 (gl.img_width img * (_components (self e) * _component_size (self e)))
                 data).
Proof.
  intros Hinv Hs Hd Hcomp Himg Hdims HW HH Hl Hlen.
  injection Hdims as HiW HiH HiD.
  assert (Hlen1 : len data = _width (self e) * _height (self e) * 1
                             * _component_size (self e) * _components (self e)).
  { rewrite Hlen. unfold layer_size. ring. }
  destruct (write_bytes_viewport data 0 0 0 l _ _ e Hinv Hs Hd Hcomp Hlen1)
    as (format & type & Hformat & Htype & Hwrite).
  destruct (tex_inv_bytes_per_pixel _ _ _ Hinv Hs Hd Hformat Htype) as [Hbpp Hpos].
  eexists. split; [exact Hwrite |]. split; [reflexivity |]. split; [reflexivity |].
  unfold device_image in *. cbn_fields.
  set (s2 := gl.glPixelStorei gl.GL_UNPACK_ALIGNMENT 1
               (gl.glPixelStorei gl.GL_PACK_ALIGNMENT 1 (bound_device e (device e)))).
  assert (Hb2 : gl.bound (_target (self e)) s2 = _glo (self e)).
  { unfold s2. rewrite !bound_glPixelStorei. apply bound_bound_device. }
  assert (Ht2 : gl.lookup_texture (_glo (self e)) s2
                = gl.lookup_texture (_glo (self e)) (device e)).
  { unfold s2. now rewrite !lookup_texture_glPixelStorei. }
  assert (Ha2 : gl.alignment_of gl.GL_UNPACK_ALIGNMENT s2 = 1).
  { unfold s2. apply alignment_glPixelStorei_1. }
  unfold gl.glTexSubImage3D. rewrite Hbpp, Hb2, Ht2, Himg, Ha2, row_stride_1.
  replace (gl.inside img 0 0 l (_width (self e)) (_height (self e)) 1) with true.
  2:{ symmetry. unfold gl.inside. rewrite HiW, HiH, HiD.
      repeat (apply andb_true_intro; split); apply Z.leb_le; lia. }
  rewrite <- Hb2 at 1. rewrite lookup_texture_with_bound.
  unfold gl.set_images. cbn [gl.tex_images]. rewrite lookup_insert_eq.
  now rewrite HiW, HiH.
Qed.

(** X2.  Reading, writing one whole layer through a viewport and reading
    again: on a texture that [read] and [write] apply to (not multisampled,
    not a depth texture, not compressed, full API variant) whose storage
    has the size of the object, the second read is the first with the
    bytes of that layer replaced by the data written, all other layers
    being as they were. *)
Theorem write_layer_then_read (data : list byte) (l : Z) (e : Env) :
  texture e ->
  _samples (self e) = 0 -> _depth (self e) = false -> _compressed (self e) = false ->
  gl_api (ctx e) = "gl" ->
  storage_size e = Some (_width (self e), _height (self e), _layers (self e)) ->
  0 < _width (self e) -> 0 < _height (self e) -> 0 <= l < _layers (self e) ->
  len data = layer_size (self e) ->
  exists before e1 e2 after e3,
    read 0 1 e = (inr before, e1)
    /\ write (IsBytes data) 0 (Some [0; 0; l; _width (self e); _height (self e)]) e1
       = (inr tt, e2)
    /\ read 0 1 e2 = (inr after, e3)
    /\ after = replace_layer l (layer_size (self e)) data before.
Proof.
  intros Htex Hs Hd Hcomp Hapi Hstore HW HH Hl Hlen.
  pose proof (texture_tex_inv e Htex) as Hinv.
  unfold storage_size, image_size in Hstore.
  apply fmap_Some in Hstore as (img & Himg & Hdims). symmetry in Hdims.
  pose proof (read_texels e img Hinv Hs Hd Hapi Himg Hdims ltac:(lia) ltac:(lia) ltac:(lia))
    as Hread.
  set (e1 := on_device (fun d => gl.glPixelStorei gl.GL_PACK_ALIGNMENT 1 (bound_device e d)) e)
    in *.
  assert (Himg1 : device_image e1 0 = Some img).
  { unfold device_image, e1. cbn_fields. rewrite lookup_texture_glPixelStorei. exact Himg. }
  destruct (write_layer_image data l e1 img Hinv Hs Hd Hcomp Himg1 Hdims
              (Z.lt_le_incl _ _ HW) (Z.lt_le_incl _ _ HH) Hl Hlen)
    as (e2 & Hwrite & Hself & Hctx & Himg2).
  change (self e1) with (self e) in *.
  pose proof (read_texels e2 _ ltac:(now rewrite Hself) ltac:(now rewrite Hself)
                ltac:(now rewrite Hself) ltac:(now rewrite Hctx) Himg2
                ltac:(now rewrite Hself) ltac:(rewrite Hself; lia) ltac:(rewrite Hself; lia)
                ltac:(rewrite Hself; lia)) as Hread2.
  rewrite Hself in Hread2.
  do 5 eexists. split; [exact Hread |]. split; [exact Hwrite |]. split; [exact Hread2 |].
  injection Hdims as HiW HiH HiD.
  rewrite sub_image_layer_texels.
  - f_equal. unfold layer_size. rewrite HiW, HiH. ring.
  - lia.
  - lia.
  - lia.
  - destruct Hinv as (fi & Hfi & Hsz & _ & Hc & _).
    destruct (pixel_formats_wf _ _ Hfi) as (_ & _ & Hin & _).
    rewrite Hsz. apply list_elem_of_In in Hin, Hc. cbn in Hin, Hc.
    apply Z.mul_pos_pos; lia.
  - rewrite Hlen. unfold layer_size. rewrite HiW, HiH. ring.
Qed.

End Layers.

Lemma write_layer_then_read_witness :
  exists before e1 e2 after e3,
    read 0 1 Sample.three_layers = (inr before, e1)
    /\ write (IsBytes [Byte.x0a; Byte.x0b; Byte.x0c; Byte.x0d]) 0
         (Some [0; 0; 1; 2; 2]) e1
       = (inr tt, e2)
    /\ read 0 1 e2 = (inr after, e3)
    /\ after = replace_layer 1 4 [Byte.x0a; Byte.x0b; Byte.x0c; Byte.x0d] before.
Proof.
  assert (Htex : texture Sample.three_layers).
  { apply (texture_new (Sample.args (2, 2, 3) None false 0 false)
             Sample.device Sample.gl_context).
    vm_compute. reflexivity. }
  refine (write_layer_then_read [Byte.x0a; Byte.x0b; Byte.x0c; Byte.x0d] 1
            Sample.three_layers Htex _ _ _ _ _ _ _ _ _);
    vm_compute; first [reflexivity | split; first [reflexivity | discriminate]].
Defined.

(** ** Resizing *)

Section Resize.

Lemma wp_conj {A} (m : Py A) Q1 Q2 E1 E2 e :
  wp m Q1 E1 e -> wp m Q2 E2 e ->
  wp m (fun a e' => Q1 a e' /\ Q2 a e') (fun x e' => E1 x e' /\ E2 x e') e.
Proof. unfold wp. destruct (m e) as [[x | a] e']; auto. Qed.

Lemma index_in_range (t : list Z) (i : Z) :
  0 <= i < len t ->
  (0 <=? (if i <? 0 then len t + i else i)) && ((if i <? 0 then len t + i else i) <? len t)
  = true.
Proof.
  intros Hi. destruct (Z.ltb_spec i 0); [lia |].
  apply andb_true_intro. split; [apply Z.leb_le | apply Z.ltb_lt]; lia.
Qed.

(** [_texture_2d] without data returns, unless it is asked for compressed
    storage. *)
Lemma texture_2d_returns (e : Env) :
  tex_inv (self e) ->
  _immutable (self e) = true \/ _compressed_data (self e) = false \/ _depth (self e) = true
  \/ _samples (self e) <> 0 ->
  wp (_texture_2d None) (fun _ _ => True) (fun _ _ => False) e.
Proof.
  intros (fi & Hfi & Hsz & Hty & Hc & Ht & Hfmt) Hdata.
  destruct (pixel_formats_wf _ _ Hfi) as (Hl1 & Hl2 & _).
  assert (Hcomp : 1 <= _components (self e) <= 4).
  { apply list_elem_of_In in Hc. cbn in Hc. lia. }
  unfold _texture_2d, compare_func_setter.
  wp_open. wp_open. rewrite Hfi.
  repeat (wp_open; cbn_fields); try exact I.
  all: try match goal with
           | H : _ && _ = false |- _ =>
               rewrite index_in_range in H
                 by (unfold len; rewrite ?Hl1, ?Hl2; lia); discriminate
           end.
  all: try match goal with
           | H : dict_get _ compare_funcs = None |- _ => vm_compute in H; discriminate
           | H : ?x = true, H' : negb ?x = true |- _ => rewrite H in H'; discriminate
           end.
  all: try discriminate.
  all: try congruence.
  all: destruct Hdata as [? | [? | [? | Hms]]]; try discriminate.
  all: destruct (_samples (self e) =? 0) eqn:Hs0; [apply Z.eqb_eq in Hs0 |]; congruence.
Qed.


Lemma texture_2d_depth (data : option (list byte)) (e : Env) :
  _depth (self e) = true -> _target (self e) = gl.GL_TEXTURE_2D_ARRAY ->
  wp (_texture_2d data) (fun _ e' => _compare_func (self e') = Some "<=")
    (fun _ _ => True) e.
Proof.
  intros Hd Ht. unfold _texture_2d, compare_func_setter.
  repeat (wp_open; cbn_fields); try exact I; try reflexivity.
  all: try (assert (gl.GL_TEXTURE_2D_ARRAY = gl.GL_TEXTURE_2D_MULTISAMPLE_ARRAY)
              by congruence; discriminate).
  all: congruence.
Qed.


(** X15.  [resize] on a texture created from compressed data: the new width
    and height are assigned, and then [_texture_2d] takes the length of
    the data it was not given and raises TypeError; the storage of the
    device keeps its old size. *)
Theorem resize_compressed_data_fails (new_size : Z * Z) (e : Env) :
  texture e ->
  _samples (self e) = 0 -> _depth (self e) = false -> _immutable (self e) = false ->
  _compressed_data (self e) = true ->
  exists e',
    resize new_size e = (inl (TypeError "object of type 'NoneType' has no len()"), e')
    /\ (_width (self e'), _height (self e')) = new_size
    /\ storage_size e' = storage_size e.
Proof.
  intros Htex Hs Hd Himm Hcd.
  pose proof (texture_tex_inv e Htex) as (fi & Hfi & Hsz & Hty & Hc & Ht & Hfmt).
  destruct (pixel_formats_wf _ _ Hfi) as (Hl1 & Hl2 & _).
  assert (Hcomp : 1 <= _components (self e) <= 4).
  { apply list_elem_of_In in Hc. cbn in Hc. lia. }
  rewrite Hs in Ht. cbn in Ht.
  enough (H : wp (resize new_size) (fun _ _ => False)
                (fun x e' => x = TypeError "object of type 'NoneType' has no len()"
                             /\ (_width (self e'), _height (self e')) = new_size
                             /\ storage_size e' = storage_size e) e).
  { apply wp_raises in H as (x & e' & Hrun & -> & HQ). eauto. }
  unfold resize. wp_step. wp_step. rewrite Himm.
  unfold bind_self, _texture_2d. repeat (wp_open; cbn_fields).
  all: try congruence.
  all: simplify_eq.
  all: try match goal with
           | H : _ && _ = false |- _ =>
               rewrite index_in_range in H
                 by (unfold len; rewrite ?Hl1, ?Hl2; lia); discriminate
           end.
  all: try (assert (gl.GL_TEXTURE_2D_ARRAY = gl.GL_TEXTURE_2D_MULTISAMPLE_ARRAY)
              by congruence; discriminate).
  all: split; [reflexivity |]; split; [now destruct new_size |].
  all: unfold storage_size; cbn_fields; now autorewrite with layout.
Qed.

End Resize.

(** ** Constructor calls that raise *)

Section FailedConstruction.

Lemma init_failure (a : Args) (e : Env) :
  wp (__init__ a) (fun _ _ => True) (fun _ e' => ctx e' = ctx e) e.
Proof.
  unfold __init__. destruct (arg_size a) as [[w h] l] eqn:Hsize.
  repeat (wp_step; cbn_fields); try exact I; try reflexivity.
  assert (Hcomp : arg_components a ∈ [1; 2; 3; 4]).
  { apply negb_false_iff in Heqb. now apply bool_decide_eq_true in Heqb. }
  eapply wp_mono; [apply texture_2d_spec; cbn_fields; [exact Hcomp | reflexivity] | |];
    cbv beta.
  - intros [] e1 [Hkept Hinv]. cbn_fields.
    assert (Hctx : ctx e1 = ctx e) by congruence.
    repeat (wp_step; cbn_fields); try exact I.
    all: unfold stable in *; congruence.
  - intros x e1 [Hkept _]. cbn_fields. congruence.
Qed.

(** X17.  A constructor call that raises leaves the context as it was: no
    finalizer is registered and the texture counter is not incremented. *)
Theorem failed_create_leaves_context (a : Args) (d : gl.State) (c : Context)
    (x : Exception) (e' : Env) :
  create a d c = (inl x, e') -> ctx e' = c.
Proof.
  intros Hrun. pose proof (init_failure a {| self := unassigned; device := d; ctx := c |}) as H.
  unfold wp in H. unfold create in Hrun. now rewrite Hrun in H.
Qed.


(** X19.  A number of components other than 1, 2, 3 or 4 is refused with
    ValueError before any call of the device: the device and the context
    are as before. *)
Theorem create_bad_components (a : Args) (d : gl.State) (c : Context) :
  arg_components a ∉ [1; 2; 3; 4] ->
  exists e',
    create a d c = (inl (ValueError "Components must be 1, 2, 3 or 4"), e')
    /\ device e' = d /\ ctx e' = c.
Proof.
  intros Hcomp. unfold create, __init__, bind, gets, assign, modify, attr.
  destruct (arg_size a) as [[w h] l]. cbn.
  rewrite bool_decide_eq_false_2 by exact Hcomp. cbn. eauto.
Qed.

End FailedConstruction.

(** ** The compare function of a depth texture *)

Section CompareFunc.

(** X16.  The [compare_func] setter on a depth texture.  None is cached and
    turns comparison off on the device; a string of the table is cached and
    sets the comparison mode and the function of the table on the device;
    any other string raises ValueError and changes nothing; a value that
    is neither a string nor None raises AttributeError, as the message of
    the intended error reads a slot the class does not have. *)
Theorem compare_func_setter_depth (value : PyObject) (e : Env) :
  _depth (self e) = true ->
  match value with
  | PyNone =>
      exists e', compare_func_setter value e = (inr tt, e')
                 /\ _compare_func (self e') = None
                 /\ device_parami e' gl.GL_TEXTURE_COMPARE_MODE = Some gl.GL_NONE
  | PyStr s =>
      match dict_get (Some s) compare_funcs with
      | Some func =>
          exists e', compare_func_setter value e = (inr tt, e')
                     /\ _compare_func (self e') = Some s
                     /\ device_parami e' gl.GL_TEXTURE_COMPARE_MODE
                        = Some gl.GL_COMPARE_REF_TO_TEXTURE
                     /\ device_parami e' gl.GL_TEXTURE_COMPARE_FUNC = Some func
      | None => exists msg, compare_func_setter value e = (inl (ValueError msg), e)
      end
  | _ =>
      compare_func_setter value e
      = (inl (AttributeError "'TextureArray' object has no attribute '_compare_funcs'"), e)
  end.
Proof.
  intros Hd.
  assert (Hstart : forall k : Py unit,
             bind (attr _depth) (fun depth =>
               if negb depth
               then raise (ValueError
                             "Depth comparison function can only be set on depth textures")
               else k) e = k e).
  { intros k. unfold bind, attr, gets. now rewrite Hd. }
  destruct value as [| b | n | f | s | b | items]; unfold compare_func_setter;
    rewrite Hstart; try reflexivity.
  - apply wp_total_unit. unfold bind_self. repeat (wp_open; cbn_fields).
    + split; [reflexivity |]. unfold device_parami. cbn_fields.
      apply parami_glTexParameteri_same. frame_side.
    + vm_compute in Heqo. discriminate.
  - destruct (dict_get (Some s) compare_funcs) as [func |] eqn:Hfunc.
    + apply wp_total_unit. unfold bind_self.
      repeat (wp_open; cbn_fields; rewrite ?Hfunc).
      split; [reflexivity |]. unfold device_parami. cbn_fields. split.
      * rewrite parami_glTexParameteri_other by discriminate.
        apply parami_glTexParameteri_same. frame_side.
      * apply parami_glTexParameteri_same. frame_side.
    + eexists. unfold bind at 1, ret at 1. cbv beta. rewrite Hfunc. reflexivity.
Qed.

End CompareFunc.

(** ** Formats of depth textures *)

Section Formats.

Lemma depth_inv_layout (t t' : TextureArray) :
  layout t' = layout t -> depth_inv t -> depth_inv t'.
Proof.
  intros Heq Hinv Hd.
  assert (Hd' : _depth t' = _depth t) by (unfold layout, shape in Heq; congruence).
  assert (Hf : _format t' = _format t) by (unfold layout, shape in Heq; congruence).
  rewrite Hf. apply Hinv. congruence.
Qed.

Lemma format_inv_layout (t t' : TextureArray) :
  layout t' = layout t -> format_inv t -> format_inv t'.
Proof.
  intros Heq Hinv Hs Hd.
  assert (Hs' : _samples t' = _samples t) by (unfold layout, shape in Heq; congruence).
  assert (Hd' : _depth t' = _depth t) by (unfold layout, shape in Heq; congruence).
  assert (Hf : _internal_format t' = _internal_format t)
    by (unfold layout, shape in Heq; congruence).
  rewrite Hf. apply Hinv; congruence.
Qed.

Lemma texture_2d_depth_inv (data : option (list byte)) (e : Env) :
  depth_inv (self e) ->
  wp (_texture_2d data) (fun _ e' => depth_inv (self e'))
    (fun _ e' => depth_inv (self e')) e.
Proof.
  intros Hinv. unfold _texture_2d. repeat (wp_step; cbn_fields).
  all: repeat (cbn_fields;
               match goal with
               | H : stable ?e' = stable ?x |- depth_inv (self ?e') =>
                   apply (depth_inv_layout (self x)); [unfold stable in H; congruence |]
               end).
  all: unfold depth_inv in *; cbn_fields.
  all: try assumption.
  all: congruence.
Qed.

Lemma texture_2d_format_inv (data : option (list byte)) (e : Env) :
  _target (self e) = (if _samples (self e) =? 0 then gl.GL_TEXTURE_2D_ARRAY
                      else gl.GL_TEXTURE_2D_MULTISAMPLE_ARRAY) ->
  wp (_texture_2d data) (fun _ e' => format_inv (self e'))
    (fun _ e' => format_inv (self e) -> format_inv (self e')) e.
Proof.
  intros Ht. unfold _texture_2d. repeat (first [wp_open | wp_step]; cbn_fields).
  all: repeat (cbn_fields;
               match goal with
               | H : stable ?e' = stable ?x |- format_inv (self ?e') =>
                   apply (format_inv_layout (self x)); [unfold stable in H; congruence |]
               | H : stable ?e' = stable ?x |- _ -> format_inv (self ?e') =>
                   intros Hpre; apply (format_inv_layout (self x));
                     [unfold stable in H; congruence | revert Hpre]
               end).
  all: unfold format_inv in *; cbn_fields.
  all: try (intros; eauto; fail).
  all: try congruence.
  all: intros Hs Hd; rewrite Hs in Ht; cbn in Ht.
  all: try (assert (gl.GL_TEXTURE_2D_ARRAY = gl.GL_TEXTURE_2D_MULTISAMPLE_ARRAY)
              by congruence; discriminate).
Qed.


Ltac formats_kept :=
  repeat (cbn_fields;
          match goal with
          | H : stable ?e' = stable ?x |- depth_inv (self ?e') =>
              apply (depth_inv_layout (self x)); [unfold stable in H; congruence |]
          | H : stable ?e' = stable ?x |- format_inv (self ?e') =>
              apply (format_inv_layout (self x)); [unfold stable in H; congruence |]
          end).

Lemma init_formats (a : Args) (e : Env) :
  wp (__init__ a) (fun _ e' => depth_inv (self e') /\ format_inv (self e'))
    (fun _ _ => True) e.
Proof.
  unfold __init__. destruct (arg_size a) as [[w h] l] eqn:Hsize.
  repeat (wp_step; cbn_fields); try exact I.
  eapply wp_mono;
    [apply wp_conj; [apply texture_2d_depth_inv | apply texture_2d_format_inv] | |];
    cbv beta; cbn_fields.
  - intros _. reflexivity.
  - reflexivity.
  - intros [] e1 [HJ HK]. cbn_fields.
    repeat (wp_step; cbn_fields); try exact I.
    all: split; formats_kept; assumption.
  - intros; exact I.
Qed.

Lemma resize_formats (new_size : Z * Z) (e : Env) :
  tex_inv (self e) -> depth_inv (self e) -> format_inv (self e) ->
  wp (resize new_size) (fun _ e' => depth_inv (self e') /\ format_inv (self e'))
    (fun _ e' => depth_inv (self e') /\ format_inv (self e')) e.
Proof.
  intros (fi & _ & _ & _ & _ & Ht & _) HJ HK. unfold resize, bind_self.
  repeat (wp_open; cbn_fields); [now split |].
  eapply wp_mono;
    [apply wp_conj; [apply texture_2d_depth_inv | apply texture_2d_format_inv] | |];
    cbv beta; cbn_fields; try assumption.
  - now intros _ e' [? ?].
  - intros _ e' [? Hpre]. split; [assumption |]. now apply Hpre.
Qed.

(** The two relations hold in every state of a texture. *)
Lemma texture_formats (e : Env) :
  texture e -> depth_inv (self e) /\ format_inv (self e).
Proof.
  induction 1 as [a d c e Hnew | call e Htex [HJ HK]].
  - exact (wp_returns _ _ _ _ _ _ (init_formats a _) Hnew).
  - assert (Hstep : forall {A} (m : Py A),
               keeps stable m ->
               depth_inv (self (snd (m e))) /\ format_inv (self (snd (m e)))).
    { intros A m Hm. pose proof (keeps_snd stable m e Hm) as Hk.
      split; [apply (depth_inv_layout (self e)) | apply (format_inv_layout (self e))];
        first [assumption | unfold stable in Hk; congruence]. }
    destruct call; cbn [perform].
    + apply wp_snd. apply resize_formats; [now apply texture_tex_inv | assumption..].
    + apply Hstep, keeps_swizzle_setter.
    + apply Hstep, keeps_filter_setter.
    + apply Hstep, keeps_wrap_x_setter.
    + apply Hstep, keeps_wrap_y_setter.
    + apply Hstep, keeps_anisotropy_setter.
    + apply Hstep, keeps_compare_func_setter.
    + apply Hstep, keeps_read.
    + apply Hstep, keeps_write.
    + pose proof (keeps_snd _ _ e keeps_delete) as Hk. cbv beta in Hk.
      split; [now apply (depth_inv_layout (self e)) | now apply (format_inv_layout (self e))].
Qed.

End Formats.

Section DepthTransfers.

(** X12.  A depth texture can be neither read nor written: both methods pass
    their checks and then fail with AttributeError, because [_format] is
    never assigned on the depth path of [_texture_2d], in every state the
    texture can reach. *)
Theorem depth_texture_transfers_raise (data : list byte) (level alignment : Z) (e : Env) :
  texture e ->
  _depth (self e) = true -> _samples (self e) = 0 -> gl_api (ctx e) = "gl" ->
  0 <= read_size (self e) ->
  _compressed (self e) = true
  \/ len data = _width (self e) * _height (self e) * 1
                * _component_size (self e) * _components (self e) ->
  fst (read level alignment e)
  = inl (AttributeError "'TextureArray' object has no attribute '_format'")
  /\ fst (write (IsBytes data) level None e)
     = inl (AttributeError "'TextureArray' object has no attribute '_format'").
Proof.
  intros Htex Hd Hs Hapi Hn Hlen.
  destruct (texture_formats e Htex) as [HJ _]. specialize (HJ Hd).
  split.
  - enough (H : wp (read level alignment) (fun _ _ => False)
                  (fun x _ => x = AttributeError
                                    "'TextureArray' object has no attribute '_format'") e).
    { apply wp_raises in H as (x & e' & Hrun & ->). now rewrite Hrun. }
    unfold read, read_size in *. wp_step. wp_step. rewrite Hs. cbn [Z.ltb Z.compare].
    wp_step. wp_step. rewrite Hapi.
    rewrite (bool_decide_eq_true_2 ("gl" = "gl")) by reflexivity.
    repeat (wp_open; cbn_fields); try reflexivity; try congruence.
    apply Z.ltb_lt in Heqb. lia.
  - enough (H : wp (write (IsBytes data) level None) (fun _ _ => False)
                  (fun x _ => x = AttributeError
                                    "'TextureArray' object has no attribute '_format'") e).
    { apply wp_raises in H as (x & e' & Hrun & ->). now rewrite Hrun. }
    unfold write. wp_step. wp_step. rewrite Hs. cbn [Z.ltb Z.compare truthy].
    unfold _validate_data_size, data_to_ctypes, bind_self.
    repeat (wp_open; cbn_fields); try reflexivity; try congruence.
    all: repeat match goal with
           | H : negb _ = true |- _ => apply negb_true_iff in H
           | H : (_ =? _) = false |- _ => apply Z.eqb_neq in H
           end; unfold len in *; destruct Hlen; try congruence; try lia.
Qed.

End DepthTransfers.

(** ** Image units *)

Section ImageUnits.
Variable glBindImageTexture : Z -> Z -> Z -> bool -> Z -> Z -> Z -> gl.State -> gl.State.

(** X23.  [bind_to_image] on a texture that is neither multisampled nor a
    depth texture, in every state it can reach: on the restricted API
    variant a texture that is not immutable is refused; otherwise the
    texture is bound to the image unit with its internal format and with
    read-only, write-only or read-write access according to the two flags,
    and a call with neither flag is refused.  Nothing else changes. *)
Theorem bind_to_image_plain (unit_ level : Z) (read write : bool) (e : Env) :
  texture e -> _samples (self e) = 0 -> _depth (self e) = false ->
  exists internal_format,
    _internal_format (self e) = Some internal_format
    /\ bind_to_image glBindImageTexture unit_ read write level e
       = if bool_decide (gl_api (ctx e) = "gles") && negb (_immutable (self e)) then
           (inl (Python (ValueError
              "Textures bound to image units must be created with immutable=True")), e)
         else if read || write then
           (inr tt,
            on_device
              (glBindImageTexture unit_ (_glo (self e)) level false 0
                 (if read then if write then gl.GL_READ_WRITE else gl.GL_READ_ONLY
                  else gl.GL_WRITE_ONLY)
                 internal_format) e)
         else
           (inl (Python (ValueError
              "Illegal access mode. The texture must at least be read or write only")), e).
Proof.
  intros Htex Hs Hd. destruct (texture_formats e Htex) as [_ HK].
  destruct (HK Hs Hd) as [internal_format Hfmt]. exists internal_format.
  split; [exact Hfmt |]. unfold bind_to_image.
  destruct (bool_decide _ && negb _); [reflexivity |].
  destruct read, write; cbn; rewrite ?Hfmt; reflexivity.
Qed.

Lemma wp_any {A} (m : Py A) (Q : A -> Env -> Prop) (E : Exception -> Env -> Prop) e :
  (forall a e', Q a e') -> (forall x e', E x e') -> wp m Q E e.
Proof. intros HQ HE. unfold wp. destruct (m e) as [[x | a] e']; auto. Qed.

Lemma texture_2d_keeps_internal_format (data : option (list byte)) (e : Env) :
  _depth (self e) = true \/ _target (self e) = gl.GL_TEXTURE_2D_MULTISAMPLE_ARRAY ->
  wp (_texture_2d data)
    (fun _ e' => _internal_format (self e') = _internal_format (self e))
    (fun _ _ => True) e.
Proof.
  intros Hcase. unfold _texture_2d. repeat (first [wp_open | wp_step]; cbn_fields).
  all: try exact I.
  all: try reflexivity.
  all: try match goal with
           | H : stable ?e' = stable ?x |- _ =>
               unfold stable, layout in H; cbn_fields; congruence
           end.
  all: destruct Hcase; congruence.
Qed.

Lemma init_internal_format (a : Args) (e : Env) :
  wp (__init__ a)
    (fun _ e' => arg_depth a = true \/ 0 < clamped_samples a (ctx e) ->
                 _internal_format (self e') = arg_internal_format a)
    (fun _ _ => True) e.
Proof.
  unfold __init__, clamped_samples. destruct (arg_size a) as [[w h] l] eqn:Hsize.
  repeat (wp_step; cbn_fields); try exact I.
  destruct (decide (arg_depth a = true
                    \/ 0 < (0 `max` arg_samples a) `min` MAX_SAMPLES (info (ctx e))))
    as [Hcase | Hcase].
  - eapply wp_mono; [apply texture_2d_keeps_internal_format | |]; cbv beta; cbn_fields.
    + destruct Hcase as [? | Hms]; [now left | right].
      destruct (Z.eqb_spec ((0 `max` arg_samples a) `min` MAX_SAMPLES (info (ctx e))) 0);
        [lia | reflexivity].
    + intros [] e1 Hfmt.
      repeat (wp_step; cbn_fields); try exact I.
      all: intros _.
      all: repeat match goal with
             | H : stable ?e' = stable ?x |- _ =>
                 assert (_internal_format (self e') = _internal_format (self x))
                   by (unfold stable, layout in H; congruence);
                 clear H
             end; cbn_fields; congruence.
    + intros; exact I.
  - apply wp_any; [| intros; exact I].
    intros [] e1. apply wp_any; [intros [] e2 Hc; contradiction | intros; exact I].
Qed.

(** X24.  A depth texture or a multisampled texture created without an
    explicit internal format has none, so [bind_to_image] passes None to
    the device entry point, which the foreign function layer refuses; the
    state is as it was. *)
Theorem bind_to_image_without_internal_format (a : Args) (d : gl.State) (c : Context)
    (e : Env) (unit_ level : Z) (read write : bool) :
  create a d c = (inr tt, e) ->
  arg_internal_format a = None ->
  arg_depth a = true \/ 0 < clamped_samples a c ->
  (gl_api c = "gles" -> arg_immutable a = true) ->
  read || write = true ->
  bind_to_image glBindImageTexture unit_ read write level e = (inl ArgumentError, e).
Proof.
  intros Hnew Hnone Hcase Hapi Hrw.
  pose proof (wp_returns _ _ _ _ _ _ (init_internal_format a _) Hnew Hcase) as Hfmt.
  destruct (create_spec a d c e Hnew)
    as (_ & _ & _ & _ & _ & Himm & _ & _ & _ & _ & Hgl & _).
  unfold bind_to_image. rewrite Hfmt, Hnone, Himm, Hgl.
  replace (bool_decide (gl_api c = "gles") && negb (arg_immutable a)) with false.
  - destruct read, write; try reflexivity. discriminate.
  - symmetry. destruct (bool_decide (gl_api c = "gles")) eqn:Hb; [| reflexivity].
    apply bool_decide_eq_true in Hb. now rewrite (Hapi Hb).
Qed.

End ImageUnits.

(** ** Sizes, repeated reads, units and deletion *)

Section WriteSize.


End WriteSize.

Section ReadTwice.

Lemma glGetTexImage_same (target level format type : Z) (buffer : list byte)
    (st st' : gl.State) :
  gl.lookup_texture (gl.bound target st') st' = gl.lookup_texture (gl.bound target st) st ->
  gl.alignment_of gl.GL_PACK_ALIGNMENT st' = gl.alignment_of gl.GL_PACK_ALIGNMENT st ->
  gl.glGetTexImage target level format type buffer st'
  = gl.glGetTexImage target level format type buffer st.
Proof. intros Ht Ha. unfold gl.glGetTexImage. now rewrite Ht, Ha. Qed.

Lemma alignment_glPixelStorei_twice (pname value unit_ target name : Z) (st : gl.State) :
  gl.alignment_of pname
    (gl.glPixelStorei pname value
       (gl.glBindTexture target name (gl.glActiveTexture unit_
          (gl.glPixelStorei pname value st))))
  = gl.alignment_of pname (gl.glPixelStorei pname value st).
Proof.
  unfold gl.glPixelStorei. destruct (decide _); [| reflexivity].
  unfold gl.alignment_of. cbn. now rewrite !lookup_insert_eq.
Qed.

(** X9.  [read] changes neither the object nor what the device holds for any
    texture, and reading again returns the same bytes. *)
Theorem read_is_repeatable (level alignment : Z) (e : Env) :
  texture e ->
  _samples (self e) = 0 -> _depth (self e) = false -> gl_api (ctx e) = "gl" ->
  0 <= read_size (self e) ->
  exists data e1 e2,
    read level alignment e = (inr data, e1)
    /\ read level alignment e1 = (inr data, e2)
    /\ self e1 = self e /\ ctx e1 = ctx e
    /\ gl.textures (device e1) = gl.textures (device e).
Proof.
  intros Htex Hs Hd Hapi Hn.
  pose proof (texture_tex_inv e Htex) as Hinv.
  destruct (read_spec level alignment e Hinv Hs Hd Hapi Hn)
    as (format & type & Hformat & Htype & Hread).
  set (e1 := on_device (fun d => gl.glPixelStorei gl.GL_PACK_ALIGNMENT alignment
                                   (bound_device e d)) e) in *.
  destruct (read_spec level alignment e1 Hinv Hs Hd Hapi Hn)
    as (format' & type' & Hformat' & Htype' & Hread1).
  change (self e1) with (self e) in *.
  assert (format' = format) as -> by congruence.
  assert (type' = type) as -> by congruence.
  do 3 eexists. split; [exact Hread |]. split; [| split; [reflexivity |]].
  - rewrite Hread1. f_equal. f_equal. apply glGetTexImage_same.
    + rewrite !bound_glPixelStorei, !bound_bound_device.
      rewrite !lookup_texture_glPixelStorei.
      unfold bound_device, e1. cbn_fields.
      rewrite bound_glBindTexture, !lookup_texture_bind, lookup_texture_glPixelStorei.
      unfold bound_device. now rewrite lookup_texture_bind.
    + unfold bound_device, e1. cbn_fields. apply alignment_glPixelStorei_twice.
  - split; [reflexivity |]. unfold e1, bound_device. cbn_fields.
    destruct (quiet_glPixelStorei gl.GL_PACK_ALIGNMENT alignment
                (gl.glBindTexture (_target (self e)) (_glo (self e))
                   (gl.glActiveTexture (gl.GL_TEXTURE0 + default_texture_unit (ctx e))
                      (device e)))) as (_ & _ & Htex' & _).
    exact Htex'.
Qed.

End ReadTwice.

Section Units.

Lemma use_spec (unit_ : Z) (e : Env) :
  use unit_ e
  = (inr tt,
     on_device (fun d => gl.glBindTexture (_target (self e)) (_glo (self e))
                           (gl.glActiveTexture (gl.GL_TEXTURE0 + unit_) d)) e).
Proof. reflexivity. Qed.

(** X8.  [use] binds the texture to the unit asked for, and no later call on
    the texture (other than [delete]) undoes that, provided the unit is not
    the default unit of the context, which every method rebinds. *)
Theorem use_survives_calls (unit_ : Z) (call : Call) (e : Env) :
  call <> Delete ->
  unit_ <> default_texture_unit (ctx e) ->
  exists e1,
    use unit_ e = (inr tt, e1)
    /\ gl.bound (_target (self e)) (device e1) = _glo (self e)
    /\ gl.texture_bindings (device (perform call e1))
         !! (gl.GL_TEXTURE0 + unit_, _target (self e))
       = Some (_glo (self e)).
Proof.
  intros Hcall Hunit. eexists. split; [apply use_spec |].
  set (e1 := on_device _ e).
  split; [apply bound_glBindTexture |].
  pose proof (foreign_perform call e1 Hcall) as Hf. unfold foreign in Hf.
  pose proof (f_equal (fun p => p.1.1.2) Hf) as Hu.
  pose proof (f_equal (fun p => p.1.1.1.1.2) Hf) as Hc.
  cbn [fst snd] in Hu, Hc. rewrite Hc in Hu.
  rewrite <- (other_units_lookup (gl.GL_TEXTURE0 + default_texture_unit (ctx e1)))
    by (subst e1; cbn_fields; lia).
  rewrite Hu. rewrite other_units_lookup by (subst e1; cbn_fields; lia).
  subst e1. cbn_fields. unfold gl.glBindTexture, gl.set_texture_bindings.
  cbn. apply lookup_insert_eq.
Qed.

End Units.

Section Collection.

(** X22.  [delete] always returns, and [__del__] never hands a texture that
    was deleted to the context for collection: its handle is 0. *)
Theorem deleted_texture_is_not_collected (objects : list TextureArray) (e : Env) :
  fst (delete e) = inr tt /\ __del__ objects (snd (delete e)) = objects.
Proof.
  split.
  - unfold delete, delete_glo, bind, attr, gets, when, call, assign, modify, ret.
    cbn. destruct (gl.current_context (device e)); cbn; [| reflexivity].
    destruct (_glo (self e) =? 0); reflexivity.
  - unfold __del__. rewrite delete_forgets_handle. now rewrite andb_false_r.
Qed.

(** X20.  Creating a texture and deleting it, while a GL context is current,
    brings the texture counter of the context back to what it was, sets
    the handle to 0 and removes the texture from the device. *)
Theorem create_then_delete (a : Args) (d : gl.State) (c : Context) (e : Env) :
  create a d c = (inr tt, e) ->
  gl.current_context (device e) = true ->
  exists e',
    delete e = (inr tt, e')
    /\ _glo (self e') = 0
    /\ texture_count e' = ContextStats.count "texture" (stats c)
    /\ gl.textures (device e') !! _glo (self e) = None.
Proof.
  intros Hnew Hcur.
  destruct (create_spec a d c e Hnew)
    as (_ & _ & _ & _ & _ & _ & _ & Hglo & _ & _ & _ & Hstats).
  eexists. split; [apply (delete_spec e Hcur) |].
  split; [reflexivity |]. split.
  - unfold texture_count. cbn. rewrite count_decr, Hstats.
    unfold ContextStats.incr. rewrite count_insert. lia.
  - cbn. apply Z.eqb_neq in Hglo. rewrite Hglo.
    unfold gl.glDeleteTextures. apply Z.eqb_neq in Hglo.
    destruct (decide (_glo (self e) = 0)); [contradiction |].
    cbn. apply lookup_delete_eq.
Qed.

(** X21.  Without a current GL context [delete] touches neither the device
    nor the counters of the context: it only sets the handle to 0. *)
Theorem delete_without_context (e : Env) :
  gl.current_context (device e) = false ->
  delete e = (inr tt, on_self (with_glo 0) e).
Proof.
  intros Hcur. unfold delete, delete_glo, bind, attr, gets, assign, modify, ret.
  cbn. now rewrite Hcur.
Qed.

End Collection.

(** ** The images of a texture *)

Section Contents.
Implicit Types (name target pname : Z) (st : gl.State).

Lemma keeps_images_quiet f : quiet f -> keeps_images f.
Proof. intros Hf name st. now rewrite (quiet_lookup_texture f name st Hf). Qed.

Lemma keeps_images_glActiveTexture a : keeps_images (gl.glActiveTexture a).
Proof. intros name st. reflexivity. Qed.

Lemma keeps_images_glBindTexture target name : keeps_images (gl.glBindTexture target name).
Proof. intros n st. reflexivity. Qed.

Lemma images_with_bound name target g st :
  (forall t, gl.tex_images (g t) = gl.tex_images t) ->
  gl.tex_images (gl.lookup_texture name (gl.with_bound target g st))
  = gl.tex_images (gl.lookup_texture name st).
Proof.
  intros Hg. destruct (decide (gl.bound target st = name)) as [Hb | Hb].
  - rewrite lookup_texture_with_bound_eq by exact Hb. apply Hg.
  - now rewrite lookup_texture_with_bound_ne.
Qed.

Lemma keeps_images_glTexParameteri target pname value :
  keeps_images (gl.glTexParameteri target pname value).
Proof. intros name st. now apply images_with_bound. Qed.

Lemma keeps_images_glTexParameterf target pname value :
  keeps_images (gl.glTexParameterf target pname value).
Proof. intros name st. now apply images_with_bound. Qed.

End Contents.

Ltac images_call :=
  first [ apply keeps_images_glActiveTexture | apply keeps_images_glBindTexture
        | apply keeps_images_glTexParameteri | apply keeps_images_glTexParameterf
        | apply keeps_images_quiet; quiet_call ].

Ltac contents_step :=
  match goal with
  | |- context [gl.tex_images (gl.lookup_texture ?n (?f ?st))] =>
      rewrite ((ltac:(images_call) : keeps_images f) n st)
  end.

Ltac contained :=
  cbv beta;
  unfold contents;
  cbn [self device ctx on_self on_device on_ctx
       _glo with_glo with_width with_height with_target with_compare_func with_format
       with_internal_format with_type with_component_size with_filter with_wrap_x
       with_wrap_y with_anisotropy];
  repeat contents_step;
  first [reflexivity | unfold contents in *; congruence].

Create HintDb contents.

Ltac wp_contents :=
  first [ wp_open
        | eapply wp_keeps; [solve [eauto with contents] | intros ? ? ? | intros ? ? ?] ].

Ltac contents_auto := intros ?; repeat (wp_contents; cbn_fields); contained.

Section ContentsKept.

Lemma contents_filter_setter value : keeps contents (filter_setter value).
Proof. unfold filter_setter. contents_auto. Qed.

Lemma contents_wrap_x_setter value : keeps contents (wrap_x_setter value).
Proof. unfold wrap_x_setter. contents_auto. Qed.

Lemma contents_wrap_y_setter value : keeps contents (wrap_y_setter value).
Proof. unfold wrap_y_setter. contents_auto. Qed.

Lemma contents_anisotropy_setter value : keeps contents (anisotropy_setter value).
Proof. unfold anisotropy_setter. contents_auto. Qed.

Lemma contents_compare_func_setter value : keeps contents (compare_func_setter value).
Proof. unfold compare_func_setter. contents_auto. Qed.

Lemma contents_swizzle_loop value enums : keeps contents (swizzle_loop value enums).
Proof.
  revert enums. induction value as [|c rest IH]; intros enums e; cbn [swizzle_loop].
  - now apply wp_ret.
  - destruct (dict_get _ _); [apply IH | now apply wp_raise].
Qed.

Hint Resolve contents_swizzle_loop : contents.

Lemma contents_swizzle_setter value : keeps contents (swizzle_setter value).
Proof. unfold swizzle_setter. contents_auto. Qed.

Lemma contents_read level alignment : keeps contents (read level alignment).
Proof. unfold read. contents_auto. Qed.

(** X5.  The property setters and [read] leave the images of the texture, at
    every level, as they are: only [resize], [write] and [delete] can
    change what the device stores for it. *)
Theorem setters_keep_contents (call : Call) (e : Env) (level : Z) :
  (forall new_size, call <> Resize new_size) ->
  (forall data l viewport, call <> Write data l viewport) ->
  call <> Delete ->
  device_image (perform call e) level = device_image e level.
Proof.
  intros Hresize Hwrite Hdelete.
  enough (H : contents (perform call e) = contents e).
  { unfold contents in H. unfold device_image. injection H as Hg Hi. now rewrite Hi. }
  destruct call; cbn [perform]; try congruence;
    try (now exfalso; eapply Hresize); try (now exfalso; eapply Hwrite);
    apply keeps_snd.
  - apply contents_swizzle_setter.
  - apply contents_filter_setter.
  - apply contents_wrap_x_setter.
  - apply contents_wrap_y_setter.
  - apply contents_anisotropy_setter.
  - apply contents_compare_func_setter.
  - apply contents_read.
Qed.

End ContentsKept.

Section InitialData.

Lemma unpack_tight (w h d bpp : Z) (data : list byte) :
  0 <= w -> 0 <= h -> 0 <= d -> 0 < bpp -> len data = w * h * d * bpp ->
  gl.unpack w h d bpp (w * bpp) data = data.
Proof.
  intros Hw Hh Hd Hb Hlen. unfold len in Hlen. unfold gl.unpack.
  apply list_eq. intros i. rewrite list_lookup_fmap.
  destruct (decide (i < length data)%nat) as [Hi | Hi].
  - rewrite lookup_seq_lt by lia. cbn.
    assert (Hrow : 0 < w * bpp) by nia.
    replace (Z.of_nat i / (w * bpp) * (w * bpp) + Z.of_nat i mod (w * bpp))
      with (Z.of_nat i)
      by (pose proof (Z.div_mod (Z.of_nat i) (w * bpp) ltac:(lia)); lia).
    symmetry. now apply byte_at_lookup_lt.
  - rewrite lookup_seq_ge by lia. cbn. symmetry. apply lookup_ge_None. lia.
Qed.

Lemma alignment_glPixelStorei_other (pname other : Z) (st : gl.State) :
  pname <> other ->
  gl.alignment_of pname (gl.glPixelStorei other 1 st) = gl.alignment_of pname st.
Proof.
  intros Hne. rewrite glPixelStorei_1. unfold gl.alignment_of. cbn.
  now rewrite lookup_insert_ne.
Qed.

Lemma texels_exact (w h d bpp : Z) (data : list byte) :
  len data = w * h * d * bpp -> texels (gl.mkImage w h d data) bpp = data.
Proof.
  intros Hlen. unfold len in Hlen. unfold texels. cbn.
  apply list_eq. intros i. rewrite list_lookup_fmap.
  destruct (decide (i < length data)%nat) as [Hi | Hi].
  - rewrite lookup_seq_lt by lia. cbn. symmetry. now apply byte_at_lookup_lt.
  - rewrite lookup_seq_ge by lia. cbn. symmetry. apply lookup_ge_None. lia.
Qed.

Lemma texture_2d_uploads (data : list byte) (e : Env) :
  _components (self e) ∈ [1; 2; 3; 4] ->
  _target (self e) = gl.GL_TEXTURE_2D_ARRAY ->
  _depth (self e) = false -> _immutable (self e) = false ->
  _compressed (self e) = false -> _compressed_data (self e) = false ->
  _alignment (self e) = 1 ->
  gl.bound (_target (self e)) (device e) = _glo (self e) ->
  0 <= _width (self e) -> 0 <= _height (self e) -> 0 <= _layers (self e) ->
  wp (_texture_2d (Some data))
    (fun _ e' =>
       device_image e' 0
       = Some (gl.mkImage (_width (self e)) (_height (self e)) (_layers (self e)) data)
       /\ len data = read_size (self e'))
    (fun _ _ => True) e.
Proof.
  intros Hc Ht Hd Himm Hcomp Hcd Ha Hb Hw Hh Hl.
  unfold _texture_2d, _validate_data_size, data_to_ctypes.
  repeat (wp_open; cbn_fields); try exact I.
  all: try congruence.
  all: try (assert (gl.GL_TEXTURE_2D_ARRAY = gl.GL_TEXTURE_2D_MULTISAMPLE_ARRAY)
              by congruence; discriminate).
  all: repeat match goal with
         | H : negb _ = false |- _ => apply negb_false_iff in H
         | H : (_ =? _) = true |- _ => apply Z.eqb_eq in H
         end.
  all: match goal with
       | H : dict_get _ pixel_formats = Some ?f |- _ =>
           destruct (pixel_formats_wf _ _ H) as (_ & _ & Hin & Hts & Hfc);
           pose proof (table_bytes_per_pixel _ _ _ H Hc) as Hbpp
       end.
  all: assert (Hpos : 0 < _components (self e) * component_size f)
         by (apply list_elem_of_In in Hin, Hc; cbn in Hin, Hc; apply Z.mul_pos_pos; lia).
  all: simplify_eq.
  all: assert (Hnn : (_components (self e) <? 0) = false)
         by (apply Z.ltb_ge; apply list_elem_of_In in Hc; cbn in Hc; lia).
  all: rewrite Hnn in *; clear Hnn.
  all: split;
         [| unfold read_size; cbn_fields; unfold len in *; lia].
  all: unfold device_image; cbn_fields; unfold gl.glTexImage3D.
  all: rewrite Hbpp.
  all: replace (gl.negative_size _ _ _) with false
         by (symmetry; unfold gl.negative_size;
             repeat (apply orb_false_intro); apply Z.ltb_ge; lia).
  all: rewrite Ha, alignment_glPixelStorei_other, alignment_glPixelStorei_1, row_stride_1
         by discriminate.
  all: rewrite unpack_tight by (unfold len; lia).
  all: rewrite <- Hb at 1.
  all: rewrite <- (bound_glPixelStorei _ gl.GL_UNPACK_ALIGNMENT 1 (device e)).
  all: rewrite <- (bound_glPixelStorei _ gl.GL_PACK_ALIGNMENT 1).
  all: rewrite lookup_texture_with_bound.
  all: unfold gl.set_images; cbn [gl.tex_images]; now rewrite lookup_insert_eq.
Qed.

Lemma keeps_pair {A B C} (p : Env -> B) (q : Env -> C) (m : Py A) :
  keeps p m -> keeps q m -> keeps (fun e => (p e, q e)) m.
Proof.
  intros Hp Hq e. specialize (Hp e). specialize (Hq e). unfold wp in *.
  destruct (m e) as [[x | a] e']; congruence.
Qed.

Lemma init_uploads (a : Args) (data : list byte) (e : Env) :
  arg_data a = Some data ->
  clamped_samples a (ctx e) = 0 -> arg_depth a = false -> arg_immutable a = false ->
  arg_compressed a = false -> arg_compressed_data a = false ->
  0 <= (arg_size a).1.1 -> 0 <= (arg_size a).1.2 -> 0 <= (arg_size a).2 ->
  wp (__init__ a)
     (fun _ e' =>
        device_image e' 0
        = Some (gl.mkImage (arg_size a).1.1 (arg_size a).1.2 (arg_size a).2 data)
        /\ len data = read_size (self e'))
     (fun _ _ => True) e.
Proof.
  intros Hdata Hs Hd Himm Hcomp Hcd. unfold clamped_samples in Hs.
  unfold __init__. destruct (arg_size a) as [[w h] l] eqn:Hsize. cbn [fst snd].
  intros Hw Hh Hl. rewrite Hdata.
  repeat (wp_step; cbn_fields; rewrite ?Hs in *; cbn [Z.eqb] in * ); try exact I.
  assert (Hc : arg_components a ∈ [1; 2; 3; 4]).
  { apply negb_false_iff in Heqb. now apply bool_decide_eq_true in Heqb. }
  eapply wp_mono;
    [apply wp_conj;
       [apply texture_2d_uploads; cbn_fields;
          first [assumption | apply bound_glBindTexture | reflexivity]
       | apply texture_2d_spec; cbn_fields; [exact Hc | reflexivity] ] | |];
    cbv beta; [| intros; exact I].
  intros [] e1 ((Himg & Hlen) & Hkept).
  cbn_fields. wp_open. wp_open. cbn [Z.eqb].
  repeat (first [ wp_open
                | lazymatch goal with
                  | |- wp _ _ _ _ =>
                      eapply wp_keeps;
                      [apply (keeps_pair contents stable);
                         [lazymatch goal with
                          | |- keeps _ (filter_setter _) => apply contents_filter_setter
                          | |- keeps _ (wrap_x_setter _) => apply contents_wrap_x_setter
                          | |- keeps _ (wrap_y_setter _) => apply contents_wrap_y_setter
                          end
                         | lazymatch goal with
                           | |- keeps _ (filter_setter _) => apply keeps_filter_setter
                           | |- keeps _ (wrap_x_setter _) => apply keeps_wrap_x_setter
                           | |- keeps _ (wrap_y_setter _) => apply keeps_wrap_y_setter
                           end]
                      | intros ? ? ? | intros ? ? ?]
                  end ];
          cbv beta in *; try exact I).
  all: repeat match goal with
         | H : (contents ?e', stable ?e') = (contents ?x, stable ?x) |- _ =>
             assert (device_image e' 0 = device_image x 0)
               by (apply (f_equal fst) in H; cbn [fst] in H; unfold contents in H;
                   unfold device_image; congruence);
             assert (read_size (self e') = read_size (self x))
               by (apply (f_equal snd) in H; cbn [snd] in H;
                   unfold stable, layout, shape in H; unfold read_size; congruence);
             clear H
         end.
  all: unfold device_image, read_size in *; cbn_fields; split; congruence.
Qed.

(** X1.  The bytes given to the constructor are the bytes [read] returns:
    for a texture that is not multisampled, not a depth texture, not
    immutable and not compressed, created with data on the full API
    variant with sizes that are not negative, [read] of level 0 on the
    texture the constructor returns gives back exactly that data. *)
Theorem create_with_data_then_read (a : Args) (d : gl.State) (c : Context) (e : Env)
    (data : list byte) :
  create a d c = (inr tt, e) ->
  arg_data a = Some data ->
  clamped_samples a c = 0 -> arg_depth a = false -> arg_immutable a = false ->
  arg_compressed a = false -> arg_compressed_data a = false ->
  gl_api c = "gl" ->
  0 <= (arg_size a).1.1 -> 0 <= (arg_size a).1.2 -> 0 <= (arg_size a).2 ->
  exists e', read 0 1 e = (inr data, e').
Proof.
  intros Hnew Hdata Hs Hd Himm Hcomp Hcd Hapi Hw Hh Hl.
  destruct (create_spec a d c e Hnew)
    as (Hsize & _ & _ & Hsamples & Hdepth & _ & Hcompressed & _ & Hinv & _ & Hgl & _).
  unfold create in Hnew.
  pose proof (wp_returns _ _ _ _ _ _
                (init_uploads a data {| self := unassigned; device := d; ctx := c |}
                   Hdata Hs Hd Himm Hcomp Hcd Hw Hh Hl) Hnew)
    as [Himg Hlen].
  rewrite Hsize in *. cbn [fst snd] in *.
  eexists.
  rewrite (read_texels e _ Hinv ltac:(congruence) ltac:(congruence) ltac:(congruence)
             Himg eq_refl Hw Hh Hl).
  f_equal. f_equal. apply texels_exact. rewrite Hlen. unfold read_size. ring.
Qed.

End InitialData.

(** ** The properties on the sample textures *)

Ltac sample_texture a :=
  apply (texture_new a Sample.device Sample.gl_context); vm_compute; reflexivity.

Lemma create_with_data_then_read_witness :
  exists e', read 0 1 Sample.with_data
             = (inr [Byte.x0a; Byte.x0b; Byte.x0c; Byte.x0d], e').
Proof.
  refine (create_with_data_then_read
            (Sample.args (2, 1, 2) (Some [Byte.x0a; Byte.x0b; Byte.x0c; Byte.x0d])
               false 0 false)
            Sample.device Sample.gl_context Sample.with_data
            [Byte.x0a; Byte.x0b; Byte.x0c; Byte.x0d] _ _ _ _ _ _ _ _ _ _ _);
    vm_compute; first [reflexivity | discriminate].
Defined.

Lemma swizzle_round_trip_witness :
  exists e1 e2,
    swizzle_setter (PyStr "rgb1") Sample.two_layers = (inr tt, e1)
    /\ getter.swizzle e1 = (inr "RGB1", e2).
Proof.
  apply (swizzle_round_trip "rgb1" Sample.two_layers).
  exists "rgb1". split; [reflexivity |]. split; [reflexivity |].
  repeat constructor.
Defined.


Lemma calls_leave_other_textures_witness :
  gl.textures (device (perform (Resize (4, 4)) second_texture))
    !! _glo (self Sample.two_layers)
  = gl.textures (device second_texture) !! _glo (self Sample.two_layers).
Proof.
  apply (calls_leave_other_textures (Resize (4, 4)) second_texture).
  vm_compute. discriminate.
Defined.


Lemma use_survives_calls_witness :
  exists e1,
    use 3 Sample.two_layers = (inr tt, e1)
    /\ gl.bound (_target (self Sample.two_layers)) (device e1)
       = _glo (self Sample.two_layers)
    /\ gl.texture_bindings (device (perform (Resize (4, 4)) e1))
         !! (gl.GL_TEXTURE0 + 3, _target (self Sample.two_layers))
       = Some (_glo (self Sample.two_layers)).
Proof.
  apply (use_survives_calls 3 (Resize (4, 4)) Sample.two_layers);
    [discriminate | vm_compute; discriminate].
Defined.

Lemma read_is_repeatable_witness :
  exists data e1 e2,
    read 0 1 Sample.two_layers = (inr data, e1)
    /\ read 0 1 e1 = (inr data, e2)
    /\ self e1 = self Sample.two_layers /\ ctx e1 = ctx Sample.two_layers
    /\ gl.textures (device e1) = gl.textures (device Sample.two_layers).
Proof.
  apply (read_is_repeatable 0 1 Sample.two_layers);
    [sample_texture (Sample.args (2, 1, 2) None false 0 false) | ..];
    vm_compute; first [reflexivity | discriminate].
Defined.


Lemma depth_texture_transfers_raise_witness :
  fst (read 0 1 Sample.depth_texture)
  = inl (AttributeError "'TextureArray' object has no attribute '_format'")
  /\ fst (write (IsBytes [Byte.x01; Byte.x02]) 0 None Sample.depth_texture)
     = inl (AttributeError "'TextureArray' object has no attribute '_format'").
Proof.
  apply (depth_texture_transfers_raise [Byte.x01; Byte.x02] 0 1 Sample.depth_texture);
    [sample_texture (Sample.args (2, 1, 2) None true 0 false) | ..];
    try right; vm_compute; first [reflexivity | discriminate].
Defined.



Lemma resize_compressed_data_fails_witness :
  exists e',
    resize (4, 4) Sample.compressed
    = (inl (TypeError "object of type 'NoneType' has no len()"), e')
    /\ (_width (self e'), _height (self e')) = (4, 4)
    /\ storage_size e' = storage_size Sample.compressed.
Proof.
  apply (resize_compressed_data_fails (4, 4) Sample.compressed);
    [sample_texture Sample.compressed_args | ..]; vm_compute; reflexivity.
Defined.

Lemma compare_func_setter_depth_witness :
  exists e',
    compare_func_setter (PyStr "<") Sample.depth_texture = (inr tt, e')
    /\ _compare_func (self e') = Some "<"
    /\ device_parami e' gl.GL_TEXTURE_COMPARE_MODE = Some gl.GL_COMPARE_REF_TO_TEXTURE
    /\ device_parami e' gl.GL_TEXTURE_COMPARE_FUNC = Some gl.GL_LESS.
Proof.
  assert (H : _depth (self Sample.depth_texture) = true) by (vm_compute; reflexivity).
  exact (compare_func_setter_depth (PyStr "<") Sample.depth_texture H).
Defined.

Lemma failed_create_leaves_context_witness :
  ctx (snd (create (Sample.typed_args 1 "u9") Sample.device Sample.gl_context))
  = Sample.gl_context.
Proof.
  eapply (failed_create_leaves_context (Sample.typed_args 1 "u9") Sample.device
            Sample.gl_context).
  vm_compute. reflexivity.
Defined.


Lemma create_bad_components_witness :
  exists e',
    create (Sample.typed_args 5 "u1") Sample.device Sample.gl_context
    = (inl (ValueError "Components must be 1, 2, 3 or 4"), e')
    /\ device e' = Sample.device /\ ctx e' = Sample.gl_context.
Proof.
  apply (create_bad_components (Sample.typed_args 5 "u1") Sample.device Sample.gl_context).
  apply (bool_decide_eq_false_1 (5 ∈ [1; 2; 3; 4])). vm_compute. reflexivity.
Defined.

Lemma create_then_delete_witness :
  exists e',
    delete Sample.two_layers = (inr tt, e')
    /\ _glo (self e') = 0
    /\ texture_count e' = ContextStats.count "texture" (stats Sample.gl_context)
    /\ gl.textures (device e') !! _glo (self Sample.two_layers) = None.
Proof.
  apply (create_then_delete (Sample.args (2, 1, 2) None false 0 false) Sample.device
           Sample.gl_context Sample.two_layers); vm_compute; reflexivity.
Defined.

Lemma delete_without_context_witness :
  delete Sample.lost_context = (inr tt, on_self (with_glo 0) Sample.lost_context).
Proof.
  apply (delete_without_context Sample.lost_context). vm_compute. reflexivity.
Defined.

Lemma bind_to_image_plain_witness :
  exists internal_format,
    _internal_format (self Sample.two_layers) = Some internal_format
    /\ bind_to_image (fun _ _ _ _ _ _ _ st => st) 0 true false 0 Sample.two_layers
       = (inr tt, Sample.two_layers).
Proof.
  assert (Htex : texture Sample.two_layers)
    by sample_texture (Sample.args (2, 1, 2) None false 0 false).
  destruct (bind_to_image_plain (fun _ _ _ _ _ _ _ st => st) 0 0 true false
              Sample.two_layers Htex eq_refl eq_refl) as (internal_format & Hf & Hbind).
  exists internal_format. split; [exact Hf |]. rewrite Hbind. vm_compute. reflexivity.
Defined.

Lemma bind_to_image_without_internal_format_witness :
  bind_to_image (fun _ _ _ _ _ _ _ st => st) 0 true true 0 Sample.depth_texture
  = (inl ArgumentError, Sample.depth_texture).
Proof.
  apply (bind_to_image_without_internal_format (fun _ _ _ _ _ _ _ st => st)
           (Sample.args (2, 1, 2) None true 0 false) Sample.device Sample.gl_context);
    [| | left | |]; vm_compute; first [reflexivity | discriminate].
Defined.

Lemma setters_keep_contents_witness :
  device_image (perform (SetWrapX 0x812F) Sample.with_data) 0
  = device_image Sample.with_data 0.
Proof.
  apply (setters_keep_contents (SetWrapX 0x812F) Sample.with_data 0);
    discriminate.
Defined.
